(** * Ideal-Resource-Identifier: the sampling-and-estimation engine

    A shallow embedding of the Docker resource estimator
    ([docker_resource_estimator.py], the command-line tool, and [app.py],
    the Flask application) together with the properties its specification
    states about it.

    Conventions of the embedding:
    - a Python [int] is a [Z];
    - a Python [float] is an exact rational [Q]: the rounding error of
      binary64 arithmetic is outside the model, every arithmetic
      operation is taken to be exact;
    - the Docker stats payload (a JSON object read only through
      [dict.get] with defaults) is a record whose fields are options:
      [None] is an absent key;
    - the Docker daemon is an explicit environment: what each call
      answers is data given to the model;
    - the effects of the code (calls to the daemon, printed lines,
      mutation of the local buffers or of the registry, exceptions) are
      threaded through a state-and-exception monad which records the
      calls in a trace;
    - the wall clock is data as well: the list of iterations it lets a
      loop begin, and the time read by a request.

    Left out: the connection to the daemon ([docker.from_env()], taken
    to succeed), the writing of the JSON report, the optional shutdown
    of the Docker engine, the HTML pages and the routes that only serve
    them. *)

From Stdlib Require Import ZArith QArith Qround Qabs Lqa String Ascii List Lia Bool DecimalString.
From stdpp Require Import gmap strings list.

Local Open Scope Z_scope.

(** ** Python numeric primitives *)

Module Py.

(** [round(x)] on a float: nearest integer, ties to the even one. *)
Definition round (x : Q) : Z :=
  let f := Qfloor x in
  match (x - inject_Z f ?= 1 # 2)%Q with
  | Lt => f
  | Gt => f + 1
  | Eq => if Z.even f then f else f + 1
  end.

(** [round(x, ndigits)] on a float, for [ndigits >= 0]: a float again,
    the nearest multiple of [10 ** -ndigits], ties to even. *)
Definition round_nd (x : Q) (ndigits : nat) : Q :=
  let p := 10 ^ Z.of_nat ndigits in
  (inject_Z (round (x * inject_Z p)) / inject_Z p)%Q.

(** [int / int], Python's true division. *)
Definition truediv (a b : Z) : Q := (inject_Z a / inject_Z b)%Q.

Definition sum (l : list Q) : Q := fold_left Qplus l 0%Q.

(** [statistics.mean(l)]: the sum over the length; [None] stands for
    the [StatisticsError] an empty list raises. *)
Definition mean (l : list Q) : option Q :=
  match l with
  | [] => None
  | _ :: _ => Some (sum l / inject_Z (Z.of_nat (length l)))%Q
  end.

(** [max(l)]: the first of the largest elements; [None] stands for
    the [ValueError] an empty list raises. *)
Fixpoint max_from (m : Q) (l : list Q) : Q :=
  match l with
  | [] => m
  | x :: l' => max_from (if Qlt_le_dec m x then x else m) l'
  end.

Definition max (l : list Q) : option Q :=
  match l with
  | [] => None
  | x :: l' => Some (max_from x l')
  end.

(** [needle in hay] on strings. *)
Fixpoint contains (needle hay : string) : bool :=
  String.prefix needle hay ||
  match hay with
  | EmptyString => false
  | String _ hay' => contains needle hay'
  end.

(** [str(n)] of an int. *)
Definition str_of_Z (n : Z) : string :=
  DecimalString.NilZero.string_of_int (Z.to_int n).

(** Truthiness of an optional string, [if custom_command:]. *)
Definition truthy_str (s : option string) : bool :=
  match s with
  | Some (String _ _) => true
  | _ => false
  end.

End Py.

(** ** The stats payload of the Docker daemon *)

Record cpu_usage_t := CpuUsage {
  total_usage : option Z;
  percpu_usage : option (list Z)
}.

Record cpu_stats_t := CpuStats {
  cpu_usage : option cpu_usage_t;
  system_cpu_usage : option Z;
  online_cpus : option Z
}.

Record memory_stats_t := MemoryStats {
  usage : option Z
}.

Record stats_t := Stats {
  cpu_stats : option cpu_stats_t;
  precpu_stats : option cpu_stats_t;
  memory_stats : option memory_stats_t
}.

(** ** Counter delta calculator

    The three sampling sites ([estimate_resources],
    [estimate_single_image], [api_live_test_stats]) repeat the same
    lines; they are written once here, one definition per source
    variable. *)

Module Delta.

(** [d.get(key, dflt)] on an optional field. *)
Definition get {A} (field : option A) (dflt : A) : A :=
  match field with
  | Some v => v
  | None => dflt
  end.

(** [stats.get("cpu_stats", {}).get("cpu_usage", {})]: the empty
    dictionary stands for an absent one. *)
Definition cpu_usage_of (c : option cpu_stats_t) : cpu_usage_t :=
  get (cpu_usage (get c (CpuStats None None None))) (CpuUsage None None).

(** [cpu_stats.get("cpu_usage", {}).get("total_usage", 0)] *)
Definition total_of (c : option cpu_stats_t) : Z :=
  get (total_usage (cpu_usage_of c)) 0.

(** [cpu_stats.get("system_cpu_usage", 0)] *)
Definition system_of (c : option cpu_stats_t) : Z :=
  get (system_cpu_usage (get c (CpuStats None None None))) 0.

Definition cpu_delta (s : stats_t) : Z :=
  total_of (cpu_stats s) - total_of (precpu_stats s).

Definition system_delta (s : stats_t) : Z :=
  system_of (cpu_stats s) - system_of (precpu_stats s).

(** [len(percpu_usage) if percpu_usage else 1] with
    [percpu_usage = cpu_stats.get("cpu_usage", {}).get("percpu_usage", [])] *)
Definition percpu_count (s : stats_t) : Z :=
  match get (percpu_usage (cpu_usage_of (cpu_stats s))) [] with
  | [] => 1
  | x :: l => Z.of_nat (length (x :: l))
  end.

(** [online_cpus = cpu_stats.get("online_cpus")]
    [if not online_cpus: online_cpus = ...] *)
Definition online_cpus_of (s : stats_t) : Z :=
  match online_cpus (get (cpu_stats s) (CpuStats None None None)) with
  | Some n => if n =? 0 then percpu_count s else n
  | None => percpu_count s
  end.

(** [system_delta > 0 and cpu_delta >= 0] *)
Definition guard (s : stats_t) : bool :=
  (0 <? system_delta s) && (0 <=? cpu_delta s).

(** [(cpu_delta / system_delta) * online_cpus * 100.0] *)
Definition cpu_percent (s : stats_t) : Q :=
  (Py.truediv (cpu_delta s) (system_delta s)
     * inject_Z (online_cpus_of s) * 100)%Q.

(** [stats.get("memory_stats", {}).get("usage", 0) / (1024 ** 2)] *)
Definition mem_usage (s : stats_t) : Q :=
  Py.truediv (get (usage (get (memory_stats s) (MemoryStats None))) 0) (1024 ^ 2).

End Delta.

(** ** Sizing recommender *)

Module Sizing.

(** [max(1, round(peak_cpu / 80))] *)
Definition recommended_vcpu (peak_cpu : Q) : Z :=
  Z.max 1 (Py.round (peak_cpu / 80)).

(** [round(peak_mem * 1.5 / 1024, 2)] *)
Definition recommended_ram (peak_mem : Q) : Q :=
  Py.round_nd (peak_mem * 1.5 / 1024) 2.

Record instances_t := Instances {
  aws : string;
  gcp : string;
  azure : string
}.

(** [get_instance_recommendations] of app.py. *)
Definition get_instance_recommendations (vcpu : Z) (ram_gb : Q) : instances_t :=
  if (vcpu =? 1) && Qle_bool ram_gb 1 then
    Instances "t3.micro" "e2-micro" "B1s"
  else if (vcpu =? 1) && Qle_bool ram_gb 2 then
    Instances "t3.small" "e2-small" "B1ms"
  else if vcpu =? 2 then
    Instances "t3.medium" "e2-medium" "B2s"
  else
    Instances "t3.large+" "e2-standard+" "B2ms+".

(** The line [estimate_resources] prints under "Recommended Instances"
    (docker_resource_estimator.py, the [if]/[elif] chain that ends the
    report), without its leading bullet. *)
Definition cli_instance_line (recommended_vcpu : Z) (recommended_ram : Q) : string :=
  if (recommended_vcpu =? 1) && Qle_bool recommended_ram 1 then
    "AWS: t3.micro / GCP: e2-micro / Azure: B1s"
  else if (recommended_vcpu =? 1) && Qle_bool recommended_ram 2 then
    "AWS: t3.small / GCP: e2-small / Azure: B1ms"
  else if recommended_vcpu =? 2 then
    "AWS: t3.medium / GCP: e2-medium / Azure: B2s"
  else
    "AWS: t3.large+ / GCP: e2-standard / Azure: B2ms+".

(** How the tool would print an [instances_t]. *)
Definition render_line (i : instances_t) : string :=
  "AWS: " +:+ aws i +:+ " / GCP: " +:+ gcp i +:+ " / Azure: " +:+ azure i.

End Sizing.

(** ** Exceptions, daemon calls and the effect monad *)

(** A container command: a shell string or an argument vector. *)
Inductive command :=
| CmdStr (s : string)
| CmdList (argv : list string).

(** The exceptions the code names, and one constructor for every other
    subclass of [Exception]. [ImageNotFound] derives from [APIError];
    [KeyboardInterrupt] and [SystemExit] derive from [BaseException]
    only. *)
Inductive exn :=
| ImageNotFound (msg : string)
| APIError (msg : string)
| ContainerError (msg : string)
| StopIteration
| KeyError (msg : string)
| KeyboardInterrupt
| SystemExit (code : Z)
| OtherException (msg : string).

Definition is_APIError (e : exn) : bool :=
  match e with
  | ImageNotFound _ | APIError _ => true
  | _ => false
  end.

Definition is_Exception (e : exn) : bool :=
  match e with
  | KeyboardInterrupt | SystemExit _ => false
  | _ => true
  end.

(** [str(e)] *)
Definition str_of_exn (e : exn) : string :=
  match e with
  | ImageNotFound m | APIError m | ContainerError m | KeyError m
  | OtherException m => m
  | StopIteration | KeyboardInterrupt => ""
  | SystemExit c => Py.str_of_Z c
  end.

(** What a run leaves behind, in order: the calls made to the daemon and
    the lines printed. Printed lines are kept without their pictograms;
    the lines that format floats are kept as structured events. *)
Inductive event :=
| EImagesGet (image : string)
| EImagesPull (image : string)
| ERun (image : string) (cmd : option command)
| EReload
| ENext
| EStatsOnce
| ELogs
| EStop
| ERemove
| ESleep (secs : Z)
| EPrint (line : string)
| EPrintSummary (avg_cpu peak_cpu avg_mem peak_mem : Q)
| EPrintEstimate (vcpu : Z) (ram_gb : Q).

Definition is_stop (e : event) : bool :=
  match e with EStop => true | _ => false end.

Definition is_remove (e : event) : bool :=
  match e with ERemove => true | _ => false end.

Definition is_daemon_call (e : event) : bool :=
  match e with
  | EPrint _ | EPrintSummary _ _ _ _ | EPrintEstimate _ _ | ESleep _ => false
  | _ => true
  end.

(** Number of events of a kind in a trace. *)
Fixpoint count (p : event -> bool) (t : list event) : nat :=
  match t with
  | [] => 0
  | e :: t' => ((if p e then 1 else 0) + count p t')%nat
  end.

Module Eff.
Section Monad.

(** [St] is the mutable state the code works on: it survives an
    exception, as Python objects do. *)
Context {St : Type}.

Record res (A : Type) := Res {
  outcome : exn + A;
  final : St;
  events : list event
}.
Arguments Res {A}.
Arguments outcome {A}.
Arguments final {A}.
Arguments events {A}.

Definition M (A : Type) := St -> res A.

Definition ret {A} (a : A) : M A := fun s => Res (inr a) s [].

Definition raise {A} (e : exn) : M A := fun s => Res (inl e) s [].

Definition bind {A B} (m : M A) (f : A -> M B) : M B := fun s =>
  match m s with
  | Res (inl e) s1 t1 => Res (inl e) s1 t1
  | Res (inr a) s1 t1 =>
      match f a s1 with
      | Res o s2 t2 => Res o s2 (t1 ++ t2)
      end
  end.

(** [try: m  except BaseException as e: h e]; a handler re-raises what
    no [except] clause of the source matches. *)
Definition try_except {A} (m : M A) (h : exn -> M A) : M A := fun s =>
  match m s with
  | Res (inl e) s1 t1 =>
      match h e s1 with
      | Res o s2 t2 => Res o s2 (t1 ++ t2)
      end
  | Res (inr a) s1 t1 => Res (inr a) s1 t1
  end.

(** [try: m  finally: c]: [c] always runs; what [m] returned or raised
    stands unless [c] itself raises. *)
Definition try_finally {A} (m : M A) (c : M unit) : M A := fun s =>
  match m s with
  | Res o s1 t1 =>
      match c s1 with
      | Res (inl e) s2 t2 => Res (inl e) s2 (t1 ++ t2)
      | Res (inr _) s2 t2 => Res o s2 (t1 ++ t2)
      end
  end.

Definition get_state : M St := fun s => Res (inr s) s [].

Definition modify (f : St -> St) : M unit := fun s => Res (inr tt) (f s) [].

Definition emit (e : event) : M unit := fun s => Res (inr tt) s [e].

(** A call to the daemon: recorded, then answered as the environment
    says. *)
Definition call {A} (e : event) (answer : exn + A) : M A :=
  bind (emit e) (fun _ => match answer with
                          | inl x => raise x
                          | inr a => ret a
                          end).

(** A call that returns nothing: [None] is success. *)
Definition call_ (e : event) (answer : option exn) : M unit :=
  call e (match answer with Some x => inl x | None => inr tt end).

Definition print (line : string) : M unit := emit (EPrint line).

Definition when (b : bool) (m : M unit) : M unit :=
  if b then m else ret tt.

End Monad.

Arguments res : clear implicits.
Arguments M : clear implicits.
Arguments Res {St A}.
Arguments outcome {St A}.
Arguments final {St A}.
Arguments events {St A}.

End Eff.

Import Eff.

Declare Scope eff_scope.
Delimit Scope eff_scope with eff.
Notation "'do' x <- m ; k" := (bind m (fun x => k))
  (at level 10, x name, m at level 100, k at level 200,
   format "'[v' 'do'  x  <-  m ;  '/' k ']'") : eff_scope.
Notation "'do_' m ; k" := (bind m (fun _ => k))
  (at level 10, m at level 100, k at level 200,
   format "'[v' 'do_'  m ;  '/' k ']'") : eff_scope.
Local Open Scope eff_scope.

(** [statistics.mean] and [max] inside the monad: an empty list raises. *)
Definition mean_or_raise {St} (l : list Q) : M St Q :=
  match Py.mean l with
  | Some v => ret v
  | None => raise (OtherException "mean requires at least one data point")
  end.

Definition max_or_raise {St} (l : list Q) : M St Q :=
  match Py.max l with
  | Some v => ret v
  | None => raise (OtherException "max() arg is an empty sequence")
  end.

(** [not l] on a list. *)
Definition is_empty {A} (l : list A) : bool :=
  match l with [] => true | _ :: _ => false end.

(** ** The daemon as seen by one batch run

    One run of [estimate_resources] or of [estimate_single_image] talks
    to the daemon about one image and one container. [clock] has one
    entry for each iteration the wall clock lets the [while] loop begin
    ([time.time() - start < test_duration]); an entry says what
    [container.reload()] and [next(stats_stream)] answer then. *)

Record tick := Tick {
  reload_answer : exn + string;
  next_answer : exn + stats_t
}.

Record daemon := Daemon {
  images_get : option exn;
  images_pull : option exn;
  containers_run : option command -> option exn;
  clock : list tick;
  stop_answer : option exn;
  remove_answer : option exn
}.

(** The buffers of one run. *)
Record locals := Locals {
  cpu_usages : list Q;
  mem_usages : list Q;
  sample_count : Z
}.

Definition no_samples : locals := Locals [] [] 0.

(** [cpu_usages = []], [mem_usages = []], [sample_count = 0] *)
Definition init_buffers : M locals unit := modify (fun _ => no_samples).

Definition append_cpu (x : Q) (s : locals) : locals :=
  Locals (cpu_usages s ++ [x]) (mem_usages s) (sample_count s).

Definition append_mem (x : Q) (s : locals) : locals :=
  Locals (cpu_usages s) (mem_usages s ++ [x]) (sample_count s).

Definition incr_sample_count (s : locals) : locals :=
  Locals (cpu_usages s) (mem_usages s) (sample_count s + 1).

(** What the lines of an iteration that follow the payload leave in
    the buffers: a CPU value if the guard passes, a memory value, one
    more sample. *)
Definition record_sample (stats : stats_t) (s : locals) : locals :=
  incr_sample_count
    (append_mem (Delta.mem_usage stats)
       (if Delta.guard stats then append_cpu (Delta.cpu_percent stats) s else s)).

(** The same daemon with other answers to [stop] and [remove]. *)
Definition with_cleanup (d : daemon) (stop remove : option exn) : daemon :=
  Daemon (images_get d) (images_pull d) (containers_run d) (clock d) stop remove.

Definition TAIL : string := "tail -f /dev/null".
Definition SLEEP : string := "sleep infinity".
Definition SH_SLEEP : list string := ["/bin/sh"; "-c"; "sleep infinity"].
Definition NOT_FOUND : string := "executable file not found".

(** [cmd = custom_command if custom_command else "tail -f /dev/null"] *)
Definition first_command (custom_command : option string) : string :=
  match custom_command with
  | Some (String a s) => String a s
  | _ => TAIL
  end.

(** ** docker_resource_estimator.py: [estimate_resources] *)

Module Cli.
Section EstimateResources.

Variable d : daemon.
Variable image_name : string.
Variable test_duration : Z.
Variable custom_command : option string.

Definition exit_1 {A} : M locals A := raise (SystemExit 1).

Definition run_container (cmd : option command) : M locals unit :=
  call_ (ERun image_name cmd) (containers_run d cmd).

Definition resolve_image : M locals unit :=
  do_ print ("Checking if image '" +:+ image_name +:+ "' is available locally...");
  try_except
    (do_ call_ (EImagesGet image_name) (images_get d);
     print "Image found locally.")
    (fun e =>
       match e with
       | ImageNotFound _ =>
           do_ print "Image not found locally. Pulling from registry...";
           try_except
             (do_ call_ (EImagesPull image_name) (images_pull d);
              print "Image pulled successfully.")
             (fun e' =>
                if is_APIError e' then
                  do_ print ("Failed to pull image: " +:+ str_of_exn e');
                  exit_1
                else raise e')
       | _ => raise e
       end).

(** The fallback commands, innermost [try] last. *)
Definition fallback_default : M locals unit :=
  try_except
    (do_ run_container None;
     print "Using image's default command (may exit quickly)")
    (fun final_e =>
       if is_APIError final_e then
         do_ print ("Docker API error: " +:+ str_of_exn final_e);
         exit_1
       else raise final_e).

Definition fallback_sh : M locals unit :=
  try_except
    (do_ run_container (Some (CmdList SH_SLEEP));
     print "Container started with command: /bin/sh -c sleep infinity")
    (fun e => if is_APIError e then fallback_default else raise e).

Definition fallback_sleep : M locals unit :=
  try_except
    (do_ run_container (Some (CmdStr SLEEP));
     print "Container started with command: sleep infinity")
    (fun e => if is_APIError e then fallback_sh else raise e).

Definition start_container : M locals unit :=
  let cmd := first_command custom_command in
  try_except
    (do_ run_container (Some (CmdStr cmd));
     print ("Container started with command: " +:+ cmd))
    (fun e =>
       match e with
       | ContainerError _ =>
           do_ print ("Failed to run container: " +:+ str_of_exn e);
           exit_1
       | _ =>
           if is_APIError e then
             if Py.contains NOT_FOUND (str_of_exn e)
                && negb (Py.truthy_str custom_command) then
               do_ print "'tail' command not found in image. Trying alternative commands...";
               fallback_sleep
             else
               do_ print ("Docker API error: " +:+ str_of_exn e);
               exit_1
           else raise e
       end).

(** One iteration of the [while] loop; the result says whether the
    loop is left ([break]). *)
Definition sample (t : tick) : M locals bool :=
  try_except
    (do status <- call EReload (reload_answer t);
     if negb (String.eqb status "running") then
       do s <- get_state;
       do_ print ("Container exited with status '" +:+ status +:+ "' after "
                 +:+ Py.str_of_Z (sample_count s) +:+ " samples.");
       do_ print "Tip: This image may need a custom command to stay running.";
       ret true
     else
       do stats <- call ENext (next_answer t);
       do_ when (Delta.guard stats) (modify (append_cpu (Delta.cpu_percent stats)));
       do_ modify (append_mem (Delta.mem_usage stats));
       do_ modify incr_sample_count;
       do_ emit (ESleep 1);
       ret false)
    (fun e =>
       match e with
       | StopIteration | KeyError _ =>
           do s <- get_state;
           do_ print ("Container exited or stats unavailable after "
                     +:+ Py.str_of_Z (sample_count s) +:+ " samples.");
           ret true
       | _ => raise e
       end).

Fixpoint collect (ticks : list tick) : M locals unit :=
  match ticks with
  | [] => ret tt
  | t :: rest =>
      do stop <- sample t;
      if stop then ret tt else collect rest
  end.

(** The [finally] block. [container] is set whenever control reaches
    it: every failed start has left through [sys.exit]. *)
Definition cleanup : M locals unit :=
  do_ print "Cleaning up container...";
  try_except
    (do_ call_ EStop (stop_answer d);
     call_ ERemove (remove_answer d))
    (fun e =>
       if is_Exception e then print ("Error during cleanup: " +:+ str_of_exn e)
       else raise e).

(** The loop under its two outer [except] clauses. *)
Definition guarded_collect : M locals unit :=
  try_except (collect (clock d))
    (fun e =>
       match e with
       | KeyboardInterrupt => print "Interrupted by user. Stopping container early."
       | _ =>
           if is_Exception e then
             print ("Error during stats collection: " +:+ str_of_exn e)
           else raise e
       end).

Definition collect_and_cleanup : M locals unit :=
  try_finally guarded_collect cleanup.

(** What is written to [resource_report.json]. *)
Record report := Report {
  image : string;
  duration_sec : Z;
  cpu_avg : Q;
  cpu_peak : Q;
  mem_avg_mb : Q;
  mem_peak_mb : Q;
  vcpu : Z;
  ram_gb : Q
}.

Definition NO_STATS : string :=
  "No stats collected. The container might have exited too early.".

Definition summarise : M locals report :=
  do s <- get_state;
  if is_empty (cpu_usages s) || is_empty (mem_usages s) then
    do_ print NO_STATS;
    exit_1
  else
    do avg_cpu <- mean_or_raise (cpu_usages s);
    do peak_cpu <- max_or_raise (cpu_usages s);
    do avg_mem <- mean_or_raise (mem_usages s);
    do peak_mem <- max_or_raise (mem_usages s);
    let recommended_vcpu := Sizing.recommended_vcpu peak_cpu in
    let recommended_ram := Sizing.recommended_ram peak_mem in
    do_ emit (EPrintSummary avg_cpu peak_cpu avg_mem peak_mem);
    do_ emit (EPrintEstimate recommended_vcpu recommended_ram);
    do_ print (Sizing.cli_instance_line recommended_vcpu recommended_ram);
    do_ print "Report saved as resource_report.json";
    ret (Report image_name test_duration avg_cpu peak_cpu avg_mem peak_mem
           recommended_vcpu recommended_ram).

(** The whole function, up to the report; the optional shutdown of
    the Docker engine that may follow is not part of the engine. *)
Definition estimate_resources : M locals report :=
  do_ resolve_image;
  do_ start_container;
  do_ init_buffers;
  do_ collect_and_cleanup;
  summarise.

End EstimateResources.
End Cli.

(** ** app.py: [estimate_single_image] *)

Module Web.

(** The dictionary a successful run returns. *)
Record result_t := Result {
  image : string;
  duration_sec : Z;
  cpu_avg : Q;
  cpu_peak : Q;
  mem_avg_mb : Q;
  mem_peak_mb : Q;
  vcpu : Z;
  ram_gb : Q;
  instances : Sizing.instances_t;
  samples : Z
}.

(** What the function returns: [{"error": ...}] or the result. *)
Inductive returned :=
| Error (error : string)
| Ok (r : result_t).

Definition NO_STATS : string :=
  "No stats collected. Container may have exited too early.".

Section EstimateSingleImage.

Variable d : daemon.
Variable image_name : string.
Variable test_duration : Z.
Variable custom_command : option string.

(** A phase either makes the function [return] or lets it go on. *)
Definition unless_returned (phase : M locals (option returned))
    (rest : M locals returned) : M locals returned :=
  do r <- phase;
  match r with
  | Some early => ret early
  | None => rest
  end.

Definition run_container (cmd : option command) : M locals unit :=
  call_ (ERun image_name cmd) (containers_run d cmd).

Definition resolve_image : M locals (option returned) :=
  try_except
    (do_ call_ (EImagesGet image_name) (images_get d);
     ret None)
    (fun e =>
       match e with
       | ImageNotFound _ =>
           try_except
             (do_ call_ (EImagesPull image_name) (images_pull d);
              ret None)
             (fun e' =>
                if is_APIError e' then
                  ret (Some (Error ("Failed to pull image: " +:+ str_of_exn e')))
                else raise e')
       | _ => raise e
       end).

(** The fallbacks; both inner handlers are wider than [APIError]: a
    bare [except:] and an [except Exception]. *)
Definition fallback_default : M locals (option returned) :=
  try_except
    (do_ run_container None;
     ret None)
    (fun final_e =>
       if is_Exception final_e then
         ret (Some (Error ("Failed to start container: " +:+ str_of_exn final_e)))
       else raise final_e).

Definition fallback_sleep : M locals (option returned) :=
  try_except
    (do_ run_container (Some (CmdStr SLEEP));
     ret None)
    (fun _ => fallback_default).

Definition start_container : M locals (option returned) :=
  let cmd := first_command custom_command in
  try_except
    (do_ run_container (Some (CmdStr cmd));
     ret None)
    (fun e =>
       if is_APIError e then
         if Py.contains NOT_FOUND (str_of_exn e)
            && negb (Py.truthy_str custom_command) then
           fallback_sleep
         else
           ret (Some (Error ("Failed to start container: " +:+ str_of_exn e)))
       else raise e).

(** One iteration of the [while] loop; the result says whether the
    loop is left ([break]). *)
Definition sample (t : tick) : M locals bool :=
  try_except
    (do status <- call EReload (reload_answer t);
     if negb (String.eqb status "running") then
       ret true
     else
       do stats <- call ENext (next_answer t);
       do_ when (Delta.guard stats) (modify (append_cpu (Delta.cpu_percent stats)));
       do_ modify (append_mem (Delta.mem_usage stats));
       do_ modify incr_sample_count;
       do_ emit (ESleep 1);
       ret false)
    (fun e =>
       match e with
       | StopIteration | KeyError _ => ret true
       | _ => raise e
       end).

Fixpoint collect (ticks : list tick) : M locals unit :=
  match ticks with
  | [] => ret tt
  | t :: rest =>
      do stop <- sample t;
      if stop then ret tt else collect rest
  end.

(** The [finally] block: [except: pass]. *)
Definition cleanup : M locals unit :=
  try_except
    (do_ call_ EStop (stop_answer d);
     call_ ERemove (remove_answer d))
    (fun _ => ret tt).

Definition collect_and_cleanup : M locals unit :=
  try_finally (collect (clock d)) cleanup.

Definition summarise : M locals returned :=
  do s <- get_state;
  if is_empty (cpu_usages s) || is_empty (mem_usages s) then
    ret (Error NO_STATS)
  else
    do avg_cpu <- mean_or_raise (cpu_usages s);
    do peak_cpu <- max_or_raise (cpu_usages s);
    do avg_mem <- mean_or_raise (mem_usages s);
    do peak_mem <- max_or_raise (mem_usages s);
    let recommended_vcpu := Sizing.recommended_vcpu peak_cpu in
    let recommended_ram := Sizing.recommended_ram peak_mem in
    let instances :=
      Sizing.get_instance_recommendations recommended_vcpu recommended_ram in
    ret (Ok (Result image_name test_duration
               (Py.round_nd avg_cpu 2) (Py.round_nd peak_cpu 2)
               (Py.round_nd avg_mem 2) (Py.round_nd peak_mem 2)
               recommended_vcpu recommended_ram instances (sample_count s))).

(** The whole function; the outermost handler turns every
    [Exception] into an error dictionary. *)
Definition estimate_single_image : M locals returned :=
  try_except
    (unless_returned resolve_image
       (unless_returned start_container
          (do_ init_buffers;
           do_ collect_and_cleanup;
           summarise)))
    (fun e =>
       if is_Exception e then ret (Error (str_of_exn e))
       else raise e).

End EstimateSingleImage.
End Web.

(** ** app.py: the live test, [api_live_test_stats] and
    [api_stop_live_test] *)

Module Live.

(** An entry of the registry [live_containers], as
    [api_start_live_test] creates it (the container handle is the
    key). *)
Record container_info := Info {
  image : string;
  start_time : Q;
  cpu_history : list Q;
  mem_history : list Q;
  samples : Z;
  logs : string
}.

Definition fresh_info (image : string) (start_time : Q) : container_info :=
  Info image start_time [] [] 0 "".

Abbreviation registry := (gmap string container_info).

(** What the daemon and the clock answer during one request. *)
Record request_env := RequestEnv {
  reload_now : exn + string;
  stats_now : exn + stats_t;
  logs_now : exn + string;
  stop_now : option exn;
  remove_now : option exn;
  time_now : Q
}.

Record stats_summary := StatsSummary {
  s_cpu_avg : Q;
  s_cpu_peak : Q;
  s_mem_avg_mb : Q;
  s_mem_peak_mb : Q;
  s_samples : Z;
  s_duration_sec : Z
}.

Record recommendations_t := Recommendations {
  vcpu : Z;
  ram_gb : Q;
  instances : Sizing.instances_t;
  stats : stats_summary
}.

(** The JSON bodies the two endpoints answer with. *)
Inductive response :=
| RError (error : string)
| RStats (cpu_current cpu_avg cpu_peak mem_current mem_avg mem_peak : Q)
         (samples : Z) (runtime : Q) (logs : string)
| RStopped (recommendations : option recommendations_t).

Definition push_cpu (x : Q) (i : container_info) : container_info :=
  Info (image i) (start_time i) (cpu_history i ++ [x]) (mem_history i)
    (samples i) (logs i).

Definition push_mem (x : Q) (i : container_info) : container_info :=
  Info (image i) (start_time i) (cpu_history i) (mem_history i ++ [x])
    (samples i) (logs i).

Definition incr_samples (i : container_info) : container_info :=
  Info (image i) (start_time i) (cpu_history i) (mem_history i)
    (samples i + 1) (logs i).

Definition set_logs (l : string) (i : container_info) : container_info :=
  Info (image i) (start_time i) (cpu_history i) (mem_history i)
    (samples i) l.

Section Endpoints.

Variable d : request_env.
Variable container_id : string.

(** [container_info] is the dictionary stored in the registry: a
    mutation of it is a mutation of the registry entry. *)
Definition update_info (f : container_info -> container_info) : M registry unit :=
  modify (alter f container_id).

Definition read_info : M registry container_info :=
  do live_containers <- get_state;
  match live_containers !! container_id with
  | Some i => ret i
  | None => raise (KeyError container_id)
  end.

(** [statistics.mean(h) if h else 0], [max(h) if h else 0] *)
Definition mean_or_0 (h : list Q) : M registry Q :=
  if is_empty h then ret 0%Q else mean_or_raise h.

Definition max_or_0 (h : list Q) : M registry Q :=
  if is_empty h then ret 0%Q else max_or_raise h.

Definition api_live_test_stats : M registry response :=
  do live_containers <- get_state;
  match live_containers !! container_id with
  | None => ret (RError "Container not found")
  | Some _ =>
      try_except
        (do status <- call EReload (reload_now d);
         if negb (String.eqb status "running") then
           ret (RError "Container is not running")
         else
           do stats <- call EStatsOnce (stats_now d);
           let cpu_percent := 0%Q in
           let cpu_percent :=
             if Delta.guard stats then Delta.cpu_percent stats else cpu_percent in
           let mem_usage := Delta.mem_usage stats in
           do_ update_info (push_cpu cpu_percent);
           do_ update_info (push_mem mem_usage);
           do_ update_info incr_samples;
           do i <- read_info;
           do cpu_avg <- mean_or_0 (cpu_history i);
           do cpu_peak <- max_or_0 (cpu_history i);
           do mem_avg <- mean_or_0 (mem_history i);
           do mem_peak <- max_or_0 (mem_history i);
           do logs <- try_except
                        (do l <- call ELogs (logs_now d);
                         do_ update_info (set_logs l);
                         ret l)
                        (fun _ => do i' <- read_info; ret (logs i'));
           ret (RStats cpu_percent cpu_avg cpu_peak mem_usage mem_avg mem_peak
                  (samples i) (time_now d - start_time i) logs))
        (fun e =>
           if is_Exception e then ret (RError (str_of_exn e))
           else raise e)
  end.

(** The recommendations computed "before stopping". *)
Definition recommend (i : container_info) : M registry (option recommendations_t) :=
  if negb (is_empty (cpu_history i)) && negb (is_empty (mem_history i)) then
    do cpu_avg <- mean_or_raise (cpu_history i);
    do cpu_peak <- max_or_raise (cpu_history i);
    do mem_avg <- mean_or_raise (mem_history i);
    do mem_peak <- max_or_raise (mem_history i);
    let recommended_vcpu := Sizing.recommended_vcpu cpu_peak in
    let recommended_ram := Sizing.recommended_ram mem_peak in
    let instances :=
      Sizing.get_instance_recommendations recommended_vcpu recommended_ram in
    ret (Some (Recommendations recommended_vcpu recommended_ram instances
                 (StatsSummary (Py.round_nd cpu_avg 2) (Py.round_nd cpu_peak 2)
                    (Py.round_nd mem_avg 2) (Py.round_nd mem_peak 2)
                    (samples i) (Py.round (time_now d - start_time i)))))
  else ret None.

Definition api_stop_live_test : M registry response :=
  do live_containers <- get_state;
  match live_containers !! container_id with
  | None => ret (RError "Container not found")
  | Some container_info =>
      try_except
        (do recommendations <- recommend container_info;
         do_ call_ EStop (stop_now d);
         do_ call_ ERemove (remove_now d);
         do_ modify (delete container_id);
         ret (RStopped recommendations))
        (fun e =>
           if is_Exception e then ret (RError (str_of_exn e))
           else raise e)
  end.

End Endpoints.
End Live.

(** A trace in which the container is neither stopped nor removed. *)
Definition quiet (t : list event) : Prop :=
  count is_stop t = 0%nat /\ count is_remove t = 0%nat.

(** ** app.py: [api_start_live_test] *)

Module LiveStart.

(** [s.split(sep)] for a separator of one character. *)
Fixpoint split (sep : ascii) (s : string) : list string :=
  match s with
  | EmptyString => [EmptyString]
  | String c s' =>
      if Ascii.eqb c sep then EmptyString :: split sep s'
      else match split sep s' with
           | [] => [String c EmptyString]
           | w :: ws => String c w :: ws
           end
  end.

(** What the daemon and the clock answer during one start request. The
    same command may be launched twice (the image's default command,
    first and last), so a launch is answered by its rank as well; the
    answer to a successful launch is the container's identifier. *)
Record start_env := StartEnv {
  get_image : option exn;
  pull_image : option exn;
  run_attempt : nat -> option command -> exn + string;
  reload_after : exn + string;
  port_bindings : bool;
  started_at : Q
}.

(** The JSON bodies of the answer. *)
Inductive started :=
| StartError (error : string)
| Started (container_id : string) (port_info : option string).

(** The parsed port mapping: the container port, the host port as
    written and as an integer. *)
Record ports_t := Ports {
  container_port : string;
  host_port : string;
  host_port_number : Z
}.

Definition INVALID_PORTS : string :=
  "Invalid port mapping format. Use host_port:container_port".

Section StartLiveTest.

(** [int(s)]: [None] stands for the [ValueError] of a string that is
    not an integer literal. *)
Variable py_int : string -> option Z.

Variable d : start_env.
Variable image_name : string.
Variable custom_command : option string.
Variable port_mapping : option string.

Abbreviation registry := (gmap string Live.container_info).

(** A phase either makes the function [return] or hands on a value. *)
Definition or_return {A} (phase : M registry (started + A))
    (rest : A -> M registry started) : M registry started :=
  do r <- phase;
  match r with
  | inl early => ret early
  | inr a => rest a
  end.

Definition resolve_image : M registry (started + unit) :=
  try_except
    (do_ call_ (EImagesGet image_name) (get_image d);
     ret (inr tt))
    (fun e =>
       match e with
       | ImageNotFound _ =>
           try_except
             (do_ call_ (EImagesPull image_name) (pull_image d);
              ret (inr tt))
             (fun e' =>
                if is_APIError e' then
                  ret (inl (StartError ("Failed to pull image: " +:+ str_of_exn e')))
                else raise e')
       | _ => raise e
       end).

(** [host_port, container_port = port_mapping.split(':')] and
    [int(host_port)], under a bare [except:]. *)
Definition parse_ports : M registry (started + option ports_t) :=
  if Py.truthy_str port_mapping then
    match split ":" (default "" port_mapping) with
    | [host; container] =>
        match py_int host with
        | Some n => ret (inr (Some (Ports container host n)))
        | None => ret (inl (StartError INVALID_PORTS))
        end
    | _ => ret (inl (StartError INVALID_PORTS))
    end
  else ret (inr None).

(** [f'(Port {host_port} → {container_port})'] *)
Definition port_info (p : option ports_t) : option string :=
  match p with
  | Some p => Some ("(Port " +:+ host_port p +:+ " → " +:+ container_port p +:+ ")")
  | None => None
  end.

Definition launch (rank : nat) (cmd : option command) : M registry string :=
  call (ERun image_name cmd) (run_attempt d rank cmd).

(** [container_args['command']] is set only for a custom command. *)
Definition first_launch : option command :=
  match custom_command with
  | Some (String a s) => Some (CmdStr (String a s))
  | _ => None
  end.

Definition start_container : M registry (started + string) :=
  try_except
    (do c <- launch 0 first_launch;
     ret (inr c))
    (fun e =>
       if is_APIError e then
         if Py.contains NOT_FOUND (str_of_exn e)
            && negb (Py.truthy_str custom_command) then
           try_except
             (do c <- launch 1 (Some (CmdStr SLEEP));
              ret (inr c))
             (fun _ =>
                try_except
                  (do c <- launch 2 None;
                   ret (inr c))
                  (fun final_e =>
                     if is_Exception final_e then
                       ret (inl (StartError ("Failed to start container: "
                                             +:+ str_of_exn final_e)))
                     else raise final_e))
         else
           ret (inl (StartError ("Failed to start container: " +:+ str_of_exn e)))
       else raise e).

(** "Verify container is running and get port info". *)
Definition verify (p : option ports_t) : M registry (started + option string) :=
  try_except
    (do status <- call EReload (reload_after d);
     if negb (String.eqb status "running") then
       ret (inl (StartError ("Container started but not running. Status: "
                             +:+ status)))
     else
       match p with
       | Some q =>
           if port_bindings d then
             ret (inr (Some (default "" (port_info p)
                             +:+ " - Access at http://localhost:" +:+ host_port q)))
           else ret (inr (port_info p))
       | None => ret (inr (port_info p))
       end)
    (fun e =>
       if is_Exception e then ret (inr (port_info p))
       else raise e).

Definition api_start_live_test : M registry started :=
  try_except
    (or_return resolve_image (fun _ =>
     or_return parse_ports (fun p =>
     or_return start_container (fun container_id =>
     do_ emit (ESleep 2);
     or_return (verify p) (fun port_info_detailed =>
     do_ modify (insert container_id
                   (Live.fresh_info image_name (started_at d)));
     ret (Started container_id port_info_detailed))))))
    (fun e =>
       if is_Exception e then ret (StartError (str_of_exn e))
       else raise e).

End StartLiveTest.
End LiveStart.

(** ** app.py: [run_bulk_tests] and the grouping of the results page *)

Module Bulk.

Record image_config := ImageConfig {
  name : string;
  command : option string;
  description : string;
  category : string;
  startup_delay : option Z
}.

Definition DEFAULT_TEST_IMAGES : list image_config :=
  [ ImageConfig "nginx:latest" (Some "nginx -g 'daemon off;'") "Nginx Web Server"
      "Web Servers" None;
    ImageConfig "httpd:latest" (Some "httpd-foreground") "Apache HTTP Server"
      "Web Servers" None;
    ImageConfig "redis:latest" (Some "redis-server") "Redis Cache" "Databases" None;
    ImageConfig "postgres:latest" None "PostgreSQL Database" "Databases" (Some 5);
    ImageConfig "mysql:latest" None "MySQL Database" "Databases" None;
    ImageConfig "python:3.11" (Some "sleep 3600") "Python 3.11" "Languages" None;
    ImageConfig "node:18" (Some "sleep 3600") "Node.js 18" "Languages" None;
    ImageConfig "openjdk:17" (Some "jshell") "OpenJDK 17" "Languages" None;
    ImageConfig "alpine:latest" None "Alpine Linux" "Base Images" None;
    ImageConfig "ubuntu:latest" None "Ubuntu Linux" "Base Images" None ].

(** A result as stored in [test_progress['results']]: what
    [estimate_single_image] returned, with the two keys added to a
    result that has no ["error"] key. *)
Record entry := Entry {
  returned : Web.returned;
  entry_description : option string;
  entry_category : option string
}.

(** ['error' in result] *)
Definition has_error (r : Web.returned) : bool :=
  match r with
  | Web.Error _ => true
  | Web.Ok _ => false
  end.

(** The global [test_progress]. *)
Record progress := Progress {
  status : string;
  current : Z;
  total : Z;
  current_image : string;
  results : list entry
}.

Definition idle : progress := Progress "idle" 0 0 "" [].

Definition set_status (v : string) (p : progress) : progress :=
  Progress v (current p) (total p) (current_image p) (results p).

Definition set_current (v : Z) (p : progress) : progress :=
  Progress (status p) v (total p) (current_image p) (results p).

Definition set_total (v : Z) (p : progress) : progress :=
  Progress (status p) (current p) v (current_image p) (results p).

Definition set_current_image (v : string) (p : progress) : progress :=
  Progress (status p) (current p) (total p) v (results p).

Definition set_results (v : list entry) (p : progress) : progress :=
  Progress (status p) (current p) (total p) (current_image p) v.

Definition append_result (e : entry) (p : progress) : progress :=
  set_results (results p ++ [e]) p.

(** A call of [estimate_single_image]: it works on buffers of its own
    and leaves the progress record alone. *)
Definition call_estimate (d : daemon) (image_name : string) (duration : Z)
    (custom_command : option string) : M progress Web.returned := fun p =>
  let r := Web.estimate_single_image d image_name duration custom_command
             no_samples in
  Res (outcome r) p (events r).

Definition decorate (c : image_config) (r : Web.returned) : entry :=
  if has_error r then Entry r None None
  else Entry r (Some (description c)) (Some (category c)).

Section RunBulkTests.

(** What the daemon answers during the test of the image of a given
    rank, counted from 1 as [enumerate(..., 1)] does. *)
Variable world : nat -> daemon.
Variable duration : Z.

(** The [for] loop, from the image of rank [idx] on. *)
Fixpoint test_images (idx : nat) (images : list image_config) : M progress unit :=
  match images with
  | [] => ret tt
  | image_config :: rest =>
      do_ modify (set_current (Z.of_nat idx));
      do_ modify (set_current_image (name image_config));
      do result <- call_estimate (world idx) (name image_config) duration
                     (command image_config);
      do_ modify (append_result (decorate image_config result));
      do_ emit (ESleep 1);
      test_images (S idx) rest
  end.

(** [run_bulk_tests] over a list of images. *)
Definition run_bulk_over (images : list image_config) : M progress unit :=
  do_ modify (set_status "running");
  do_ modify (set_total (Z.of_nat (length images)));
  do_ modify (set_current 0);
  do_ modify (set_results []);
  do_ test_images 1 images;
  modify (set_status "complete").

Definition run_bulk_tests : M progress unit :=
  run_bulk_over DEFAULT_TEST_IMAGES.

End RunBulkTests.

(** *** The [/results] page of a bulk test *)

(** [result.get('category', 'Other')] *)
Definition category_of (e : entry) : string :=
  match entry_category e with
  | Some c => c
  | None => "Other"
  end.

(** One turn of the grouping loop on [categories] and
    [results_by_category]. *)
Definition group_step (acc : list string * gmap string (list entry)) (result : entry)
    : list string * gmap string (list entry) :=
  if has_error (returned result) then acc
  else
    let category := category_of result in
    let acc' :=
      if bool_decide (category ∈ acc.1) then acc
      else (acc.1 ++ [category], <[category := []]> acc.2) in
    (acc'.1, alter (fun l => l ++ [result]) category acc'.2).

Definition group_by_category (results : list entry)
    : list string * gmap string (list entry) :=
  fold_left group_step results ([], ∅).

(** [len([r for r in results if 'error' not in r])] *)
Definition successful (results : list entry) : Z :=
  Z.of_nat (length (List.filter (fun r => negb (has_error (returned r))) results)).

(** [round((successful / total) * 100) if total > 0 else 0] *)
Definition success_rate (results : list entry) : Z :=
  let total := Z.of_nat (length results) in
  if 0 <? total then Py.round (Py.truediv (successful results) total * 100)
  else 0.

End Bulk.

(** ** test_runner.py: the comparison table and the report *)

Module Runner.

(** What [run_estimation] returns, with the two keys [main] adds to a
    result that has no ["error"] key. *)
Inductive run_result :=
| Failed (error : string) (returncode : option Z)
| Reported (r : Cli.report) (category description : option string).

(** ["error" in result] *)
Definition has_error (r : run_result) : bool :=
  match r with
  | Failed _ _ => true
  | Reported _ _ _ => false
  end.

Record image_config := ImageConfig {
  name : string;
  command : option string;
  description : string;
  category : string;
  startup_delay : option Z
}.

(** [main]: the metadata added to a result. *)
Definition annotate (c : image_config) (r : run_result) : run_result :=
  match r with
  | Failed e rc => Failed e rc
  | Reported rep _ _ => Reported rep (Some (category c)) (Some (description c))
  end.

(** [main]: the dictionary [results], filled test by test with
    [results[image_config['name']] = result]. *)
Definition store (results : gmap string run_result)
    (test : image_config * run_result) : gmap string run_result :=
  <[name test.1 := annotate test.1 test.2]> results.

Definition collect_results (tests : list (image_config * run_result))
    : gmap string run_result :=
  fold_left store tests ∅.

(** [results.values()] *)
Definition values (results : gmap string run_result) : list run_result :=
  (map_to_list results).*2.

(** The ["test_metadata"] of [save_full_report]. *)
Record metadata := Metadata {
  total_images_tested : nat;
  successful_tests : nat;
  failed_tests : nat
}.

Definition test_metadata (results : gmap string run_result) : metadata :=
  Metadata (size results)
    (length (List.filter (fun r => negb (has_error r)) (values results)))
    (length (List.filter has_error (values results))).

(** [generate_comparison_table]: the image column.
    [img_name if len(img_name) <= 24 else img_name[:21] + "..."] *)
Definition display_name (img_name : string) : string :=
  if (String.length img_name <=? 24)%nat then img_name
  else String.substring 0 21 img_name +:+ "...".

Fixpoint spaces (n : nat) : string :=
  match n with
  | O => ""
  | S n' => String " " (spaces n')
  end.

(** [f"{s:<width}"]: padded on the right, never cut. *)
Definition ljust (width : nat) (s : string) : string :=
  s +:+ spaces (width - String.length s).

Definition image_column (img_name : string) : string :=
  ljust 25 (display_name img_name).

End Runner.

(** ** docker_resource_estimator.py: [stop_docker_engine] and the
    [--stop-docker] flag *)

Module Engine.

(** How [subprocess.run] ends: it returns whatever the exit status of
    the command (no [check=True]), runs into its timeout, or raises. *)
Inductive subprocess_answer :=
| Returned (returncode : Z)
| TimeoutExpired
| Raised (e : exn).

Definition STOPPING : string := "Stopping Docker Engine...".

Section StopDockerEngine.

(** [platform.system()] and the answer to the one command run. *)
Variable system : string.
Variable answer : subprocess_answer.

(** One branch of the [if]/[elif] chain: the command is run, then the
    line is printed; the two [except] clauses follow the chain. *)
Definition run_then_print {St} (line : string) : M St unit :=
  match answer with
  | Returned _ => print line
  | TimeoutExpired => print "Docker shutdown timed out"
  | Raised e =>
      if is_Exception e then
        do_ print ("Could not stop Docker Engine: " +:+ str_of_exn e);
        print "   You may need to stop it manually"
      else raise e
  end.

Definition stop_docker_engine {St} : M St unit :=
  do_ print STOPPING;
  if String.eqb system "Windows" then
    run_then_print "Docker Desktop stopped successfully"
  else if String.eqb system "Linux" then
    run_then_print "Docker service stopped successfully"
  else if String.eqb system "Darwin" then
    run_then_print "Docker Desktop stopped successfully"
  else
    do_ print ("Automatic Docker shutdown not supported on " +:+ system);
    print "   Please stop Docker manually if needed".

(** [estimate_resources] with its last parameter. *)
Definition estimate_resources (d : daemon) (image_name : string)
    (test_duration : Z) (custom_command : option string) (stop_docker : bool)
    : M locals Cli.report :=
  do r <- Cli.estimate_resources d image_name test_duration custom_command;
  do_ when stop_docker stop_docker_engine;
  ret r.

End StopDockerEngine.
End Engine.

(** ** Derived notions used in the properties of the live test *)

Module LiveSpec.

(** The value a poll appends to [cpu_history]. *)
Definition cpu_now (stats : stats_t) : Q :=
  if Delta.guard stats then Delta.cpu_percent stats else 0%Q.

(** The registry entry after the three updates of a poll. *)
Definition polled (stats : stats_t) (i : Live.container_info) : Live.container_info :=
  Live.incr_samples
    (Live.push_mem (Delta.mem_usage stats) (Live.push_cpu (cpu_now stats) i)).

(** The logs a poll answers with, and the entry it leaves. *)
Definition logs_after (d : Live.request_env) (i : Live.container_info) : string :=
  match Live.logs_now d with
  | inr l => l
  | inl _ => Live.logs i
  end.

Definition entry_after (d : Live.request_env) (i : Live.container_info)
    : Live.container_info :=
  match Live.logs_now d with
  | inr l => Live.set_logs l i
  | inl _ => i
  end.

(** The invariant of a registry entry. *)
Definition entry_ok (i : Live.container_info) : Prop :=
  Live.samples i = Z.of_nat (length (Live.cpu_history i)) /\
  length (Live.cpu_history i) = length (Live.mem_history i).

(** What the outermost handler of an endpoint makes of an exception. *)
Definition caught {A} (error : string -> A) (e : exn) : exn + A :=
  if is_Exception e then inr (error (str_of_exn e)) else inl e.

End LiveSpec.

(** Launches of a container in a trace. *)
Definition is_run (e : event) : bool :=
  match e with ERun _ _ => true | _ => false end.

(** Occurrences of a character in a string. *)
Fixpoint count_char (c : ascii) (s : string) : nat :=
  match s with
  | EmptyString => 0
  | String a s' => ((if Ascii.eqb a c then 1 else 0) + count_char c s')%nat
  end.

(** The invariant of the registry of live containers. *)
Definition registry_ok (reg : gmap string Live.container_info) : Prop :=
  forall k i, reg !! k = Some i -> LiveSpec.entry_ok i.

(** The successful results of a category, in the order of the tests. *)
Definition in_category (c : string) (results : list Bulk.entry) : list Bulk.entry :=
  List.filter
    (fun e => negb (Bulk.has_error (Bulk.returned e))
              && String.eqb (Bulk.category_of e) c)
    results.

(** ** The words of the specification

    Stated on their own, to be compared with what the code computes. *)

Module Spec.

(** "Rounding to nearest integer, round-half-to-even": [n] is a
    nearest integer of [x], and the even one when [x] is half-way
    between two integers. *)
Definition round_half_even (x : Q) (n : Z) : Prop :=
  (Qabs (x - inject_Z n) <= 1 # 2)%Q /\
  ((Qabs (x - inject_Z n) == 1 # 2)%Q -> Z.even n = true).

(** "Explicit online-CPU field if present and nonzero; else the
    length of a per-CPU usage array if present [and non-empty]; else
    fall back to 1." *)
Definition online_cpu_count (online : option Z) (percpu : option (list Z)) : Z :=
  match online, percpu with
  | Some (Zpos p), _ => Zpos p
  | Some (Zneg p), _ => Zneg p
  | _, Some (x :: l) => 1 + Z.of_nat (length l)
  | _, _ => 1
  end.

(** The fields of a payload the resolution reads. *)
Definition online_field (s : stats_t) : option Z :=
  match cpu_stats s with
  | Some c => online_cpus c
  | None => None
  end.

Definition percpu_field (s : stats_t) : option (list Z) :=
  match cpu_stats s with
  | Some (CpuStats (Some u) _ _) => percpu_usage u
  | _ => None
  end.

(** "Arithmetic mean and maximum" of a series. *)
Definition is_mean (l : list Q) (m : Q) : Prop :=
  (m * inject_Z (Z.of_nat (length l)) == fold_right Qplus 0 l)%Q.

Definition is_max (l : list Q) (m : Q) : Prop :=
  In m l /\ forall x, In x l -> (x <= m)%Q.

(** "An ordered list of candidate launch strategies evaluated by a
    single retry combinator": the candidates tried, in order, up to
    the first the daemon accepts, and whether one was accepted. *)
Fixpoint try_chain (run : option command -> option exn)
    (chain : list (option command)) : list (option command) * bool :=
  match chain with
  | [] => ([], false)
  | c :: rest =>
      match run c with
      | None => ([c], true)
      | Some _ => (c :: fst (try_chain run rest), snd (try_chain run rest))
      end
  end.

(** "(1) an infinite-sleep keep-alive, (2) a shell-wrapped
    infinite-sleep, (3) the image's own default command with no
    override." *)
Definition fallback_chain : list (option command) :=
  [Some (CmdStr SLEEP); Some (CmdList SH_SLEEP); None].

(** "vcpu = max(1, round(peakCpuPercent / 80))", the rounding being
    round half to even, and "ramGB = round(peakMemMB * 1.5 / 1024, 2
    decimal places)": what the recommender is to make of two peaks. *)
Definition recommends (peak_cpu peak_mem : Q) (vcpu : Z) (ram_gb : Q) : Prop :=
  (exists n, round_half_even (peak_cpu / 80) n /\ vcpu = Z.max 1 n) /\
  (exists n, round_half_even (peak_mem * 1.5 / 1024 * 100) n /\
             ram_gb = (inject_Z n / 100)%Q).

(** The loop invariant of one collection run. *)
Definition history_ok (s : locals) : Prop :=
  (length (cpu_usages s) <= length (mem_usages s))%nat /\
  sample_count s = Z.of_nat (length (mem_usages s)).

End Spec.

(** The calls to the daemon in a trace. *)
Definition calls (t : list event) : list event := List.filter is_daemon_call t.

(** ** Inputs used in the examples below *)

Module Inputs.

Definition payload (total pretotal system presystem : Z) (online : option Z)
    (mem : Z) : stats_t :=
  Stats (Some (CpuStats (Some (CpuUsage (Some total) None)) (Some system) online))
        (Some (CpuStats (Some (CpuUsage (Some pretotal) None)) (Some presystem) None))
        (Some (MemoryStats (Some mem))).

(** The first payload of a stream: the daemon has no earlier reading,
    [precpu_stats] carries a zero usage and no system counter. *)
Definition first_payload : stats_t :=
  Stats (Some (CpuStats (Some (CpuUsage (Some 50000000) None))
                 (Some 1000000000) (Some 2)))
        (Some (CpuStats (Some (CpuUsage (Some 0) None)) None None))
        (Some (MemoryStats (Some 104857600))).

(** A payload whose system counter did not advance. *)
Definition stalled_payload : stats_t :=
  payload 70000000 50000000 1000000000 1000000000 (Some 2) 104857600.

Definition busy_payload : stats_t :=
  payload 90000000 50000000 2000000000 1000000000 (Some 2) 209715200.

Definition running (stats : stats_t) : tick := Tick (inr "running") (inr stats).

Definition exited : tick := Tick (inr "exited") (inl StopIteration).

(** An image without [tail] and without [sleep] on its path, whose
    shell has [sleep] built in. *)
Definition shell_only (cmd : option command) : option exn :=
  match cmd with
  | Some (CmdStr _) =>
      Some (APIError "OCI runtime create failed: exec: executable file not found in $PATH")
  | _ => None
  end.

Definition shell_only_daemon : daemon :=
  Daemon None None shell_only [running first_payload; running busy_payload]
    None None.

Definition entry : Live.container_info :=
  Live.Info "nginx:latest" 0 [10%Q] [100%Q] 1 "".

Definition one_container : gmap string Live.container_info :=
  {[ "c1" := entry ]}.

Definition stalled_poll : Live.request_env :=
  Live.RequestEnv (inr "running") (inr stalled_payload) (inr "") None None 5.

Definition failing_stop : Live.request_env :=
  Live.RequestEnv (inr "running") (inr busy_payload) (inr "")
    (Some (APIError "No such container")) None 5.

Definition clean_stop : Live.request_env :=
  Live.RequestEnv (inr "running") (inr busy_payload) (inr "") None None 5.

(** A daemon that accepts every launch and delivers one payload, of 10
    percent CPU and 100 MB. *)
Definition ten_percent_daemon : daemon :=
  Daemon None None (fun _ => None) [running first_payload] None None.

(** A stop request during which [stop] succeeds and [remove] fails. *)
Definition failing_remove : Live.request_env :=
  Live.RequestEnv (inr "running") (inr busy_payload) (inr "") None
    (Some (APIError "removal of container is already in progress")) 5.

End Inputs.

(** * Properties *)

Example round_eighth : Py.round (10 / 80) = 0.
Proof. reflexivity. Qed.

Example round_ties : map Py.round [0.5; 1.5; 2.5; 3.5; -0.5; -1.5]%Q = [0; 2; 2; 4; 0; -2].
Proof. reflexivity. Qed.

Example ram_100 : Sizing.recommended_ram 100 = 0.15%Q.
Proof. vm_compute. reflexivity. Qed.

(** ** Rounding *)

Lemma round_is_half_even (x : Q) : Spec.round_half_even x (Py.round x).
Proof.
  unfold Spec.round_half_even, Py.round.
  pose proof (Qfloor_le x) as Hlo.
  pose proof (Qlt_floor x) as Hhi.
  rewrite inject_Z_plus in Hhi.
  change (inject_Z 1) with 1%Q in Hhi.
  destruct (Qcompare_spec (x - inject_Z (Qfloor x)) (1 # 2)) as [He | Hl | Hg];
    [destruct (Z.even (Qfloor x)) eqn:Hev | |];
    rewrite ?inject_Z_plus; change (inject_Z 1) with 1%Q; split;
    try (apply Qabs_case; intros; lra);
    try (intros Habs; exfalso; revert Habs; apply Qabs_case; intros; lra).
  - auto.
  - intros _. rewrite Z.even_add, Hev. reflexivity.
Qed.

Lemma round_nd_2 (x : Q) :
  exists n, Py.round_nd x 2 = (inject_Z n / 100)%Q /\
            Spec.round_half_even (x * 100) n.
Proof.
  exists (Py.round (x * inject_Z (10 ^ Z.of_nat 2))). split.
  - reflexivity.
  - apply round_is_half_even.
Qed.

(** ** The sizing recommender *)

(** The sizing the code computes from two peaks is the one the
    specification words: [max(1, round(peak_cpu / 80))] with [round]
    rounding half to even, and a number of hundredths nearest to
    [peak_mem * 1.5 / 1024], ties to even. *)
Lemma sizing_recommends (peak_cpu peak_mem : Q) :
  Spec.recommends peak_cpu peak_mem
    (Sizing.recommended_vcpu peak_cpu) (Sizing.recommended_ram peak_mem).
Proof.
  split.
  - exists (Py.round (peak_cpu / 80)). split; [apply round_is_half_even | reflexivity].
  - destruct (round_nd_2 (peak_mem * 1.5 / 1024)) as (n & Hn & Hr).
    exists n. split; [exact Hr | exact Hn].
Qed.

(** The recommendation for (10, 100) is 1 vCPU and 0.15 GB; the ties 2.5
    and 3.5 go to the even neighbours 2 and 4. *)
Example recommender_ties :
  Sizing.recommended_vcpu 10 = 1 /\
  (Sizing.recommended_ram 100 == 0.15)%Q /\
  Sizing.recommended_vcpu 200 = 2 /\
  Sizing.recommended_vcpu 280 = 4.
Proof. repeat split; reflexivity. Qed.

Example recommend_80_1024 :
  Sizing.recommended_vcpu 80 = 1 /\
  (Sizing.recommended_ram 1024 == 1.5)%Q /\
  Sizing.get_instance_recommendations
    (Sizing.recommended_vcpu 80) (Sizing.recommended_ram 1024)
  = Sizing.Instances "t3.small" "e2-small" "B1ms".
Proof. repeat split; reflexivity. Qed.

Example recommend_160_2048 :
  Sizing.recommended_vcpu 160 = 2 /\
  (Sizing.recommended_ram 2048 == 3)%Q /\
  Sizing.get_instance_recommendations
    (Sizing.recommended_vcpu 160) (Sizing.recommended_ram 2048)
  = Sizing.Instances "t3.medium" "e2-medium" "B2s".
Proof. repeat split; reflexivity. Qed.

Example recommend_10_100 :
  Sizing.get_instance_recommendations
    (Sizing.recommended_vcpu 10) (Sizing.recommended_ram 100)
  = Sizing.Instances "t3.micro" "e2-micro" "B1s".
Proof. reflexivity. Qed.

Lemma vcpu_at_least_1 (peak_cpu : Q) : 1 <= Sizing.recommended_vcpu peak_cpu.
Proof. unfold Sizing.recommended_vcpu. lia. Qed.

(** ** The instance table *)

Lemma Qle_bool_false (x y : Q) : Qle_bool x y = false <-> (y < x)%Q.
Proof.
  split; intros H.
  - apply Qnot_le_lt. intros Hle. apply Qle_bool_iff in Hle. congruence.
  - destruct (Qle_bool x y) eqn:E; [| reflexivity].
    apply Qle_bool_iff in E. lra.
Qed.

(** The lookup of app.py is the ordered table: the rules are tried
    from the top, the last one catches everything left. *)
Lemma get_instance_recommendations_table (vcpu : Z) (ram_gb : Q) :
  (vcpu = 1 -> (ram_gb <= 1)%Q ->
   Sizing.get_instance_recommendations vcpu ram_gb
   = Sizing.Instances "t3.micro" "e2-micro" "B1s") /\
  (vcpu = 1 -> (1 < ram_gb)%Q -> (ram_gb <= 2)%Q ->
   Sizing.get_instance_recommendations vcpu ram_gb
   = Sizing.Instances "t3.small" "e2-small" "B1ms") /\
  (vcpu = 2 ->
   Sizing.get_instance_recommendations vcpu ram_gb
   = Sizing.Instances "t3.medium" "e2-medium" "B2s") /\
  ((vcpu = 1 /\ (2 < ram_gb)%Q) \/ (vcpu <> 1 /\ vcpu <> 2) ->
   Sizing.get_instance_recommendations vcpu ram_gb
   = Sizing.Instances "t3.large+" "e2-standard+" "B2ms+").
Proof.
  unfold Sizing.get_instance_recommendations.
  repeat split.
  - intros -> H. apply Qle_bool_iff in H. rewrite H. reflexivity.
  - intros -> H1 H2. apply Qle_bool_false in H1. apply Qle_bool_iff in H2.
    rewrite H1, H2. reflexivity.
  - intros ->. reflexivity.
  - intros [[-> H] | [H1 H2]].
    + assert (Qle_bool ram_gb 1 = false) as -> by (apply Qle_bool_false; lra).
      assert (Qle_bool ram_gb 2 = false) as -> by (apply Qle_bool_false; lra).
      reflexivity.
    + apply Z.eqb_neq in H1, H2. rewrite H1, H2. reflexivity.
Qed.

Example one_vcpu_five_gb :
  Sizing.get_instance_recommendations 1 5
  = Sizing.Instances "t3.large+" "e2-standard+" "B2ms+".
Proof. reflexivity. Qed.

(** The command-line tool selects its line by the same rules. *)
Lemma cli_instance_line_table (vcpu : Z) (ram_gb : Q) :
  Sizing.cli_instance_line vcpu ram_gb =
  if (vcpu =? 1) && Qle_bool ram_gb 2 || (vcpu =? 2)
  then Sizing.render_line (Sizing.get_instance_recommendations vcpu ram_gb)
  else "AWS: t3.large+ / GCP: e2-standard / Azure: B2ms+".
Proof.
  unfold Sizing.cli_instance_line, Sizing.get_instance_recommendations.
  destruct (vcpu =? 1) eqn:E1; simpl.
  - apply Z.eqb_eq in E1. subst vcpu. simpl.
    destruct (Qle_bool ram_gb 1) eqn:E2; simpl.
    + apply Qle_bool_iff in E2.
      assert (Qle_bool ram_gb 2 = true) as -> by (apply Qle_bool_iff; lra).
      reflexivity.
    + destruct (Qle_bool ram_gb 2); reflexivity.
  - destruct (vcpu =? 2); reflexivity.
Qed.

(** C4. The lookup of app.py is the ordered table of the
    specification, and (1, 5) falls through to the catch-all; the
    command-line tool prints the same names for the first three rules,
    but in the catch-all it prints "e2-standard" where the table has
    "e2-standard+" (evaluated at 3 vCPU, 4 GB). *)
Theorem C4_catch_all_name_differs :
  Sizing.get_instance_recommendations 3 4
  = Sizing.Instances "t3.large+" "e2-standard+" "B2ms+" /\
  Sizing.cli_instance_line 3 4
  = "AWS: t3.large+ / GCP: e2-standard / Azure: B2ms+" /\
  Sizing.cli_instance_line 3 4
  <> Sizing.render_line (Sizing.get_instance_recommendations 3 4) /\
  Sizing.get_instance_recommendations 1 5
  = Sizing.Instances "t3.large+" "e2-standard+" "B2ms+" /\
  Sizing.cli_instance_line 1 5
  = "AWS: t3.large+ / GCP: e2-standard / Azure: B2ms+".
Proof. repeat split; try reflexivity. discriminate. Qed.

(** ** The counter delta calculator *)

Lemma guard_true (s : stats_t) :
  Delta.guard s = true <-> 0 < Delta.system_delta s /\ 0 <= Delta.cpu_delta s.
Proof. unfold Delta.guard. rewrite andb_true_iff, Z.ltb_lt, Z.leb_le. tauto. Qed.

Lemma guard_false (s : stats_t) :
  Delta.guard s = false <-> Delta.system_delta s <= 0 \/ Delta.cpu_delta s < 0.
Proof. unfold Delta.guard. rewrite andb_false_iff, Z.ltb_ge, Z.leb_gt. tauto. Qed.

(** The code resolves the number of CPUs as the specification words it. *)
Lemma online_cpus_resolution (s : stats_t) :
  Delta.online_cpus_of s
  = Spec.online_cpu_count (Spec.online_field s) (Spec.percpu_field s).
Proof.
  unfold Delta.online_cpus_of, Delta.percpu_count, Delta.cpu_usage_of,
    Spec.online_cpu_count, Spec.online_field, Spec.percpu_field, Delta.get.
  destruct s as [[[[u|] sys [[|p|p]|]]|] pre mem]; simpl;
    try reflexivity;
    try (destruct u as [tot [[|x l]|]]; simpl; try reflexivity; lia).
Qed.

Lemma mem_usage_absent (c p : option cpu_stats_t) :
  (Delta.mem_usage (Stats c p None) == 0)%Q /\
  (Delta.mem_usage (Stats c p (Some (MemoryStats None))) == 0)%Q.
Proof. split; reflexivity. Qed.

(** ** Reasoning about runs *)

Ltac eff_unfold :=
  unfold try_except, try_finally, bind, call_, call, emit, print, when,
    modify, get_state, ret, raise.

(** Runs the combinators of the monad, and nothing else. *)
Ltac eff_run :=
  cbv beta iota zeta delta
    [try_except try_finally bind call_ call emit print when modify get_state
     ret raise].

Lemma count_app (p : event -> bool) (t1 t2 : list event) :
  count p (t1 ++ t2) = (count p t1 + count p t2)%nat.
Proof. induction t1 as [| e t1 IH]; simpl; [reflexivity | rewrite IH; lia]. Qed.

Lemma record_sample_cpu (stats : stats_t) (s : locals) :
  cpu_usages (record_sample stats s)
  = cpu_usages s ++ (if Delta.guard stats then [Delta.cpu_percent stats] else []).
Proof.
  unfold record_sample. destruct (Delta.guard stats); simpl;
    [reflexivity | symmetry; apply app_nil_r].
Qed.

Lemma record_sample_mem (stats : stats_t) (s : locals) :
  mem_usages (record_sample stats s) = mem_usages s ++ [Delta.mem_usage stats].
Proof. unfold record_sample. destruct (Delta.guard stats); reflexivity. Qed.

Lemma record_sample_count (stats : stats_t) (s : locals) :
  sample_count (record_sample stats s) = sample_count s + 1.
Proof. unfold record_sample. destruct (Delta.guard stats); reflexivity. Qed.

Lemma record_sample_ok (stats : stats_t) (s : locals) :
  Spec.history_ok s -> Spec.history_ok (record_sample stats s).
Proof.
  unfold Spec.history_ok. intros [Hle Hcount].
  rewrite record_sample_cpu, record_sample_mem, record_sample_count.
  rewrite !length_app. destruct (Delta.guard stats); simpl; lia.
Qed.

(** An iteration that finds the container running and obtains a
    payload, in the command-line tool and in the web application. *)
Lemma cli_sample_payload (t : tick) (stats : stats_t) (s : locals) :
  reload_answer t = inr "running" ->
  next_answer t = inr stats ->
  Cli.sample t s = Res (inr false) (record_sample stats s) [EReload; ENext; ESleep 1].
Proof.
  intros Hr Hn. unfold Cli.sample, record_sample. eff_unfold.
  rewrite Hr, Hn. simpl. destruct (Delta.guard stats); reflexivity.
Qed.

Lemma web_sample_payload (t : tick) (stats : stats_t) (s : locals) :
  reload_answer t = inr "running" ->
  next_answer t = inr stats ->
  Web.sample t s = Res (inr false) (record_sample stats s) [EReload; ENext; ESleep 1].
Proof.
  intros Hr Hn. unfold Web.sample, record_sample. eff_unfold.
  rewrite Hr, Hn. simpl. destruct (Delta.guard stats); reflexivity.
Qed.

(** Every iteration either leaves the buffers alone or is one of the
    above; it never talks to the daemon about stopping. *)
Lemma quiet_app (t1 t2 : list event) : quiet t1 -> quiet t2 -> quiet (t1 ++ t2).
Proof. unfold quiet. rewrite !count_app. lia. Qed.

Lemma cli_sample_cases (t : tick) (s : locals) :
  quiet (events (Cli.sample t s)) /\
  (final (Cli.sample t s) = s \/
   exists stats, reload_answer t = inr "running" /\ next_answer t = inr stats /\
                 Cli.sample t s
                 = Res (inr false) (record_sample stats s) [EReload; ENext; ESleep 1]).
Proof.
  destruct (reload_answer t) as [e | status] eqn:Hr.
  - unfold Cli.sample. eff_unfold. rewrite Hr.
    destruct e; simpl; (split; [split; reflexivity | left; reflexivity]).
  - destruct (String.eqb_spec status "running") as [-> | Hne].
    + destruct (next_answer t) as [e | stats] eqn:Hn.
      * unfold Cli.sample. eff_unfold. rewrite Hr, Hn.
        destruct e; simpl; (split; [split; reflexivity | left; reflexivity]).
      * rewrite (cli_sample_payload t stats s Hr Hn). simpl.
        split; [split; reflexivity | right; eauto].
    + unfold Cli.sample. eff_unfold. rewrite Hr. simpl.
      apply String.eqb_neq in Hne. rewrite Hne. simpl.
      split; [split; reflexivity | left; reflexivity].
Qed.

Lemma web_sample_cases (t : tick) (s : locals) :
  quiet (events (Web.sample t s)) /\
  (final (Web.sample t s) = s \/
   exists stats, reload_answer t = inr "running" /\ next_answer t = inr stats /\
                 Web.sample t s
                 = Res (inr false) (record_sample stats s) [EReload; ENext; ESleep 1]).
Proof.
  destruct (reload_answer t) as [e | status] eqn:Hr.
  - unfold Web.sample. eff_unfold. rewrite Hr.
    destruct e; simpl; (split; [split; reflexivity | left; reflexivity]).
  - destruct (String.eqb_spec status "running") as [-> | Hne].
    + destruct (next_answer t) as [e | stats] eqn:Hn.
      * unfold Web.sample. eff_unfold. rewrite Hr, Hn.
        destruct e; simpl; (split; [split; reflexivity | left; reflexivity]).
      * rewrite (web_sample_payload t stats s Hr Hn). simpl.
        split; [split; reflexivity | right; eauto].
    + unfold Web.sample. eff_unfold. rewrite Hr. simpl.
      apply String.eqb_neq in Hne. rewrite Hne. simpl.
      split; [split; reflexivity | left; reflexivity].
Qed.

(** ** The collection loop *)

Lemma cli_collect_inv (ticks : list tick) (s : locals) :
  quiet (events (Cli.collect ticks s)) /\
  (Spec.history_ok s -> Spec.history_ok (final (Cli.collect ticks s))).
Proof.
  revert s. induction ticks as [| t rest IH]; intros s.
  - simpl. split; [split; reflexivity | auto].
  - simpl. unfold bind.
    destruct (cli_sample_cases t s) as [Hq [Hf | (stats & _ & _ & Heq)]].
    + destruct (Cli.sample t s) as [[e | [|]] s1 t1]; simpl in *; subst s1.
      * auto.
      * unfold ret. simpl. rewrite app_nil_r. auto.
      * specialize (IH s). destruct (Cli.collect rest s) as [o s2 t2]. simpl in *.
        destruct IH as [IHq IHok]. split; [apply quiet_app; assumption | assumption].
    + rewrite Heq. specialize (IH (record_sample stats s)).
      destruct (Cli.collect rest (record_sample stats s)) as [o s2 t2]. simpl in *.
      destruct IH as [IHq IHok].
      split; [exact IHq | intros H; apply IHok, record_sample_ok, H].
Qed.

Lemma web_collect_inv (ticks : list tick) (s : locals) :
  quiet (events (Web.collect ticks s)) /\
  (Spec.history_ok s -> Spec.history_ok (final (Web.collect ticks s))).
Proof.
  revert s. induction ticks as [| t rest IH]; intros s.
  - simpl. split; [split; reflexivity | auto].
  - simpl. unfold bind.
    destruct (web_sample_cases t s) as [Hq [Hf | (stats & _ & _ & Heq)]].
    + destruct (Web.sample t s) as [[e | [|]] s1 t1]; simpl in *; subst s1.
      * auto.
      * unfold ret. simpl. rewrite app_nil_r. auto.
      * specialize (IH s). destruct (Web.collect rest s) as [o s2 t2]. simpl in *.
        destruct IH as [IHq IHok]. split; [apply quiet_app; assumption | assumption].
    + rewrite Heq. specialize (IH (record_sample stats s)).
      destruct (Web.collect rest (record_sample stats s)) as [o s2 t2]. simpl in *.
      destruct IH as [IHq IHok].
      split; [exact IHq | intros H; apply IHok, record_sample_ok, H].
Qed.

Lemma no_samples_ok : Spec.history_ok no_samples.
Proof. split; simpl; [lia | reflexivity]. Qed.

(** ** The live test *)

Lemma mean_or_raise_cons {St} (x : Q) (l : list Q) (s : St) :
  exists v, Py.mean (x :: l) = Some v /\ mean_or_raise (x :: l) s = Res (inr v) s [].
Proof. eexists. split; reflexivity. Qed.

Lemma max_or_raise_cons {St} (x : Q) (l : list Q) (s : St) :
  exists v, Py.max (x :: l) = Some v /\ max_or_raise (x :: l) s = Res (inr v) s [].
Proof. eexists. split; reflexivity. Qed.

Lemma mean_or_0_pure (h : list Q) (reg : gmap string Live.container_info) :
  exists v, Live.mean_or_0 h reg = Res (inr v) reg [].
Proof. destruct h; eexists; reflexivity. Qed.

Lemma max_or_0_pure (h : list Q) (reg : gmap string Live.container_info) :
  exists v, Live.max_or_0 h reg = Res (inr v) reg [].
Proof. destruct h; eexists; reflexivity. Qed.

(** The recommendations are computed without touching the daemon or the
    registry, and never fail. *)
Lemma recommend_pure (d : Live.request_env) (i : Live.container_info)
    (reg : gmap string Live.container_info) :
  exists v, Live.recommend d i reg = Res (inr v) reg [] /\
            (v = None <-> Live.cpu_history i = [] \/ Live.mem_history i = []).
Proof.
  unfold Live.recommend.
  destruct (Live.cpu_history i) as [| c cs].
  - exists None. simpl. split; [reflexivity | tauto].
  - destruct (Live.mem_history i) as [| m ms].
    + exists None. simpl. split; [reflexivity | tauto].
    + eexists. split; [reflexivity |].
      split; [discriminate | intros [H | H]; discriminate].
Qed.

(** What one poll of a running container leaves in its registry entry. *)
Lemma live_stats_history (d : Live.request_env) (cid : string)
    (reg : gmap string Live.container_info) (i : Live.container_info)
    (stats : stats_t) :
  reg !! cid = Some i ->
  Live.reload_now d = inr "running" ->
  Live.stats_now d = inr stats ->
  exists i', final (Live.api_live_test_stats d cid reg) !! cid = Some i' /\
    Live.cpu_history i'
    = Live.cpu_history i
      ++ [if Delta.guard stats then Delta.cpu_percent stats else 0%Q] /\
    Live.mem_history i' = Live.mem_history i ++ [Delta.mem_usage stats] /\
    Live.samples i' = Live.samples i + 1.
Proof.
  intros Hreg Hrel Hst.
  unfold Live.api_live_test_stats, Live.read_info, Live.update_info.
  unfold try_except, bind, call, emit, get_state, modify, ret, raise.
  rewrite Hreg, Hrel. cbn -[lookup alter]. rewrite Hst. cbn -[lookup alter].
  rewrite !lookup_alter_eq, Hreg. cbn -[lookup alter].
  match goal with |- context [Live.mean_or_0 ?h ?r] =>
    destruct (mean_or_0_pure h r) as [v1 ->] end.
  match goal with |- context [Live.max_or_0 ?h ?r] =>
    destruct (max_or_0_pure h r) as [v2 ->] end.
  match goal with |- context [Live.mean_or_0 ?h ?r] =>
    destruct (mean_or_0_pure h r) as [v3 ->] end.
  match goal with |- context [Live.max_or_0 ?h ?r] =>
    destruct (max_or_0_pure h r) as [v4 ->] end.
  destruct (Live.logs_now d) as [e | l]; cbn -[lookup alter];
    rewrite !lookup_alter_eq, Hreg; cbn -[lookup alter];
    rewrite ?lookup_alter_eq, ?Hreg; cbn -[lookup alter];
    eexists; (split; [reflexivity | repeat split]).
Qed.

(** A request about an identifier that is not registered does nothing. *)
Lemma stop_unknown (d : Live.request_env) (cid : string)
    (reg : gmap string Live.container_info) :
  reg !! cid = None ->
  Live.api_stop_live_test d cid reg
  = Res (inr (Live.RError "Container not found")) reg [].
Proof.
  intros H. unfold Live.api_stop_live_test, bind, get_state, ret.
  rewrite H. reflexivity.
Qed.

(** The three ways a stop request on a registered container can go. *)
Lemma stop_registered (d : Live.request_env) (cid : string)
    (reg : gmap string Live.container_info) (i : Live.container_info) :
  reg !! cid = Some i ->
  exists recs, Live.recommend d i reg = Res (inr recs) reg [] /\
    Live.api_stop_live_test d cid reg =
    match Live.stop_now d, Live.remove_now d with
    | Some e, _ =>
        Res (if is_Exception e then inr (Live.RError (str_of_exn e)) else inl e)
          reg [EStop]
    | None, Some e =>
        Res (if is_Exception e then inr (Live.RError (str_of_exn e)) else inl e)
          reg [EStop; ERemove]
    | None, None =>
        Res (inr (Live.RStopped recs)) (delete cid reg) [EStop; ERemove]
    end.
Proof.
  intros Hreg. destruct (recommend_pure d i reg) as (recs & Hrec & _).
  exists recs. split; [exact Hrec |].
  unfold Live.api_stop_live_test.
  unfold bind at 1, get_state at 1. rewrite Hreg.
  unfold try_except, bind at 1. rewrite Hrec.
  destruct (Live.stop_now d) as [e |]; cbn -[delete];
    [destruct (is_Exception e); reflexivity |].
  destruct (Live.remove_now d) as [e |]; cbn -[delete];
    [destruct (is_Exception e); reflexivity |].
  reflexivity.
Qed.

(** C1. In the two batch loops a payload with [system_delta <= 0] or
    [cpu_delta < 0] leaves the CPU series as it was; the live poll
    ([api_live_test_stats]) appends the value 0 to [cpu_history] for the
    same payload. *)
Theorem C1_live_poll_records_zero (d : Live.request_env) (cid : string)
    (reg : gmap string Live.container_info) (i : Live.container_info)
    (stats : stats_t) :
  Delta.system_delta stats <= 0 \/ Delta.cpu_delta stats < 0 ->
  reg !! cid = Some i ->
  Live.reload_now d = inr "running" ->
  Live.stats_now d = inr stats ->
  (forall t s, reload_answer t = inr "running" -> next_answer t = inr stats ->
     cpu_usages (final (Cli.sample t s)) = cpu_usages s /\
     cpu_usages (final (Web.sample t s)) = cpu_usages s) /\
  exists i', final (Live.api_live_test_stats d cid reg) !! cid = Some i' /\
             Live.cpu_history i' = Live.cpu_history i ++ [0%Q].
Proof.
  intros Hbad Hreg Hrel Hst. apply guard_false in Hbad. split.
  - intros t s Hr Hn.
    rewrite (cli_sample_payload t stats s Hr Hn), (web_sample_payload t stats s Hr Hn).
    cbn [final]. rewrite record_sample_cpu, Hbad, app_nil_r. auto.
  - destruct (live_stats_history d cid reg i stats Hreg Hrel Hst)
      as (i' & Hi' & Hcpu & _).
    exists i'. rewrite Hbad in Hcpu. auto.
Qed.

Lemma C1_witness :
  exists i', final (Live.api_live_test_stats Inputs.stalled_poll "c1"
                      Inputs.one_container) !! "c1" = Some i' /\
             Live.cpu_history i' = [10%Q; 0%Q].
Proof.
  refine (proj2 (C1_live_poll_records_zero Inputs.stalled_poll "c1"
                   Inputs.one_container Inputs.entry Inputs.stalled_payload
                   _ _ _ _)).
  - left. vm_compute. discriminate.
  - reflexivity.
  - reflexivity.
  - reflexivity.
Defined.

(** ** Cleanup *)

Lemma cli_cleanup_cases (d : daemon) (s : locals) :
  Cli.cleanup d s =
  match stop_answer d, remove_answer d with
  | Some e, _ =>
      Res (if is_Exception e then inr tt else inl e) s
        ([EPrint "Cleaning up container..."; EStop]
         ++ if is_Exception e
            then [EPrint ("Error during cleanup: " +:+ str_of_exn e)] else [])
  | None, Some e =>
      Res (if is_Exception e then inr tt else inl e) s
        ([EPrint "Cleaning up container..."; EStop; ERemove]
         ++ if is_Exception e
            then [EPrint ("Error during cleanup: " +:+ str_of_exn e)] else [])
  | None, None =>
      Res (inr tt) s [EPrint "Cleaning up container..."; EStop; ERemove]
  end.
Proof.
  unfold Cli.cleanup. eff_run.
  destruct (stop_answer d) as [e |]; [destruct (is_Exception e); reflexivity |].
  destruct (remove_answer d) as [e |]; [destruct (is_Exception e); reflexivity |].
  reflexivity.
Qed.

Lemma web_cleanup_cases (d : daemon) (s : locals) :
  Web.cleanup d s =
  Res (inr tt) s
    match stop_answer d with
    | Some _ => [EStop]
    | None => [EStop; ERemove]
    end.
Proof.
  unfold Web.cleanup. eff_run.
  destruct (stop_answer d) as [e |]; [reflexivity |].
  destruct (remove_answer d) as [e |]; reflexivity.
Qed.

Lemma cli_guarded_collect_quiet (d : daemon) (s : locals) :
  quiet (events (Cli.guarded_collect d s)).
Proof.
  unfold Cli.guarded_collect, try_except.
  destruct (cli_collect_inv (clock d) s) as [Hq _].
  destruct (Cli.collect (clock d) s) as [[e | []] s1 t1]; simpl in *; [| exact Hq].
  destruct e; simpl; apply quiet_app; try exact Hq; split; reflexivity.
Qed.

(** The command-line tool: whatever the loop did, [stop] is called
    once and [remove] at most once. *)
Lemma cli_cleanup_once (d : daemon) (s : locals) :
  count is_stop (events (Cli.collect_and_cleanup d s)) = 1%nat /\
  (count is_remove (events (Cli.collect_and_cleanup d s)) <= 1)%nat.
Proof.
  unfold Cli.collect_and_cleanup, try_finally.
  destruct (cli_guarded_collect_quiet d s) as [Hs Hr].
  destruct (Cli.guarded_collect d s) as [o s1 t1]. simpl in Hs, Hr.
  rewrite cli_cleanup_cases.
  destruct (stop_answer d) as [e |]; [| destruct (remove_answer d) as [e |]];
    try destruct (is_Exception e); simpl; rewrite !count_app, Hs, Hr; simpl; lia.
Qed.

(** A failure of [stop] or [remove] that is an [Exception] changes
    neither the outcome of the collection nor the buffers. *)
Lemma cli_cleanup_swallowed (d : daemon) (a b : option exn) (s : locals) :
  (forall e, a = Some e -> is_Exception e = true) ->
  (forall e, b = Some e -> is_Exception e = true) ->
  outcome (Cli.collect_and_cleanup (with_cleanup d a b) s)
  = outcome (Cli.guarded_collect d s) /\
  final (Cli.collect_and_cleanup (with_cleanup d a b) s)
  = final (Cli.guarded_collect d s).
Proof.
  intros Ha Hb. unfold Cli.collect_and_cleanup, try_finally.
  change (Cli.guarded_collect (with_cleanup d a b) s) with (Cli.guarded_collect d s).
  destruct (Cli.guarded_collect d s) as [o s1 t1].
  rewrite cli_cleanup_cases. simpl.
  destruct a as [e |]; [rewrite (Ha e eq_refl); auto |].
  destruct b as [e |]; [rewrite (Hb e eq_refl); auto |].
  auto.
Qed.

(** The web application: the same, and its bare [except:] swallows
    every failure. *)
Lemma web_cleanup_once (d : daemon) (s : locals) :
  count is_stop (events (Web.collect_and_cleanup d s)) = 1%nat /\
  (count is_remove (events (Web.collect_and_cleanup d s)) <= 1)%nat /\
  outcome (Web.collect_and_cleanup d s) = outcome (Web.collect (clock d) s) /\
  final (Web.collect_and_cleanup d s) = final (Web.collect (clock d) s).
Proof.
  unfold Web.collect_and_cleanup, try_finally.
  destruct (web_collect_inv (clock d) s) as [[Hs Hr] _].
  destruct (Web.collect (clock d) s) as [o s1 t1]. simpl in Hs, Hr.
  rewrite web_cleanup_cases.
  destruct (stop_answer d) as [e |]; simpl; rewrite !count_app, Hs, Hr; simpl;
    repeat split; lia.
Qed.

(** C5. The stop request of the live test ([api_stop_live_test]) does
    not swallow a cleanup failure: when [container.stop()] raises, the
    answer is the error of the cleanup, the recommendations computed just
    before are dropped, and the entry stays in the registry. *)
Theorem C5_stop_failure_replaces_result (d : Live.request_env) (cid : string)
    (reg : gmap string Live.container_info) (i : Live.container_info) (e : exn) :
  reg !! cid = Some i ->
  Live.stop_now d = Some e ->
  is_Exception e = true ->
  Live.api_stop_live_test d cid reg
  = Res (inr (Live.RError (str_of_exn e))) reg [EStop].
Proof.
  intros Hreg Hstop He.
  destruct (stop_registered d cid reg i Hreg) as (recs & _ & ->).
  rewrite Hstop, He. reflexivity.
Qed.

Lemma C5_witness :
  Live.api_stop_live_test Inputs.failing_stop "c1" Inputs.one_container
  = Res (inr (Live.RError "No such container")) Inputs.one_container [EStop].
Proof.
  apply (C5_stop_failure_replaces_result Inputs.failing_stop "c1"
           Inputs.one_container Inputs.entry (APIError "No such container"));
    reflexivity.
Defined.

(** With the same history and a daemon that stops the container, the
    answer carries the recommendations. *)
Example clean_stop_answers :
  exists recs,
    outcome (Live.api_stop_live_test Inputs.clean_stop "c1" Inputs.one_container)
    = inr (Live.RStopped (Some recs)).
Proof. eexists. vm_compute. reflexivity. Qed.

(** After a stop request that succeeded, a second stop request for the
    same container finds no entry: it answers "Container not found",
    makes no call to the daemon and leaves the registry as the first
    request left it. *)
Lemma second_stop_after_success (d1 d2 : Live.request_env) (cid : string)
    (reg : gmap string Live.container_info)
    (recs : option Live.recommendations_t) :
  outcome (Live.api_stop_live_test d1 cid reg) = inr (Live.RStopped recs) ->
  Live.api_stop_live_test d2 cid (final (Live.api_stop_live_test d1 cid reg))
  = Res (inr (Live.RError "Container not found"))
      (final (Live.api_stop_live_test d1 cid reg)) [].
Proof.
  intros H. destruct (reg !! cid) as [i |] eqn:Hreg.
  - destruct (stop_registered d1 cid reg i Hreg) as (recs' & _ & Heq).
    rewrite Heq in *.
    destruct (Live.stop_now d1) as [e |];
      [destruct (is_Exception e); discriminate |].
    destruct (Live.remove_now d1) as [e |];
      [destruct (is_Exception e); discriminate |].
    cbn [final]. apply stop_unknown, lookup_delete_eq.
  - rewrite (stop_unknown d1 cid reg Hreg) in H. discriminate.
Qed.

(** C9. A second stop request is not always inert. When the first
    request stopped the container and [container.remove()] then raised,
    the first request answers with the error and the entry stays in the
    registry, although the container is stopped; the second request
    calls [stop] again, calls [remove] again if that [stop] is accepted,
    and when the daemon now accepts both it deletes the entry and
    answers with success: the cleanup is run a second time and the
    registry changes. Only after a first request that answered with
    success does the second one find no entry, make no call and leave
    the registry alone. *)
Theorem C9_failed_remove_reruns_cleanup (d1 d2 : Live.request_env) (cid : string)
    (reg : gmap string Live.container_info) (i : Live.container_info) (e : exn) :
  reg !! cid = Some i ->
  Live.stop_now d1 = None ->
  Live.remove_now d1 = Some e ->
  is_Exception e = true ->
  let first := Live.api_stop_live_test d1 cid reg in
  let second := Live.api_stop_live_test d2 cid (final first) in
  first = Res (inr (Live.RError (str_of_exn e))) reg [EStop; ERemove] /\
  count is_stop (events second) = 1%nat /\
  (Live.stop_now d2 = None -> count is_remove (events second) = 1%nat) /\
  (Live.stop_now d2 = None -> Live.remove_now d2 = None ->
   final second = delete cid reg /\
   final second <> final first /\
   exists recs, outcome second = inr (Live.RStopped recs)) /\
  (forall d0 recs,
     outcome (Live.api_stop_live_test d0 cid reg) = inr (Live.RStopped recs) ->
     Live.api_stop_live_test d2 cid (final (Live.api_stop_live_test d0 cid reg))
     = Res (inr (Live.RError "Container not found"))
         (final (Live.api_stop_live_test d0 cid reg)) []).
Proof.
  intros Hreg Hstop Hrem Hexc first second.
  assert (Hfirst : first = Res (inr (Live.RError (str_of_exn e))) reg [EStop; ERemove]).
  { subst first. destruct (stop_registered d1 cid reg i Hreg) as (recs & _ & ->).
    rewrite Hstop, Hrem, Hexc. reflexivity. }
  assert (Hsecond : second = Live.api_stop_live_test d2 cid reg).
  { subst second. rewrite Hfirst. reflexivity. }
  clearbody first second. subst first second.
  destruct (stop_registered d2 cid reg i Hreg) as (recs & _ & ->).
  split; [reflexivity |]. split; [| split; [| split]].
  - destruct (Live.stop_now d2) as [e2 |]; [reflexivity |].
    destruct (Live.remove_now d2) as [e2 |]; reflexivity.
  - intros ->. destruct (Live.remove_now d2) as [e2 |]; reflexivity.
  - intros -> ->. cbn [final outcome]. split; [reflexivity |]. split.
    + intros E. assert (H : delete cid reg !! cid = reg !! cid) by (rewrite E; reflexivity).
      rewrite lookup_delete_eq, Hreg in H. discriminate.
    + exists recs. reflexivity.
  - intros d0 recs0 H0. apply (second_stop_after_success d0 d2 cid reg recs0 H0).
Qed.

Lemma C9_witness :
  Live.api_stop_live_test Inputs.failing_remove "c1" Inputs.one_container
  = Res (inr (Live.RError "removal of container is already in progress"))
      Inputs.one_container [EStop; ERemove] /\
  count is_stop
    (events (Live.api_stop_live_test Inputs.clean_stop "c1"
               (final (Live.api_stop_live_test Inputs.failing_remove "c1"
                         Inputs.one_container)))) = 1%nat.
Proof.
  refine ((fun H => conj (proj1 H) (proj1 (proj2 H)))
            (C9_failed_remove_reruns_cleanup Inputs.failing_remove Inputs.clean_stop
               "c1" Inputs.one_container Inputs.entry
               (APIError "removal of container is already in progress")
               _ _ _ _)); reflexivity.
Defined.

(** ** The first iteration *)

(** C6, counterexample. The first iteration does not always leave the
    CPU series empty: the first payload of a stream, whose
    [precpu_stats] carry no earlier reading, passes the guard, and both
    loops record a CPU value (10 percent here) on their very first
    iteration. *)
Lemma C6_first_iteration_records_cpu :
  (exists v, cpu_usages (final (Cli.sample (Inputs.running Inputs.first_payload)
                                  no_samples)) = [v] /\ (v == 10)%Q) /\
  (exists v, cpu_usages (final (Web.sample (Inputs.running Inputs.first_payload)
                                  no_samples)) = [v] /\ (v == 10)%Q).
Proof. split; eexists; (split; [reflexivity | reflexivity]). Qed.

(** C6, amended. The loops keep no previous snapshot of their own: the
    first iteration, like every other, always appends the memory value
    of its payload, and appends a CPU value exactly when the payload's
    own counters ([cpu_stats] against [precpu_stats]) pass the guard;
    when they do not, it leaves a memory-only data point. *)
Theorem C6_first_iteration (t : tick) (stats : stats_t) :
  reload_answer t = inr "running" ->
  next_answer t = inr stats ->
  final (Cli.sample t no_samples)
  = Locals (if Delta.guard stats then [Delta.cpu_percent stats] else [])
      [Delta.mem_usage stats] 1 /\
  final (Web.sample t no_samples)
  = Locals (if Delta.guard stats then [Delta.cpu_percent stats] else [])
      [Delta.mem_usage stats] 1.
Proof.
  intros Hr Hn.
  rewrite (cli_sample_payload t stats _ Hr Hn), (web_sample_payload t stats _ Hr Hn).
  cbn [final]. unfold record_sample. destruct (Delta.guard stats); auto.
Qed.

Lemma C6_witness :
  final (Cli.sample (Inputs.running Inputs.stalled_payload) no_samples)
  = Locals [] [Delta.mem_usage Inputs.stalled_payload] 1 /\
  final (Web.sample (Inputs.running Inputs.stalled_payload) no_samples)
  = Locals [] [Delta.mem_usage Inputs.stalled_payload] 1.
Proof.
  apply (C6_first_iteration (Inputs.running Inputs.stalled_payload)
           Inputs.stalled_payload); reflexivity.
Defined.

(** ** The recorded CPU value *)

(** C8. When [system_delta > 0] and [cpu_delta >= 0] the value appended
    to the CPU series is [(cpu_delta / system_delta) * n * 100], where
    [n] is the explicit online-CPU field if present and nonzero, else
    the length of the per-CPU array if present and non-empty, else 1;
    so it is in both batch loops and in the live poll. *)
Theorem C8_cpu_sample_formula (stats : stats_t) :
  0 < Delta.system_delta stats ->
  0 <= Delta.cpu_delta stats ->
  let n := Spec.online_cpu_count (Spec.online_field stats) (Spec.percpu_field stats) in
  let v := (inject_Z (Delta.cpu_delta stats) / inject_Z (Delta.system_delta stats)
            * inject_Z n * 100)%Q in
  (forall t s, reload_answer t = inr "running" -> next_answer t = inr stats ->
     cpu_usages (final (Cli.sample t s)) = cpu_usages s ++ [v] /\
     cpu_usages (final (Web.sample t s)) = cpu_usages s ++ [v]) /\
  (forall d cid (reg : gmap string Live.container_info) i,
     reg !! cid = Some i ->
     Live.reload_now d = inr "running" -> Live.stats_now d = inr stats ->
     exists i', final (Live.api_live_test_stats d cid reg) !! cid = Some i' /\
                Live.cpu_history i' = Live.cpu_history i ++ [v]).
Proof.
  intros Hsys Hcpu n v.
  assert (Hg : Delta.guard stats = true) by (apply guard_true; auto).
  assert (Hv : Delta.cpu_percent stats = v).
  { unfold Delta.cpu_percent, Py.truediv, v, n.
    rewrite online_cpus_resolution. reflexivity. }
  split.
  - intros t s Hr Hn.
    rewrite (cli_sample_payload t stats s Hr Hn), (web_sample_payload t stats s Hr Hn).
    cbn [final]. rewrite record_sample_cpu, Hg, Hv. auto.
  - intros d cid reg i Hreg Hrel Hst.
    destruct (live_stats_history d cid reg i stats Hreg Hrel Hst)
      as (i' & Hi' & Hc & _).
    exists i'. rewrite Hg, Hv in Hc. auto.
Qed.

Lemma C8_witness :
  cpu_usages (final (Cli.sample (Inputs.running Inputs.busy_payload) no_samples))
  = [(inject_Z 40000000 / inject_Z 1000000000 * inject_Z 2 * 100)%Q] /\
  cpu_usages (final (Web.sample (Inputs.running Inputs.busy_payload) no_samples))
  = [(inject_Z 40000000 / inject_Z 1000000000 * inject_Z 2 * 100)%Q].
Proof.
  refine (proj1 (C8_cpu_sample_formula Inputs.busy_payload _ _)
            (Inputs.running Inputs.busy_payload) no_samples _ _).
  - reflexivity.
  - discriminate.
  - reflexivity.
  - reflexivity.
Defined.

Example online_cpu_resolution_order :
  Spec.online_cpu_count (Some 4) (Some [1; 2]) = 4 /\
  Spec.online_cpu_count (Some 0) (Some [1; 2]) = 2 /\
  Spec.online_cpu_count None (Some [1; 2; 3]) = 3 /\
  Spec.online_cpu_count None (Some []) = 1 /\
  Spec.online_cpu_count (Some 0) None = 1 /\
  Spec.online_cpu_count None None = 1.
Proof. repeat split; reflexivity. Qed.

(** The value scales linearly with the number of CPUs. *)
Lemma cpu_percent_linear (stats : stats_t) :
  (Delta.cpu_percent stats
   == inject_Z (Delta.online_cpus_of stats)
      * (Py.truediv (Delta.cpu_delta stats) (Delta.system_delta stats) * 100))%Q.
Proof. unfold Delta.cpu_percent. ring. Qed.

(** ** The two series *)

(** C10. The invariant "the memory series is at least as long as the
    CPU series, and the sample count is the length of the memory
    series" holds before the first iteration and is kept by every
    iteration, hence by every run of the loop, in both batch paths; an
    iteration that obtains a payload appends exactly one memory value
    (0 MB when [memory_stats] is absent), a CPU value only under the
    guard, and counts one sample; the count reported by
    [estimate_single_image] can therefore exceed the length of the CPU
    series (2 samples against 1 CPU value here). *)
Theorem C10_memory_series_dominates :
  Spec.history_ok no_samples /\
  (forall t s, Spec.history_ok s ->
     Spec.history_ok (final (Cli.sample t s)) /\
     Spec.history_ok (final (Web.sample t s))) /\
  (forall ticks s, Spec.history_ok s ->
     Spec.history_ok (final (Cli.collect ticks s)) /\
     Spec.history_ok (final (Web.collect ticks s))) /\
  (forall t stats s, reload_answer t = inr "running" -> next_answer t = inr stats ->
     final (Cli.sample t s) = record_sample stats s /\
     final (Web.sample t s) = record_sample stats s /\
     mem_usages (record_sample stats s) = mem_usages s ++ [Delta.mem_usage stats] /\
     cpu_usages (record_sample stats s)
     = cpu_usages s ++ (if Delta.guard stats then [Delta.cpu_percent stats] else []) /\
     sample_count (record_sample stats s) = sample_count s + 1) /\
  (forall c p, (Delta.mem_usage (Stats c p None) == 0)%Q) /\
  (exists r s,
     Web.estimate_single_image
       (Daemon None None (fun _ => None)
          [Inputs.running Inputs.stalled_payload; Inputs.running Inputs.busy_payload]
          None None) "nginx:latest" 20 None no_samples
     = Res (inr (Web.Ok r)) s
         [EImagesGet "nginx:latest"; ERun "nginx:latest" (Some (CmdStr TAIL));
          EReload; ENext; ESleep 1; EReload; ENext; ESleep 1; EStop; ERemove] /\
     Web.samples r = 2 /\ length (cpu_usages s) = 1%nat /\
     length (mem_usages s) = 2%nat).
Proof.
  split; [apply no_samples_ok |].
  split.
  { intros t s Hok. split.
    - destruct (cli_sample_cases t s) as [_ [-> | (stats & _ & _ & ->)]];
        [exact Hok | apply record_sample_ok, Hok].
    - destruct (web_sample_cases t s) as [_ [-> | (stats & _ & _ & ->)]];
        [exact Hok | apply record_sample_ok, Hok]. }
  split.
  { intros ticks s Hok. split.
    - apply cli_collect_inv, Hok.
    - apply web_collect_inv, Hok. }
  split.
  { intros t stats s Hr Hn.
    rewrite (cli_sample_payload t stats s Hr Hn), (web_sample_payload t stats s Hr Hn).
    cbn [final].
    repeat split; [apply record_sample_mem | apply record_sample_cpu
                  | apply record_sample_count]. }
  split.
  { intros c p. reflexivity. }
  eexists. eexists. split; [vm_compute; reflexivity |].
  repeat split; reflexivity.
Qed.

Lemma C10_witness :
  Spec.history_ok
    (final (Cli.collect [Inputs.running Inputs.stalled_payload; Inputs.exited]
              no_samples)).
Proof.
  apply (proj1 (proj1 (proj2 (proj2 C10_memory_series_dominates))
                  [Inputs.running Inputs.stalled_payload; Inputs.exited]
                  no_samples no_samples_ok)).
Defined.

(** ** Starting the container *)

(** The command-line tool walks the documented chain: after the failed
    keep-alive launch it tries the three fallbacks in order and stops at
    the first the daemon accepts; when none is accepted it exits. *)
Lemma cli_start_chain (d : daemon) (img : string) (s : locals) (e0 : exn) :
  containers_run d (Some (CmdStr TAIL)) = Some e0 ->
  is_APIError e0 = true ->
  Py.contains NOT_FOUND (str_of_exn e0) = true ->
  (forall c e, containers_run d c = Some e -> is_APIError e = true) ->
  calls (events (Cli.start_container d img None s))
  = ERun img (Some (CmdStr TAIL))
    :: map (ERun img) (fst (Spec.try_chain (containers_run d) Spec.fallback_chain)) /\
  outcome (Cli.start_container d img None s)
  = (if snd (Spec.try_chain (containers_run d) Spec.fallback_chain)
     then inr tt else inl (SystemExit 1)) /\
  final (Cli.start_container d img None s) = s.
Proof.
  intros H0 Hapi Hmsg Hall.
  unfold Cli.start_container, Cli.fallback_sleep, Cli.fallback_sh,
    Cli.fallback_default, Cli.run_container, Cli.exit_1, first_command,
    Spec.fallback_chain.
  eff_run. rewrite H0.
  destruct e0; try discriminate; cbn [str_of_exn is_APIError] in *;
    rewrite Hmsg; cbn [Py.truthy_str negb andb]; simpl Spec.try_chain;
    (destruct (containers_run d (Some (CmdStr SLEEP))) as [e1 |] eqn:E1;
       [rewrite (Hall _ _ E1) | repeat split; reflexivity]);
    (destruct (containers_run d (Some (CmdList SH_SLEEP))) as [e2 |] eqn:E2;
       [rewrite (Hall _ _ E2) | repeat split; reflexivity]);
    (destruct (containers_run d None) as [e3 |] eqn:E3;
       [rewrite (Hall _ _ E3) | repeat split; reflexivity]);
    repeat split; reflexivity.
Qed.

(** The web application tries the infinite sleep and then the image's
    default command; the shell-wrapped sleep is never tried. *)
Lemma web_start_chain (d : daemon) (img : string) (s : locals) (e0 : exn) :
  containers_run d (Some (CmdStr TAIL)) = Some e0 ->
  is_APIError e0 = true ->
  Py.contains NOT_FOUND (str_of_exn e0) = true ->
  calls (events (Web.start_container d img None s))
  = ERun img (Some (CmdStr TAIL))
    :: map (ERun img)
         (fst (Spec.try_chain (containers_run d) [Some (CmdStr SLEEP); None])).
Proof.
  intros H0 Hapi Hmsg.
  unfold Web.start_container, Web.fallback_sleep, Web.fallback_default,
    Web.run_container, first_command.
  eff_run. rewrite H0, Hapi, Hmsg.
  cbn [Py.truthy_str negb andb]. simpl Spec.try_chain.
  destruct (containers_run d (Some (CmdStr SLEEP))) as [e1 |] eqn:E1; [| reflexivity].
  destruct (containers_run d None) as [e3 |] eqn:E3; [| reflexivity].
  destruct (is_Exception e3); reflexivity.
Qed.

(** C7. On an image whose keep-alive and plain sleep launches fail with
    "executable file not found" while the shell-wrapped sleep would
    start, [estimate_resources] starts the container with the
    shell-wrapped sleep, the second fallback; [estimate_single_image]
    never tries it and goes from the plain sleep straight to the image's
    default command. *)
Theorem C7_web_fallback_skips_shell (d : daemon) (img : string) (s : locals)
    (e0 e1 : exn) :
  containers_run d (Some (CmdStr TAIL)) = Some e0 ->
  is_APIError e0 = true ->
  Py.contains NOT_FOUND (str_of_exn e0) = true ->
  containers_run d (Some (CmdStr SLEEP)) = Some e1 ->
  is_APIError e1 = true ->
  containers_run d (Some (CmdList SH_SLEEP)) = None ->
  calls (events (Cli.start_container d img None s))
  = [ERun img (Some (CmdStr TAIL)); ERun img (Some (CmdStr SLEEP));
     ERun img (Some (CmdList SH_SLEEP))] /\
  outcome (Cli.start_container d img None s) = inr tt /\
  calls (events (Web.start_container d img None s))
  = [ERun img (Some (CmdStr TAIL)); ERun img (Some (CmdStr SLEEP));
     ERun img None].
Proof.
  intros H0 Hapi0 Hmsg H1 Hapi1 H2.
  split; [| split].
  - unfold Cli.start_container, Cli.fallback_sleep, Cli.fallback_sh,
      Cli.fallback_default, Cli.run_container, Cli.exit_1, first_command.
    eff_run. rewrite H0, H1, H2.
    destruct e0; try discriminate; cbn [str_of_exn is_APIError] in *;
      rewrite Hmsg, Hapi1; reflexivity.
  - unfold Cli.start_container, Cli.fallback_sleep, Cli.fallback_sh,
      Cli.fallback_default, Cli.run_container, Cli.exit_1, first_command.
    eff_run. rewrite H0, H1, H2.
    destruct e0; try discriminate; cbn [str_of_exn is_APIError] in *;
      rewrite Hmsg, Hapi1; reflexivity.
  - rewrite (web_start_chain d img s e0 H0 Hapi0 Hmsg).
    simpl Spec.try_chain. rewrite H1.
    destruct (containers_run d None); reflexivity.
Qed.

Lemma C7_witness :
  calls (events (Cli.start_container Inputs.shell_only_daemon "busybox" None no_samples))
  = [ERun "busybox" (Some (CmdStr TAIL)); ERun "busybox" (Some (CmdStr SLEEP));
     ERun "busybox" (Some (CmdList SH_SLEEP))] /\
  outcome (Cli.start_container Inputs.shell_only_daemon "busybox" None no_samples)
  = inr tt /\
  calls (events (Web.start_container Inputs.shell_only_daemon "busybox" None no_samples))
  = [ERun "busybox" (Some (CmdStr TAIL)); ERun "busybox" (Some (CmdStr SLEEP));
     ERun "busybox" None].
Proof.
  apply (C7_web_fallback_skips_shell Inputs.shell_only_daemon "busybox" no_samples
           (APIError "OCI runtime create failed: exec: executable file not found in $PATH")
           (APIError "OCI runtime create failed: exec: executable file not found in $PATH"));
    reflexivity.
Defined.

(** ** Aggregation *)

Lemma sum_from (l : list Q) (a : Q) :
  (fold_left Qplus l a == a + fold_right Qplus 0 l)%Q.
Proof.
  revert a. induction l as [| x l IH]; intros a; simpl.
  - ring.
  - rewrite IH. ring.
Qed.

Lemma mean_is_mean (l : list Q) (m : Q) : Py.mean l = Some m -> Spec.is_mean l m.
Proof.
  destruct l as [| x l]; [discriminate |].
  intros [= <-]. unfold Spec.is_mean, Py.sum. rewrite sum_from. simpl length.
  assert (Hn : ~ (inject_Z (Z.of_nat (S (length l))) == 0)%Q).
  { change 0%Q with (inject_Z 0). rewrite inject_Z_injective. lia. }
  revert Hn. generalize (inject_Z (Z.of_nat (S (length l)))).
  generalize (fold_right Qplus 0%Q (x :: l)). intros a n Hn.
  field. exact Hn.
Qed.

Lemma max_from_spec (l : list Q) (m : Q) :
  (Py.max_from m l = m \/ In (Py.max_from m l) l) /\
  (m <= Py.max_from m l)%Q /\
  forall x, In x l -> (x <= Py.max_from m l)%Q.
Proof.
  revert m. induction l as [| y l IH]; intros m; simpl.
  - split; [auto | split; [lra | tauto]].
  - destruct (Qlt_le_dec m y) as [Hlt | Hle].
    + destruct (IH y) as (Hin & Hge & Hall).
      split; [destruct Hin as [-> | Hin]; auto |].
      split; [lra |].
      intros x [<- | Hx]; [exact Hge | auto].
    + destruct (IH m) as (Hin & Hge & Hall).
      split; [tauto |].
      split; [exact Hge |].
      intros x [<- | Hx]; [lra | auto].
Qed.

Lemma max_is_max (l : list Q) (m : Q) : Py.max l = Some m -> Spec.is_max l m.
Proof.
  destruct l as [| x l]; [discriminate |].
  intros [= <-]. destruct (max_from_spec l x) as (Hin & Hge & Hall).
  split.
  - destruct Hin as [-> | Hin]; [left; reflexivity | right; exact Hin].
  - intros y [<- | Hy]; [exact Hge | auto].
Qed.

Lemma is_empty_nil {A} (l : list A) : is_empty l = true <-> l = [].
Proof. destruct l; simpl; split; intros H; congruence. Qed.

(** C2. With an empty CPU series or an empty memory series the
    aggregation of [estimate_single_image] returns the error "No stats
    collected..." and that of [estimate_resources] prints it and exits
    with status 1: neither produces statistics. With both series
    non-empty each returns the mean and the maximum of the CPU series
    and of the memory series (the web application rounds them to two
    decimals). *)
Theorem C2_aggregation (img : string) (dur : Z) (s : locals) :
  (cpu_usages s = [] \/ mem_usages s = [] ->
   Web.summarise img dur s = Res (inr (Web.Error Web.NO_STATS)) s [] /\
   Cli.summarise img dur s = Res (inl (SystemExit 1)) s [EPrint Cli.NO_STATS]) /\
  (cpu_usages s <> [] -> mem_usages s <> [] ->
   exists avg_cpu peak_cpu avg_mem peak_mem,
     Spec.is_mean (cpu_usages s) avg_cpu /\ Spec.is_max (cpu_usages s) peak_cpu /\
     Spec.is_mean (mem_usages s) avg_mem /\ Spec.is_max (mem_usages s) peak_mem /\
     (exists r, outcome (Cli.summarise img dur s) = inr r /\
        Cli.cpu_avg r = avg_cpu /\ Cli.cpu_peak r = peak_cpu /\
        Cli.mem_avg_mb r = avg_mem /\ Cli.mem_peak_mb r = peak_mem) /\
     (exists r, outcome (Web.summarise img dur s) = inr (Web.Ok r) /\
        Web.cpu_avg r = Py.round_nd avg_cpu 2 /\
        Web.cpu_peak r = Py.round_nd peak_cpu 2 /\
        Web.mem_avg_mb r = Py.round_nd avg_mem 2 /\
        Web.mem_peak_mb r = Py.round_nd peak_mem 2)).
Proof.
  split.
  - intros H.
    assert (Hb : is_empty (cpu_usages s) || is_empty (mem_usages s) = true).
    { apply orb_true_iff. rewrite !is_empty_nil. exact H. }
    unfold Web.summarise, Cli.summarise, Cli.exit_1. eff_run. rewrite Hb.
    split; reflexivity.
  - intros Hc Hm.
    destruct (cpu_usages s) as [| c cs] eqn:Ec; [congruence |].
    destruct (mem_usages s) as [| m ms] eqn:Em; [congruence |].
    destruct (Py.mean (c :: cs)) as [ac |] eqn:Eac; [| discriminate].
    destruct (Py.max (c :: cs)) as [pc |] eqn:Epc; [| discriminate].
    destruct (Py.mean (m :: ms)) as [am |] eqn:Eam; [| discriminate].
    destruct (Py.max (m :: ms)) as [pm |] eqn:Epm; [| discriminate].
    exists ac, pc, am, pm.
    split; [apply mean_is_mean, Eac |].
    split; [apply max_is_max, Epc |].
    split; [apply mean_is_mean, Eam |].
    split; [apply max_is_max, Epm |].
    unfold Web.summarise, Cli.summarise, mean_or_raise, max_or_raise.
    eff_run. rewrite Ec, Em. cbn [is_empty orb].
    rewrite Eac, Epc, Eam, Epm.
    split; eexists; (split; [reflexivity | repeat split]).
Qed.

Lemma C2_witness :
  Web.summarise "nginx:latest" 20 (Locals [] [100%Q] 1)
  = Res (inr (Web.Error Web.NO_STATS)) (Locals [] [100%Q] 1) [] /\
  Cli.summarise "nginx:latest" 20 (Locals [] [100%Q] 1)
  = Res (inl (SystemExit 1)) (Locals [] [100%Q] 1) [EPrint Cli.NO_STATS].
Proof.
  apply (proj1 (C2_aggregation "nginx:latest" 20 (Locals [] [100%Q] 1))).
  left. reflexivity.
Defined.

(** ** Whole runs *)

Lemma bind_run {St A B} (m : M St A) (f : A -> M St B) (s : St) :
  events (bind m f s)
  = events (m s)
    ++ match outcome (m s) with
       | inr a => events (f a (final (m s)))
       | inl _ => []
       end /\
  outcome (bind m f s)
  = match outcome (m s) with
    | inr a => outcome (f a (final (m s)))
    | inl e => inl e
    end /\
  final (bind m f s)
  = match outcome (m s) with
    | inr a => final (f a (final (m s)))
    | inl _ => final (m s)
    end.
Proof.
  unfold bind. destruct (m s) as [[e | a] s1 t1]; simpl.
  - rewrite app_nil_r. auto.
  - destruct (f a s1); auto.
Qed.

Lemma try_except_run {St A} (m : M St A) (h : exn -> M St A) (s : St) :
  events (try_except m h s)
  = events (m s)
    ++ match outcome (m s) with
       | inl e => events (h e (final (m s)))
       | inr _ => []
       end /\
  outcome (try_except m h s)
  = match outcome (m s) with
    | inl e => outcome (h e (final (m s)))
    | inr a => inr a
    end /\
  final (try_except m h s)
  = match outcome (m s) with
    | inl e => final (h e (final (m s)))
    | inr _ => final (m s)
    end.
Proof.
  unfold try_except. destruct (m s) as [[e | a] s1 t1]; simpl.
  - destruct (h e s1); auto.
  - rewrite app_nil_r. auto.
Qed.

(** Resolving the image and starting the container touch neither the
    buffers nor [stop]/[remove]. *)
Lemma cli_resolve_inert (d : daemon) (img : string) (s : locals) :
  final (Cli.resolve_image d img s) = s /\
  quiet (events (Cli.resolve_image d img s)).
Proof.
  unfold Cli.resolve_image, Cli.exit_1. eff_run.
  destruct (images_get d) as [[] |]; cbn [is_APIError];
    try (repeat split; reflexivity).
  destruct (images_pull d) as [[] |]; repeat split; reflexivity.
Qed.

Lemma cli_start_inert (d : daemon) (img : string) (cmd : option string) (s : locals) :
  final (Cli.start_container d img cmd s) = s /\
  quiet (events (Cli.start_container d img cmd s)).
Proof.
  unfold Cli.start_container, Cli.fallback_sleep, Cli.fallback_sh,
    Cli.fallback_default, Cli.run_container, Cli.exit_1.
  eff_run.
  destruct (containers_run d (Some (CmdStr (first_command cmd)))) as [e0 |];
    [| repeat split; reflexivity].
  destruct e0; cbn [is_APIError str_of_exn]; try (repeat split; reflexivity);
    (destruct (Py.contains NOT_FOUND msg && negb (Py.truthy_str cmd));
       [| repeat split; reflexivity]);
    (destruct (containers_run d (Some (CmdStr SLEEP))) as [[] |];
       cbn [is_APIError]; try (repeat split; reflexivity));
    (destruct (containers_run d (Some (CmdList SH_SLEEP))) as [[] |];
       cbn [is_APIError]; try (repeat split; reflexivity));
    (destruct (containers_run d None) as [[] |];
       cbn [is_APIError]; repeat split; reflexivity).
Qed.

Lemma cli_summarise_quiet (img : string) (dur : Z) (s : locals) :
  quiet (events (Cli.summarise img dur s)).
Proof.
  unfold Cli.summarise, Cli.exit_1, mean_or_raise, max_or_raise. eff_run.
  destruct (cpu_usages s) as [| c cs]; [split; reflexivity |].
  destruct (mem_usages s) as [| m ms]; split; reflexivity.
Qed.

(** A run of [estimate_resources] that started a container stops it
    exactly once, however the collection ended; a run that did not
    start one never calls [stop]. *)
Lemma cli_run_stops_once (d : daemon) (img : string) (dur : Z)
    (cmd : option string) (s : locals) :
  count is_stop (events (Cli.estimate_resources d img dur cmd s))
  = match outcome (Cli.resolve_image d img s),
          outcome (Cli.start_container d img cmd s) with
    | inr _, inr _ => 1%nat
    | _, _ => 0%nat
    end.
Proof.
  unfold Cli.estimate_resources.
  destruct (cli_resolve_inert d img s) as [Hf1 [Hs1 _]].
  destruct (cli_start_inert d img cmd s) as [Hf2 [Hs2 _]].
  destruct (bind_run (Cli.resolve_image d img)
              (fun _ => do_ Cli.start_container d img cmd;
                        do_ init_buffers;
                        do_ Cli.collect_and_cleanup d;
                        Cli.summarise img dur) s) as (-> & _ & _).
  rewrite count_app, Hs1, Hf1.
  destruct (outcome (Cli.resolve_image d img s)) as [e | []]; [reflexivity |].
  destruct (bind_run (Cli.start_container d img cmd)
              (fun _ => do_ init_buffers;
                        do_ Cli.collect_and_cleanup d;
                        Cli.summarise img dur) s) as (-> & _ & _).
  rewrite count_app, Hs2, Hf2.
  destruct (outcome (Cli.start_container d img cmd s)) as [e | []]; [reflexivity |].
  destruct (bind_run init_buffers
              (fun _ => do_ Cli.collect_and_cleanup d;
                        Cli.summarise img dur) s) as (-> & _ & _).
  cbn [init_buffers modify outcome final events app].
  destruct (bind_run (Cli.collect_and_cleanup d)
              (fun _ => Cli.summarise img dur) no_samples) as (-> & _ & _).
  rewrite count_app. destruct (cli_cleanup_once d no_samples) as [-> _].
  destruct (outcome (Cli.collect_and_cleanup d no_samples)) as [e | []];
    [reflexivity |].
  destruct (cli_summarise_quiet img dur
              (final (Cli.collect_and_cleanup d no_samples))) as [-> _].
  reflexivity.
Qed.

Lemma web_resolve_inert (d : daemon) (img : string) (s : locals) :
  final (Web.resolve_image d img s) = s /\
  quiet (events (Web.resolve_image d img s)) /\
  forall early, outcome (Web.resolve_image d img s) = inr (Some early) ->
                exists msg, early = Web.Error msg.
Proof.
  unfold Web.resolve_image. eff_run.
  destruct (images_get d) as [[] |]; cbn [is_APIError];
    try (repeat split; (reflexivity || discriminate)).
  destruct (images_pull d) as [[] |];
    repeat split; try reflexivity; try discriminate;
    intros early [= <-]; eexists; reflexivity.
Qed.

Lemma web_start_inert (d : daemon) (img : string) (cmd : option string) (s : locals) :
  final (Web.start_container d img cmd s) = s /\
  quiet (events (Web.start_container d img cmd s)) /\
  forall early, outcome (Web.start_container d img cmd s) = inr (Some early) ->
                exists msg, early = Web.Error msg.
Proof.
  unfold Web.start_container, Web.fallback_sleep, Web.fallback_default,
    Web.run_container.
  eff_run.
  destruct (containers_run d (Some (CmdStr (first_command cmd)))) as [e0 |];
    [| repeat split; (reflexivity || discriminate)].
  destruct (is_APIError e0); [| repeat split; (reflexivity || discriminate)].
  destruct (Py.contains NOT_FOUND (str_of_exn e0) && negb (Py.truthy_str cmd));
    [| repeat split; try reflexivity; intros early [= <-]; eexists; reflexivity].
  destruct (containers_run d (Some (CmdStr SLEEP))) as [e1 |];
    [| repeat split; (reflexivity || discriminate)].
  destruct (containers_run d None) as [e3 |];
    [| repeat split; (reflexivity || discriminate)].
  destruct (is_Exception e3);
    repeat split; try reflexivity; try discriminate;
    intros early [= <-]; eexists; reflexivity.
Qed.

Lemma web_summarise_inert (img : string) (dur : Z) (s : locals) :
  Web.summarise img dur s = Res (outcome (Web.summarise img dur s)) s [].
Proof.
  unfold Web.summarise, mean_or_raise, max_or_raise. eff_run.
  destruct (cpu_usages s) as [| c cs]; [reflexivity |].
  destruct (mem_usages s) as [| m ms]; reflexivity.
Qed.

(** The part of [estimate_single_image] that follows a successful
    start. *)
Lemma web_after_start (d : daemon) (img : string) (dur : Z) (s0 : locals) :
  let r := bind init_buffers
             (fun _ => bind (Web.collect_and_cleanup d)
                         (fun _ => Web.summarise img dur)) s0 in
  count is_stop (events r) = 1%nat /\
  forall x, outcome r = inr (Web.Ok x) ->
    cpu_usages (final r) <> [] /\ mem_usages (final r) <> [] /\
    Web.samples x = sample_count (final r).
Proof.
  intros r. subst r.
  destruct (bind_run init_buffers
              (fun _ => bind (Web.collect_and_cleanup d)
                          (fun _ => Web.summarise img dur)) s0) as (-> & -> & ->).
  cbn [init_buffers modify outcome final events app].
  set (s := no_samples).
  destruct (bind_run (Web.collect_and_cleanup d) (fun _ => Web.summarise img dur) s)
    as (-> & -> & ->).
  destruct (web_cleanup_once d s) as (Hs & _ & Ho & Hf).
  rewrite count_app, Hs.
  destruct (outcome (Web.collect_and_cleanup d s)) as [e | []].
  - split; [reflexivity | discriminate].
  - rewrite Hf. set (s' := final (Web.collect (clock d) s)).
    rewrite (web_summarise_inert img dur s'). cbn [events final outcome].
    split; [reflexivity |].
    intros x Hx. unfold Web.summarise, mean_or_raise, max_or_raise in Hx.
    revert Hx. eff_run.
    destruct (cpu_usages s') as [| c cs]; [discriminate |].
    destruct (mem_usages s') as [| m ms]; [discriminate |].
    cbn. intros [= <-]. repeat split; discriminate.
Qed.

(** A run of [estimate_single_image] that started a container stops it
    exactly once, however the collection ended; a result with
    statistics is only ever returned from two non-empty series, and the
    sample count it reports is the number of iterations counted. *)
Lemma web_run_stops_once (d : daemon) (img : string) (dur : Z)
    (cmd : option string) (s : locals) :
  let r := Web.estimate_single_image d img dur cmd s in
  count is_stop (events r)
  = match outcome (Web.resolve_image d img s),
          outcome (Web.start_container d img cmd s) with
    | inr None, inr None => 1%nat
    | _, _ => 0%nat
    end /\
  forall x, outcome r = inr (Web.Ok x) ->
    cpu_usages (final r) <> [] /\ mem_usages (final r) <> [] /\
    Web.samples x = sample_count (final r).
Proof.
  intros r.
  assert (Hr : r = Web.estimate_single_image d img dur cmd s) by reflexivity.
  clearbody r. revert Hr.
  destruct (web_resolve_inert d img s) as (Hf1 & [Hs1 _] & He1).
  destruct (web_start_inert d img cmd s) as (Hf2 & [Hs2 _] & He2).
  destruct (web_after_start d img dur s) as (Ht1 & Ht3).
  unfold Web.estimate_single_image, Web.unless_returned.
  set (rest := bind init_buffers
                 (fun _ => bind (Web.collect_and_cleanup d)
                             (fun _ => Web.summarise img dur))) in *.
  unfold try_except. unfold bind at 1.
  destruct (Web.resolve_image d img s) as [[e | [early |]] s1 t1];
    cbn [outcome final events] in *; subst s1.
  - destruct (is_Exception e); eff_run; intros ->; cbn [outcome final events];
      rewrite count_app, Hs1; (split; [reflexivity | discriminate]).
  - destruct (He1 early eq_refl) as [msg ->].
    eff_run; intros ->; cbn [outcome final events].
    rewrite !count_app, Hs1. split; [reflexivity | discriminate].
  - unfold bind at 1.
    destruct (Web.start_container d img cmd s) as [[e | [early |]] s2 t2];
      cbn [outcome final events] in *; subst s2.
    + destruct (is_Exception e); eff_run; intros ->; cbn [outcome final events];
        rewrite !count_app, Hs1, Hs2; (split; [reflexivity | discriminate]).
    + destruct (He2 early eq_refl) as [msg ->].
      eff_run; intros ->; cbn [outcome final events].
      rewrite !count_app, Hs1, Hs2. split; [reflexivity | discriminate].
    + destruct (rest s) as [[e | x'] s3 t3]; cbn [outcome final events] in *.
      * destruct (is_Exception e); eff_run; intros ->; cbn [outcome final events];
          rewrite !count_app, Hs1, Hs2, Ht1; (split; [reflexivity | discriminate]).
      * intros ->; cbn [outcome final events].
        rewrite !count_app, Hs1, Hs2, Ht1.
        split; [reflexivity |]. intros x [= ->]. apply Ht3. reflexivity.
Qed.

(** The report of a whole run comes out of the aggregation of the
    buffers the loop filled from empty. *)
Lemma cli_report_origin (d : daemon) (img : string) (dur : Z)
    (cmd : option string) (s : locals) (r : Cli.report) :
  outcome (Cli.estimate_resources d img dur cmd s) = inr r ->
  outcome (Cli.summarise img dur (final (Cli.collect_and_cleanup d no_samples)))
  = inr r.
Proof.
  unfold Cli.estimate_resources.
  destruct (bind_run (Cli.resolve_image d img)
              (fun _ => do_ Cli.start_container d img cmd;
                        do_ init_buffers;
                        do_ Cli.collect_and_cleanup d;
                        Cli.summarise img dur) s) as (_ & -> & _).
  destruct (outcome (Cli.resolve_image d img s)) as [e | []]; [discriminate |].
  destruct (bind_run (Cli.start_container d img cmd)
              (fun _ => do_ init_buffers;
                        do_ Cli.collect_and_cleanup d;
                        Cli.summarise img dur)
              (final (Cli.resolve_image d img s))) as (_ & -> & _).
  destruct (outcome (Cli.start_container d img cmd _)) as [e | []]; [discriminate |].
  match goal with |- context [bind init_buffers ?f ?s0] =>
    destruct (bind_run init_buffers f s0) as (_ & -> & _) end.
  cbn [init_buffers modify outcome final].
  destruct (bind_run (Cli.collect_and_cleanup d)
              (fun _ => Cli.summarise img dur) no_samples) as (_ & -> & _).
  destruct (outcome (Cli.collect_and_cleanup d no_samples)) as [e | []];
    [discriminate | auto].
Qed.

Lemma web_result_origin (d : daemon) (img : string) (dur : Z)
    (cmd : option string) (s : locals) (x : Web.result_t) :
  outcome (Web.estimate_single_image d img dur cmd s) = inr (Web.Ok x) ->
  outcome (Web.summarise img dur (final (Web.collect_and_cleanup d no_samples)))
  = inr (Web.Ok x).
Proof.
  set (r := Web.estimate_single_image d img dur cmd s).
  assert (Hr : r = Web.estimate_single_image d img dur cmd s) by reflexivity.
  clearbody r. revert Hr.
  destruct (web_resolve_inert d img s) as (Hf1 & _ & He1).
  destruct (web_start_inert d img cmd s) as (Hf2 & _ & He2).
  unfold Web.estimate_single_image, Web.unless_returned.
  unfold try_except. unfold bind at 1.
  destruct (Web.resolve_image d img s) as [[e | [early |]] s1 t1];
    cbn [outcome final events] in *; subst s1.
  - destruct (is_Exception e); eff_run; intros ->; discriminate.
  - destruct (He1 early eq_refl) as [msg ->]. eff_run; intros ->; discriminate.
  - unfold bind at 1.
    destruct (Web.start_container d img cmd s) as [[e | [early |]] s2 t2];
      cbn [outcome final events] in *; subst s2.
    + destruct (is_Exception e); eff_run; intros ->; discriminate.
    + destruct (He2 early eq_refl) as [msg ->]. eff_run; intros ->; discriminate.
    + unfold bind at 1. cbn [init_buffers modify]. unfold bind at 1.
      destruct (Web.collect_and_cleanup d no_samples) as [[e | []] s3 t3];
        cbn [outcome final events].
      * destruct (is_Exception e); eff_run; intros ->; discriminate.
      * destruct (Web.summarise img dur s3) as [[e | y] s4 t4];
          cbn [outcome final events].
        -- destruct (is_Exception e); eff_run; intros ->; discriminate.
        -- intros -> [= ->]. reflexivity.
Qed.

(** ** The sizing in the reports *)

(** C3. Whenever a run reports, the sizing in its report is the
    recommender applied to the peaks of the two series the loop
    collected: [vcpu = max(1, round(peak_cpu / 80))], where [round] is
    round half to even, and [ram_gb = round(peak_mem * 1.5 / 1024, 2)], a
    number of hundredths nearest to the product, ties to even. This holds
    of the report of [estimate_resources], of the result of
    [estimate_single_image] (whose own peak fields are the peaks rounded
    to two decimals) and of the recommendations of a live stop. A run
    whose peaks are 10 percent and 100 MB reports 1 vCPU and 0.15 GB. *)
Theorem C3_recommender (d : daemon) (img : string) (dur : Z)
    (cmd : option string) (s : locals) :
  (forall r, outcome (Cli.estimate_resources d img dur cmd s) = inr r ->
     Spec.is_max (cpu_usages (final (Cli.collect_and_cleanup d no_samples)))
       (Cli.cpu_peak r) /\
     Spec.is_max (mem_usages (final (Cli.collect_and_cleanup d no_samples)))
       (Cli.mem_peak_mb r) /\
     Cli.vcpu r = Z.max 1 (Py.round (Cli.cpu_peak r / 80)) /\
     Cli.ram_gb r = Py.round_nd (Cli.mem_peak_mb r * 1.5 / 1024) 2 /\
     Spec.recommends (Cli.cpu_peak r) (Cli.mem_peak_mb r) (Cli.vcpu r) (Cli.ram_gb r)) /\
  (forall x, outcome (Web.estimate_single_image d img dur cmd s) = inr (Web.Ok x) ->
     exists peak_cpu peak_mem,
       Spec.is_max (cpu_usages (final (Web.collect_and_cleanup d no_samples)))
         peak_cpu /\
       Spec.is_max (mem_usages (final (Web.collect_and_cleanup d no_samples)))
         peak_mem /\
       Web.cpu_peak x = Py.round_nd peak_cpu 2 /\
       Web.mem_peak_mb x = Py.round_nd peak_mem 2 /\
       Web.vcpu x = Z.max 1 (Py.round (peak_cpu / 80)) /\
       Web.ram_gb x = Py.round_nd (peak_mem * 1.5 / 1024) 2 /\
       Spec.recommends peak_cpu peak_mem (Web.vcpu x) (Web.ram_gb x)) /\
  (forall env i (reg : gmap string Live.container_info) recs,
     outcome (Live.recommend env i reg) = inr (Some recs) ->
     exists peak_cpu peak_mem,
       Spec.is_max (Live.cpu_history i) peak_cpu /\
       Spec.is_max (Live.mem_history i) peak_mem /\
       Live.vcpu recs = Z.max 1 (Py.round (peak_cpu / 80)) /\
       Live.ram_gb recs = Py.round_nd (peak_mem * 1.5 / 1024) 2 /\
       Spec.recommends peak_cpu peak_mem (Live.vcpu recs) (Live.ram_gb recs)) /\
  (exists r,
     outcome (Cli.estimate_resources Inputs.ten_percent_daemon "nginx:latest" 1
                None no_samples) = inr r /\
     (Cli.cpu_peak r == 10)%Q /\ (Cli.mem_peak_mb r == 100)%Q /\
     Cli.vcpu r = 1 /\ (Cli.ram_gb r == 0.15)%Q) /\
  (exists x,
     outcome (Web.estimate_single_image Inputs.ten_percent_daemon "nginx:latest" 1
                None no_samples) = inr (Web.Ok x) /\
     (Web.cpu_peak x == 10)%Q /\ (Web.mem_peak_mb x == 100)%Q /\
     Web.vcpu x = 1 /\ (Web.ram_gb x == 0.15)%Q).
Proof.
  split; [| split; [| split; [| split]]].
  - intros r Hr. apply cli_report_origin in Hr. revert Hr.
    generalize (final (Cli.collect_and_cleanup d no_samples)). intros b.
    unfold Cli.summarise, Cli.exit_1, mean_or_raise, max_or_raise. eff_run.
    destruct (cpu_usages b) as [| c cs] eqn:Ec; [discriminate |].
    destruct (mem_usages b) as [| m ms] eqn:Em; [discriminate |].
    cbn [is_empty orb].
    destruct (Py.mean (c :: cs)) as [ac |] eqn:Eac; [| discriminate].
    destruct (Py.max (c :: cs)) as [pc |] eqn:Epc; [| discriminate].
    destruct (Py.mean (m :: ms)) as [am |] eqn:Eam; [| discriminate].
    destruct (Py.max (m :: ms)) as [pm |] eqn:Epm; [| discriminate].
    cbn [outcome]. intros [= <-].
    cbn [Cli.cpu_peak Cli.mem_peak_mb Cli.vcpu Cli.ram_gb].
    split; [apply max_is_max, Epc |]. split; [apply max_is_max, Epm |].
    split; [reflexivity |]. split; [reflexivity |]. apply sizing_recommends.
  - intros x Hx. apply web_result_origin in Hx. revert Hx.
    generalize (final (Web.collect_and_cleanup d no_samples)). intros b.
    unfold Web.summarise, mean_or_raise, max_or_raise. eff_run.
    destruct (cpu_usages b) as [| c cs] eqn:Ec; [discriminate |].
    destruct (mem_usages b) as [| m ms] eqn:Em; [discriminate |].
    cbn [is_empty orb].
    destruct (Py.mean (c :: cs)) as [ac |] eqn:Eac; [| discriminate].
    destruct (Py.max (c :: cs)) as [pc |] eqn:Epc; [| discriminate].
    destruct (Py.mean (m :: ms)) as [am |] eqn:Eam; [| discriminate].
    destruct (Py.max (m :: ms)) as [pm |] eqn:Epm; [| discriminate].
    cbn [outcome]. intros [= <-]. exists pc, pm.
    cbn [Web.cpu_peak Web.mem_peak_mb Web.vcpu Web.ram_gb].
    split; [apply max_is_max, Epc |]. split; [apply max_is_max, Epm |].
    split; [reflexivity |]. split; [reflexivity |].
    split; [reflexivity |]. split; [reflexivity |]. apply sizing_recommends.
  - intros env i reg recs. unfold Live.recommend, mean_or_raise, max_or_raise.
    eff_run.
    destruct (Live.cpu_history i) as [| c cs] eqn:Ec; [discriminate |].
    destruct (Live.mem_history i) as [| m ms] eqn:Em; [discriminate |].
    cbn [is_empty negb andb].
    destruct (Py.mean (c :: cs)) as [ac |] eqn:Eac; [| discriminate].
    destruct (Py.max (c :: cs)) as [pc |] eqn:Epc; [| discriminate].
    destruct (Py.mean (m :: ms)) as [am |] eqn:Eam; [| discriminate].
    destruct (Py.max (m :: ms)) as [pm |] eqn:Epm; [| discriminate].
    cbn [outcome]. intros [= <-]. exists pc, pm.
    cbn [Live.vcpu Live.ram_gb].
    split; [apply max_is_max, Epc |]. split; [apply max_is_max, Epm |].
    split; [reflexivity |]. split; [reflexivity |]. apply sizing_recommends.
  - eexists. split; [vm_compute; reflexivity |]. repeat split; reflexivity.
  - eexists. split; [vm_compute; reflexivity |]. repeat split; reflexivity.
Qed.

Lemma C3_witness :
  exists r,
    outcome (Cli.estimate_resources Inputs.ten_percent_daemon "nginx:latest" 1
               None no_samples) = inr r /\
    Spec.recommends (Cli.cpu_peak r) (Cli.mem_peak_mb r) (Cli.vcpu r) (Cli.ram_gb r).
Proof.
  eexists. split; [vm_compute; reflexivity |].
  apply (proj1 (C3_recommender Inputs.ten_percent_daemon "nginx:latest" 1 None
                  no_samples)).
  vm_compute. reflexivity.
Defined.

(** * Further properties of the code *)

(** ** Averages, peaks and the recommender *)

Lemma round_mono (x y : Q) : (x <= y)%Q -> Py.round x <= Py.round y.
Proof.
  intros Hxy.
  assert (Hrange : forall z, Qfloor z <= Py.round z <= Qfloor z + 1).
  { intros z. unfold Py.round.
    destruct (z - inject_Z (Qfloor z) ?= 1 # 2)%Q; [destruct (Z.even _) | |]; lia. }
  pose proof (Qfloor_resp_le x y Hxy) as Hfl.
  destruct (Z.eq_dec (Qfloor x) (Qfloor y)) as [Heq | Hne].
  - unfold Py.round. rewrite <- Heq.
    destruct (Qcompare_spec (x - inject_Z (Qfloor x)) (1 # 2)) as [Hx | Hx | Hx];
      destruct (Qcompare_spec (y - inject_Z (Qfloor x)) (1 # 2)) as [Hy | Hy | Hy];
      try destruct (Z.even (Qfloor x)); try lia; exfalso; lra.
  - pose proof (Hrange x). pose proof (Hrange y). lia.
Qed.

Lemma round_nd_mono (x y : Q) (n : nat) :
  (x <= y)%Q -> (Py.round_nd x n <= Py.round_nd y n)%Q.
Proof.
  intros Hxy. unfold Py.round_nd.
  assert (Hp : 0 < 10 ^ Z.of_nat n) by (apply Z.pow_pos_nonneg; lia).
  assert (Hq : (0 < inject_Z (10 ^ Z.of_nat n))%Q).
  { change 0%Q with (inject_Z 0). rewrite <- Zlt_Qlt. exact Hp. }
  apply Qmult_le_compat_r.
  - rewrite <- Zle_Qle. apply round_mono. apply Qmult_le_compat_r; lra.
  - apply Qlt_le_weak, Qinv_lt_0_compat, Hq.
Qed.

Lemma sum_le_max (l : list Q) (m : Q) :
  (forall x, In x l -> (x <= m)%Q) ->
  (fold_right Qplus 0 l <= inject_Z (Z.of_nat (length l)) * m)%Q.
Proof.
  induction l as [| x l IH]; intros H.
  - cbn [fold_right length]. change (inject_Z (Z.of_nat 0)) with 0%Q. lra.
  - assert (Hx : (x <= m)%Q) by (apply H; left; reflexivity).
    assert (Hl : (fold_right Qplus 0 l <= inject_Z (Z.of_nat (length l)) * m)%Q)
      by (apply IH; intros y Hy; apply H; right; exact Hy).
    cbn [fold_right length]. rewrite Nat2Z.inj_succ, <- Z.add_1_r, inject_Z_plus.
    change (inject_Z 1) with 1%Q. lra.
Qed.

Lemma mean_le_max (l : list Q) (a p : Q) :
  Py.mean l = Some a -> Py.max l = Some p -> (a <= p)%Q.
Proof.
  intros Ha Hp. pose proof (mean_is_mean l a Ha) as Hmean.
  destruct (max_is_max l p Hp) as [_ Hall].
  pose proof (sum_le_max l p Hall) as Hsum.
  unfold Spec.is_mean in Hmean.
  destruct l as [| x l]; [discriminate |].
  assert (Hn : (0 < inject_Z (Z.of_nat (length (x :: l))))%Q).
  { change 0%Q with (inject_Z 0). rewrite <- Zlt_Qlt. simpl length. lia. }
  revert Hmean Hsum Hn.
  generalize (inject_Z (Z.of_nat (length (x :: l)))).
  generalize (fold_right Qplus 0%Q (x :: l)). intros sm n Hmean Hsum Hn.
  apply Qnot_lt_le. intros Hlt.
  assert (Hc : (p * n < a * n)%Q) by (apply Qmult_lt_compat_r; assumption).
  lra.
Qed.

(** X1. The recommender is monotone: a higher CPU peak never yields
    fewer vCPUs, a higher memory peak never yields less RAM; it never
    recommends less than one vCPU, nor a negative amount of RAM for a
    peak that is not negative. *)
Theorem recommender_monotone (cpu1 cpu2 mem1 mem2 : Q) :
  (cpu1 <= cpu2)%Q ->
  (mem1 <= mem2)%Q ->
  Sizing.recommended_vcpu cpu1 <= Sizing.recommended_vcpu cpu2 /\
  (Sizing.recommended_ram mem1 <= Sizing.recommended_ram mem2)%Q /\
  1 <= Sizing.recommended_vcpu cpu1 /\
  ((0 <= mem1)%Q -> (0 <= Sizing.recommended_ram mem1)%Q).
Proof.
  intros Hc Hm. unfold Sizing.recommended_vcpu, Sizing.recommended_ram.
  assert (Hdiv : forall x y c : Q, (0 < c)%Q -> (x <= y)%Q -> (x / c <= y / c)%Q).
  { intros x y c H0 Hxy. apply Qmult_le_compat_r; [exact Hxy |].
    apply Qlt_le_weak, Qinv_lt_0_compat, H0. }
  split; [| split; [| split]].
  - apply Z.max_le_compat_l, round_mono, Hdiv; [reflexivity | exact Hc].
  - apply round_nd_mono, Hdiv; [reflexivity | lra].
  - lia.
  - intros H0.
    assert (Hz : (Py.round_nd (0 * 1.5 / 1024) 2 == 0)%Q) by reflexivity.
    rewrite <- Hz. apply round_nd_mono, Hdiv; [reflexivity | lra].
Qed.

Lemma recommender_monotone_witness :
  Sizing.recommended_vcpu 80 <= Sizing.recommended_vcpu 250 /\
  (Sizing.recommended_ram 100 <= Sizing.recommended_ram 2048)%Q /\
  1 <= Sizing.recommended_vcpu 80 /\
  ((0 <= 100)%Q -> (0 <= Sizing.recommended_ram 100)%Q).
Proof.
  apply (recommender_monotone 80 250 100 2048); discriminate.
Defined.

(** X2. In every report the average is at most the peak, for the CPU
    and for the memory: in the report of [estimate_resources], in the
    (rounded) result of [estimate_single_image] and in the statistics a
    live stop request answers with. *)
Theorem average_at_most_peak (d : daemon) (img : string) (dur : Z)
    (cmd : option string) (s : locals) :
  (forall r, outcome (Cli.estimate_resources d img dur cmd s) = inr r ->
     (Cli.cpu_avg r <= Cli.cpu_peak r)%Q /\
     (Cli.mem_avg_mb r <= Cli.mem_peak_mb r)%Q) /\
  (forall x, outcome (Web.estimate_single_image d img dur cmd s) = inr (Web.Ok x) ->
     (Web.cpu_avg x <= Web.cpu_peak x)%Q /\
     (Web.mem_avg_mb x <= Web.mem_peak_mb x)%Q) /\
  (forall env i (reg : gmap string Live.container_info) recs,
     outcome (Live.recommend env i reg) = inr (Some recs) ->
     (Live.s_cpu_avg (Live.stats recs) <= Live.s_cpu_peak (Live.stats recs))%Q /\
     (Live.s_mem_avg_mb (Live.stats recs) <= Live.s_mem_peak_mb (Live.stats recs))%Q).
Proof.
  split; [| split].
  - intros r Hr. apply cli_report_origin in Hr. revert Hr.
    generalize (final (Cli.collect_and_cleanup d no_samples)). intros s'.
    unfold Cli.summarise, Cli.exit_1, mean_or_raise, max_or_raise. eff_run.
    destruct (cpu_usages s') as [| c cs] eqn:Ec; [discriminate |].
    destruct (mem_usages s') as [| m ms] eqn:Em; [discriminate |].
    cbn [is_empty orb].
    destruct (Py.mean (c :: cs)) as [ac |] eqn:Eac; [| discriminate].
    destruct (Py.max (c :: cs)) as [pc |] eqn:Epc; [| discriminate].
    destruct (Py.mean (m :: ms)) as [am |] eqn:Eam; [| discriminate].
    destruct (Py.max (m :: ms)) as [pm |] eqn:Epm; [| discriminate].
    cbn [outcome]. intros [= <-]. cbn [Cli.cpu_avg Cli.cpu_peak Cli.mem_avg_mb Cli.mem_peak_mb].
    split; eapply mean_le_max; eassumption.
  - intros x Hx. apply web_result_origin in Hx. revert Hx.
    generalize (final (Web.collect_and_cleanup d no_samples)). intros s'.
    unfold Web.summarise, mean_or_raise, max_or_raise. eff_run.
    destruct (cpu_usages s') as [| c cs] eqn:Ec; [discriminate |].
    destruct (mem_usages s') as [| m ms] eqn:Em; [discriminate |].
    cbn [is_empty orb].
    destruct (Py.mean (c :: cs)) as [ac |] eqn:Eac; [| discriminate].
    destruct (Py.max (c :: cs)) as [pc |] eqn:Epc; [| discriminate].
    destruct (Py.mean (m :: ms)) as [am |] eqn:Eam; [| discriminate].
    destruct (Py.max (m :: ms)) as [pm |] eqn:Epm; [| discriminate].
    cbn [outcome]. intros [= <-].
    cbn [Web.cpu_avg Web.cpu_peak Web.mem_avg_mb Web.mem_peak_mb].
    split; apply round_nd_mono; eapply mean_le_max; eassumption.
  - intros env i reg recs. unfold Live.recommend, mean_or_raise, max_or_raise.
    eff_run.
    destruct (Live.cpu_history i) as [| c cs] eqn:Ec; [discriminate |].
    destruct (Live.mem_history i) as [| m ms] eqn:Em; [discriminate |].
    cbn [is_empty negb andb].
    destruct (Py.mean (c :: cs)) as [ac |] eqn:Eac; [| discriminate].
    destruct (Py.max (c :: cs)) as [pc |] eqn:Epc; [| discriminate].
    destruct (Py.mean (m :: ms)) as [am |] eqn:Eam; [| discriminate].
    destruct (Py.max (m :: ms)) as [pm |] eqn:Epm; [| discriminate].
    cbn [outcome]. intros [= <-].
    cbn [Live.stats Live.s_cpu_avg Live.s_cpu_peak Live.s_mem_avg_mb Live.s_mem_peak_mb].
    split; apply round_nd_mono; eapply mean_le_max; eassumption.
Qed.

(** ** The live poll *)

Lemma alter_present {A} (f : A -> A) (k : string) (m : gmap string A) (x : A) :
  m !! k = Some x -> alter f k m = <[k := f x]> m.
Proof.
  intros H. apply map_eq. intros j. destruct (decide (k = j)) as [<- | Hne].
  - rewrite lookup_alter_eq, lookup_insert_eq, H. reflexivity.
  - rewrite lookup_alter_ne, lookup_insert_ne by assumption. reflexivity.
Qed.

Lemma mean_or_0_snoc (l : list Q) (x : Q) (reg : gmap string Live.container_info) :
  exists v, Py.mean (l ++ [x]) = Some v /\
            Live.mean_or_0 (l ++ [x]) reg = Res (inr v) reg [].
Proof. destruct l; eexists; split; reflexivity. Qed.

Lemma max_or_0_snoc (l : list Q) (x : Q) (reg : gmap string Live.container_info) :
  exists v, Py.max (l ++ [x]) = Some v /\
            Live.max_or_0 (l ++ [x]) reg = Res (inr v) reg [].
Proof. destruct l; eexists; split; reflexivity. Qed.

(** A poll of an identifier that is not registered. *)
Lemma poll_unknown (d : Live.request_env) (cid : string)
    (reg : gmap string Live.container_info) :
  reg !! cid = None ->
  Live.api_live_test_stats d cid reg
  = Res (inr (Live.RError "Container not found")) reg [].
Proof.
  intros H. unfold Live.api_live_test_stats, bind, get_state, ret.
  rewrite H. reflexivity.
Qed.

(** A poll that does not reach a payload. *)
Lemma poll_without_payload (d : Live.request_env) (cid : string)
    (reg : gmap string Live.container_info) (i : Live.container_info) :
  reg !! cid = Some i ->
  match Live.reload_now d with
  | inl e =>
      Live.api_live_test_stats d cid reg
      = Res (LiveSpec.caught Live.RError e) reg [EReload]
  | inr status =>
      if String.eqb status "running" then
        match Live.stats_now d with
        | inl e =>
            Live.api_live_test_stats d cid reg
            = Res (LiveSpec.caught Live.RError e) reg [EReload; EStatsOnce]
        | inr _ => True
        end
      else
        Live.api_live_test_stats d cid reg
        = Res (inr (Live.RError "Container is not running")) reg [EReload]
  end.
Proof.
  intros Hreg.
  unfold Live.api_live_test_stats, LiveSpec.caught.
  eff_run. rewrite Hreg. eff_run.
  destruct (Live.reload_now d) as [e | status].
  - destruct (is_Exception e); reflexivity.
  - destruct (String.eqb status "running"); cbn [negb]; [| reflexivity].
    destruct (Live.stats_now d) as [e | stats]; [| exact I].
    destruct (is_Exception e); reflexivity.
Qed.

(** A poll that obtains a payload. *)
Lemma poll_with_payload (d : Live.request_env) (cid : string)
    (reg : gmap string Live.container_info) (i : Live.container_info)
    (stats : stats_t) :
  reg !! cid = Some i ->
  Live.reload_now d = inr "running" ->
  Live.stats_now d = inr stats ->
  let i1 := LiveSpec.polled stats i in
  exists cpu_avg cpu_peak mem_avg mem_peak,
    Py.mean (Live.cpu_history i1) = Some cpu_avg /\
    Py.max (Live.cpu_history i1) = Some cpu_peak /\
    Py.mean (Live.mem_history i1) = Some mem_avg /\
    Py.max (Live.mem_history i1) = Some mem_peak /\
    Live.api_live_test_stats d cid reg
    = Res (inr (Live.RStats (LiveSpec.cpu_now stats) cpu_avg cpu_peak
                  (Delta.mem_usage stats) mem_avg mem_peak (Live.samples i1)
                  (Live.time_now d - Live.start_time i1)
                  (LiveSpec.logs_after d i1)))
        (<[cid := LiveSpec.entry_after d i1]> reg)
        [EReload; EStatsOnce; ELogs].
Proof.
  intros Hreg Hrel Hst i1.
  destruct (mean_or_0_snoc (Live.cpu_history i) (LiveSpec.cpu_now stats)
              (<[cid := i1]> reg)) as (ca & Hca & Eca).
  destruct (max_or_0_snoc (Live.cpu_history i) (LiveSpec.cpu_now stats)
              (<[cid := i1]> reg)) as (cp & Hcp & Ecp).
  destruct (mean_or_0_snoc (Live.mem_history i) (Delta.mem_usage stats)
              (<[cid := i1]> reg)) as (ma & Hma & Ema).
  destruct (max_or_0_snoc (Live.mem_history i) (Delta.mem_usage stats)
              (<[cid := i1]> reg)) as (mp & Hmp & Emp).
  exists ca, cp, ma, mp. repeat (split; [assumption |]).
  assert (Hupd : alter Live.incr_samples cid
                   (alter (Live.push_mem (Delta.mem_usage stats)) cid
                      (alter (Live.push_cpu (LiveSpec.cpu_now stats)) cid reg))
                 = <[cid := i1]> reg).
  { rewrite (alter_present _ cid reg i Hreg).
    rewrite (alter_present _ cid _ _ (lookup_insert_eq _ _ _)), insert_insert_eq.
    rewrite (alter_present _ cid _ _ (lookup_insert_eq _ _ _)), insert_insert_eq.
    reflexivity. }
  unfold Live.api_live_test_stats, Live.read_info, Live.update_info,
    LiveSpec.logs_after, LiveSpec.entry_after.
  unfold try_except, bind, call, emit, get_state, modify, ret, raise.
  rewrite Hreg, Hrel. cbn -[lookup alter insert]. rewrite Hst.
  cbn -[lookup alter insert].
  fold (LiveSpec.cpu_now stats). rewrite Hupd, lookup_insert_eq.
  cbn -[lookup alter insert].
  change (Live.cpu_history i ++ [LiveSpec.cpu_now stats])
    with (Live.cpu_history i1) in *.
  change (Live.mem_history i ++ [Delta.mem_usage stats])
    with (Live.mem_history i1) in *.
  rewrite Eca, Ecp, Ema, Emp.
  destruct (Live.logs_now d) as [e | l]; cbn -[lookup alter insert].
  - rewrite lookup_insert_eq. reflexivity.
  - rewrite (alter_present _ cid _ _ (lookup_insert_eq _ _ _)), insert_insert_eq.
    reflexivity.
Qed.

(** Every poll is one of four: unknown identifier, no payload reached
    (registry untouched, an error or an exception that is no
    [Exception]), or a payload recorded. *)
Lemma poll_cases (d : Live.request_env) (cid : string)
    (reg : gmap string Live.container_info) :
  (final (Live.api_live_test_stats d cid reg) = reg /\
   forall c ca cp m ma mp n rt l,
     outcome (Live.api_live_test_stats d cid reg)
     <> inr (Live.RStats c ca cp m ma mp n rt l)) \/
  (exists i stats,
     reg !! cid = Some i /\ Live.reload_now d = inr "running" /\
     Live.stats_now d = inr stats).
Proof.
  destruct (reg !! cid) as [i |] eqn:Hreg.
  - pose proof (poll_without_payload d cid reg i Hreg) as H.
    destruct (Live.reload_now d) as [e | status] eqn:Hrel.
    + left. rewrite H. unfold LiveSpec.caught.
      split; [reflexivity |]. intros. destruct (is_Exception e); discriminate.
    + destruct (String.eqb_spec status "running") as [-> | Hne].
      * destruct (Live.stats_now d) as [e | stats] eqn:Hst.
        -- left. rewrite H. unfold LiveSpec.caught.
           split; [reflexivity |]. intros. destruct (is_Exception e); discriminate.
        -- right. eauto.
      * left. rewrite H. split; [reflexivity | discriminate].
  - left. rewrite (poll_unknown d cid reg Hreg). split; [reflexivity | discriminate].
Qed.

(** X3. A poll only ever touches the entry of the container it is
    about: every other entry is left as it was, no entry is added or
    removed, and a poll that does not answer with statistics (unknown
    identifier, container not running, failing daemon call) leaves the
    whole registry as it was. *)
Theorem poll_frame (d : Live.request_env) (cid : string)
    (reg : gmap string Live.container_info) :
  (forall k, k <> cid ->
     final (Live.api_live_test_stats d cid reg) !! k = reg !! k) /\
  dom (final (Live.api_live_test_stats d cid reg)) = dom reg /\
  ((forall c ca cp m ma mp n rt l,
      outcome (Live.api_live_test_stats d cid reg)
      <> inr (Live.RStats c ca cp m ma mp n rt l)) ->
   final (Live.api_live_test_stats d cid reg) = reg).
Proof.
  destruct (poll_cases d cid reg) as [[Hf Hno] | (i & stats & Hreg & Hrel & Hst)].
  - rewrite Hf. auto.
  - destruct (poll_with_payload d cid reg i stats Hreg Hrel Hst)
      as (ca & cp & ma & mp & _ & _ & _ & _ & Heq).
    rewrite Heq. cbn [final outcome]. split; [| split].
    + intros k Hk. apply lookup_insert_ne. congruence.
    + apply dom_insert_lookup_L. rewrite Hreg. eauto.
    + intros Hno. exfalso. eapply Hno. reflexivity.
Qed.

Lemma poll_frame_witness :
  final (Live.api_live_test_stats Inputs.stalled_poll "c2" Inputs.one_container)
  !! "c1" = Inputs.one_container !! "c1".
Proof.
  apply (proj1 (poll_frame Inputs.stalled_poll "c2" Inputs.one_container) "c1").
  discriminate.
Defined.

(** X4. In the statistics a poll answers with, the peak is never below
    the current value nor below the average, for the CPU and for the
    memory. *)
Theorem poll_peak_dominates (d : Live.request_env) (cid : string)
    (reg : gmap string Live.container_info)
    (cpu_current cpu_avg cpu_peak mem_current mem_avg mem_peak runtime : Q)
    (samples : Z) (logs : string) :
  outcome (Live.api_live_test_stats d cid reg)
  = inr (Live.RStats cpu_current cpu_avg cpu_peak mem_current mem_avg mem_peak
           samples runtime logs) ->
  (cpu_current <= cpu_peak)%Q /\ (cpu_avg <= cpu_peak)%Q /\
  (mem_current <= mem_peak)%Q /\ (mem_avg <= mem_peak)%Q.
Proof.
  intros Ho.
  destruct (poll_cases d cid reg) as [[_ Hno] | (i & stats & Hreg & Hrel & Hst)].
  - destruct (Hno _ _ _ _ _ _ _ _ _ Ho).
  - destruct (poll_with_payload d cid reg i stats Hreg Hrel Hst)
      as (ca & cp & ma & mp & Hca & Hcp & Hma & Hmp & Heq).
    rewrite Heq in Ho. cbn [outcome] in Ho.
    injection Ho as <- <- <- <- <- <-.
    destruct (max_is_max _ _ Hcp) as [_ Hc]. destruct (max_is_max _ _ Hmp) as [_ Hm].
    split; [apply Hc; cbn; apply in_or_app; right; left; reflexivity |].
    split; [eapply mean_le_max; eassumption |].
    split; [apply Hm; cbn; apply in_or_app; right; left; reflexivity |].
    eapply mean_le_max; eassumption.
Qed.

Lemma poll_peak_dominates_witness :
  exists cpu_current cpu_avg cpu_peak mem_current mem_avg mem_peak,
    outcome (Live.api_live_test_stats Inputs.stalled_poll "c1" Inputs.one_container)
    = inr (Live.RStats cpu_current cpu_avg cpu_peak mem_current mem_avg mem_peak
             2 5 "") /\
    (cpu_current <= cpu_peak)%Q /\ (cpu_avg <= cpu_peak)%Q /\
    (mem_current <= mem_peak)%Q /\ (mem_avg <= mem_peak)%Q.
Proof.
  do 6 eexists. split.
  - vm_compute. reflexivity.
  - apply (poll_peak_dominates Inputs.stalled_poll "c1" Inputs.one_container
             _ _ _ _ _ _ 5 2 "").
    vm_compute. reflexivity.
Defined.

(** ** Starting a live test *)

Lemma start_resolve_inert (d : LiveStart.start_env) (img : string)
    (reg : gmap string Live.container_info) :
  final (LiveStart.resolve_image d img reg) = reg /\
  quiet (events (LiveStart.resolve_image d img reg)) /\
  count is_run (events (LiveStart.resolve_image d img reg)) = 0%nat /\
  forall early, outcome (LiveStart.resolve_image d img reg) = inr (inl early) ->
                exists msg, early = LiveStart.StartError msg.
Proof.
  unfold LiveStart.resolve_image. eff_run.
  destruct (LiveStart.get_image d) as [[] |]; cbn [is_APIError];
    try (repeat split; (reflexivity || discriminate)).
  destruct (LiveStart.pull_image d) as [[] |];
    repeat split; try reflexivity; try discriminate;
    intros early [= <-]; eexists; reflexivity.
Qed.

Lemma start_parse_pure (py_int : string -> option Z) (pm : option string)
    (reg : gmap string Live.container_info) :
  exists v, LiveStart.parse_ports py_int pm reg = Res (inr v) reg [] /\
            forall early, v = inl early -> early = LiveStart.StartError LiveStart.INVALID_PORTS.
Proof.
  unfold LiveStart.parse_ports.
  destruct (Py.truthy_str pm); [| eexists; split; [reflexivity | discriminate]].
  destruct (LiveStart.split ":" (default "" pm)) as [| h [| c [| x l]]];
    try (eexists; split; [reflexivity | intros early [= <-]; reflexivity]).
  destruct (py_int h);
    eexists; (split; [reflexivity |]);
    [discriminate | intros early [= <-]; reflexivity].
Qed.

Lemma start_launch_inert (d : LiveStart.start_env) (img : string)
    (cmd : option string) (reg : gmap string Live.container_info) :
  final (LiveStart.start_container d img cmd reg) = reg /\
  quiet (events (LiveStart.start_container d img cmd reg)) /\
  forall early, outcome (LiveStart.start_container d img cmd reg) = inr (inl early) ->
                exists msg, early = LiveStart.StartError msg.
Proof.
  unfold LiveStart.start_container, LiveStart.launch. eff_run.
  destruct (LiveStart.run_attempt d 0 (LiveStart.first_launch cmd)) as [e0 | c0];
    [| repeat split; (reflexivity || discriminate)].
  destruct (is_APIError e0); [| repeat split; (reflexivity || discriminate)].
  destruct (Py.contains NOT_FOUND (str_of_exn e0) && negb (Py.truthy_str cmd));
    [| repeat split; try reflexivity; intros early [= <-]; eexists; reflexivity].
  destruct (LiveStart.run_attempt d 1 (Some (CmdStr SLEEP))) as [e1 | c1];
    [| repeat split; (reflexivity || discriminate)].
  destruct (LiveStart.run_attempt d 2 None) as [e2 | c2];
    [| repeat split; (reflexivity || discriminate)].
  destruct (is_Exception e2);
    repeat split; try reflexivity; try discriminate;
    intros early [= <-]; eexists; reflexivity.
Qed.

Lemma start_verify_inert (d : LiveStart.start_env) (p : option LiveStart.ports_t)
    (reg : gmap string Live.container_info) :
  final (LiveStart.verify d p reg) = reg /\
  events (LiveStart.verify d p reg) = [EReload] /\
  forall early, outcome (LiveStart.verify d p reg) = inr (inl early) ->
                exists msg, early = LiveStart.StartError msg.
Proof.
  unfold LiveStart.verify. eff_run.
  destruct (LiveStart.reload_after d) as [e | status].
  - destruct (is_Exception e); repeat split; (reflexivity || discriminate).
  - destruct (negb (String.eqb status "running")).
    + repeat split; try reflexivity. intros early [= <-]. eexists. reflexivity.
    + destruct p as [q |]; [destruct (LiveStart.port_bindings d) |];
        repeat split; (reflexivity || discriminate).
Qed.

(** What a start request does to the registry and to the daemon. *)
Lemma start_shape (py_int : string -> option Z) (d : LiveStart.start_env)
    (img : string) (cmd pm : option string)
    (reg : gmap string Live.container_info) :
  let r := LiveStart.api_start_live_test py_int d img cmd pm reg in
  quiet (events r) /\
  ((final r = reg /\ forall id pi, outcome r <> inr (LiveStart.Started id pi)) \/
   (exists id pi, outcome r = inr (LiveStart.Started id pi) /\
      final r = <[id := Live.fresh_info img (LiveStart.started_at d)]> reg)).
Proof.
  intros r.
  assert (Hr : r = LiveStart.api_start_live_test py_int d img cmd pm reg)
    by reflexivity.
  clearbody r. revert Hr.
  destruct (start_resolve_inert d img reg) as (Hf1 & Hq1 & _ & He1).
  destruct (start_parse_pure py_int pm reg) as (v & Hparse & Hv).
  destruct (start_launch_inert d img cmd reg) as (Hf3 & Hq3 & He3).
  unfold LiveStart.api_start_live_test, LiveStart.or_return.
  unfold try_except. unfold bind at 1.
  destruct (LiveStart.resolve_image d img reg) as [[e | [early | []]] s1 t1];
    cbn [outcome final events] in *; subst s1.
  - destruct (is_Exception e); eff_run; intros ->; cbn [outcome final events];
      (split; [rewrite app_nil_r; exact Hq1 | left; split; [reflexivity | discriminate]]).
  - destruct (He1 early eq_refl) as [msg ->].
    eff_run; intros ->; cbn [outcome final events].
    split; [rewrite !app_nil_r; exact Hq1 | left; split; [reflexivity | discriminate]].
  - unfold bind at 1. rewrite Hparse.
    destruct v as [early | p].
    + rewrite (Hv early eq_refl).
      eff_run; intros ->; cbn [outcome final events].
      split; [rewrite !app_nil_r; exact Hq1 | left; split; [reflexivity | discriminate]].
    + unfold bind at 1.
      destruct (LiveStart.start_container d img cmd reg) as [[e | [early | cid]] s3 t3];
        cbn [outcome final events] in *; subst s3.
      * destruct (is_Exception e); eff_run; intros ->; cbn [outcome final events];
          (split; [rewrite ?app_nil_r; cbn [app]; apply quiet_app; assumption
                  | left; split; [reflexivity | discriminate]]).
      * destruct (He3 early eq_refl) as [msg ->].
        eff_run; intros ->; cbn [outcome final events].
        split; [rewrite ?app_nil_r; cbn [app]; apply quiet_app; assumption
               | left; split; [reflexivity | discriminate]].
      * destruct (start_verify_inert d p reg) as (Hf4 & Hev4 & He4).
        unfold bind at 1. unfold emit at 1. unfold bind at 1.
        destruct (LiveStart.verify d p reg) as [[e | [early | pinfo]] s4 t4];
          cbn [outcome final events] in *; subst s4 t4.
        -- destruct (is_Exception e); eff_run; intros ->; cbn [outcome final events];
             (split; [rewrite ?app_nil_r; cbn [app]; apply quiet_app;
                        [exact Hq1 | apply quiet_app; [exact Hq3 | split; reflexivity]]
                     | left; split; [reflexivity | discriminate]]).
        -- destruct (He4 early eq_refl) as [msg ->].
           eff_run; intros ->; cbn [outcome final events].
           split; [rewrite ?app_nil_r; cbn [app]; apply quiet_app;
                     [exact Hq1 | apply quiet_app; [exact Hq3 | split; reflexivity]]
                  | left; split; [reflexivity | discriminate]].
        -- eff_run; intros ->; cbn [outcome final events].
           split; [rewrite ?app_nil_r; cbn [app]; apply quiet_app;
                     [exact Hq1 | apply quiet_app; [exact Hq3 | split; reflexivity]]
                  | right; eauto].
Qed.

(** X5. A start request registers a container exactly when it answers
    with success: the registry then gains one fresh entry (empty
    histories, no samples) under the identifier it answers with and is
    otherwise unchanged; after any other answer the registry is as it
    was. A start request never stops nor removes a container. *)
Theorem start_registers_on_success (py_int : string -> option Z)
    (d : LiveStart.start_env) (img : string) (cmd pm : option string)
    (reg : gmap string Live.container_info) :
  let r := LiveStart.api_start_live_test py_int d img cmd pm reg in
  count is_stop (events r) = 0%nat /\
  count is_remove (events r) = 0%nat /\
  (forall id pi, outcome r = inr (LiveStart.Started id pi) ->
     final r !! id = Some (Live.Info img (LiveStart.started_at d) [] [] 0 "") /\
     forall k, k <> id -> final r !! k = reg !! k) /\
  ((forall id pi, outcome r <> inr (LiveStart.Started id pi)) -> final r = reg).
Proof.
  intros r. subst r.
  destruct (start_shape py_int d img cmd pm reg)
    as [[Hs Hr] [[Hf Hno] | (id & pi & Ho & Hf)]];
    (split; [exact Hs |]); (split; [exact Hr |]); split.
  - intros id pi Ho. destruct (Hno id pi Ho).
  - intros _. exact Hf.
  - intros id' pi' Ho'. rewrite Ho in Ho'. injection Ho' as <- <-.
    rewrite Hf. split; [apply lookup_insert_eq |].
    intros k Hk. apply lookup_insert_ne. congruence.
  - intros Hno. destruct (Hno id pi Ho).
Qed.

(** X6. When the container was launched but is not running two seconds
    later, the start request answers with an error and walks away: the
    container is not registered, and it is neither stopped nor
    removed. *)
Theorem start_abandons_exited_container (py_int : string -> option Z)
    (d : LiveStart.start_env) (img : string) (cmd : option string)
    (reg : gmap string Live.container_info) (id status : string) :
  LiveStart.get_image d = None ->
  LiveStart.run_attempt d 0 (LiveStart.first_launch cmd) = inr id ->
  LiveStart.reload_after d = inr status ->
  status <> "running" ->
  LiveStart.api_start_live_test py_int d img cmd None reg
  = Res (inr (LiveStart.StartError
                ("Container started but not running. Status: " +:+ status)))
      reg
      [EImagesGet img; ERun img (LiveStart.first_launch cmd); ESleep 2; EReload].
Proof.
  intros Hget Hrun Hrel Hst.
  unfold LiveStart.api_start_live_test, LiveStart.or_return,
    LiveStart.resolve_image, LiveStart.parse_ports, LiveStart.start_container,
    LiveStart.launch, LiveStart.verify.
  eff_run. rewrite Hget. cbn [Py.truthy_str]. eff_run. rewrite Hrun. eff_run.
  rewrite Hrel. apply String.eqb_neq in Hst. rewrite Hst. reflexivity.
Qed.

Lemma start_abandons_exited_container_witness :
  LiveStart.api_start_live_test (fun _ => None)
    (LiveStart.StartEnv None None (fun _ _ => inr "c9") (inr "exited") false 0)
    "alpine:latest" None None ∅
  = Res (inr (LiveStart.StartError "Container started but not running. Status: exited"))
      ∅ [EImagesGet "alpine:latest"; ERun "alpine:latest" None; ESleep 2; EReload].
Proof.
  apply (start_abandons_exited_container (fun _ => None)
           (LiveStart.StartEnv None None (fun _ _ => inr "c9") (inr "exited") false 0)
           "alpine:latest" None ∅ "c9" "exited");
    (reflexivity || discriminate).
Defined.

Lemma split_length (sep : ascii) (s : string) :
  length (LiveStart.split sep s) = S (count_char sep s).
Proof.
  induction s as [| a s IH]; [reflexivity |].
  cbn [LiveStart.split count_char].
  destruct (Ascii.eqb a sep).
  - cbn [length]. rewrite IH. reflexivity.
  - destruct (LiveStart.split sep s) as [| w ws]; [discriminate |].
    cbn [length] in *. lia.
Qed.

(** X7. A port mapping is accepted only if it has exactly one colon and
    the part before it reads as an integer; any other non-empty mapping
    is answered with "Invalid port mapping format" once the image is
    there, and no container is launched for it. *)
Theorem invalid_port_mapping_launches_nothing (py_int : string -> option Z)
    (d : LiveStart.start_env) (img : string) (cmd : option string)
    (a : ascii) (s : string) (reg : gmap string Live.container_info) :
  let pm := String a s in
  let r := LiveStart.api_start_live_test py_int d img cmd (Some pm) reg in
  count_char ":" pm <> 1%nat \/
  (exists host container,
     LiveStart.split ":" pm = [host; container] /\ py_int host = None) ->
  count is_run (events r) = 0%nat /\
  final r = reg /\
  (outcome (LiveStart.resolve_image d img reg) = inr (inr tt) ->
   outcome r = inr (LiveStart.StartError LiveStart.INVALID_PORTS)).
Proof.
  intros pm r Hbad.
  assert (Hparse : LiveStart.parse_ports py_int (Some pm) reg
                   = Res (inr (inl (LiveStart.StartError LiveStart.INVALID_PORTS)))
                       reg []).
  { unfold LiveStart.parse_ports.
    change (Py.truthy_str (Some pm)) with true. cbv iota.
    change (default "" (Some pm)) with pm.
    pose proof (split_length ":" pm) as Hlen.
    destruct Hbad as [Hcnt | (h & c & Hsplit & Hint)].
    - destruct (LiveStart.split ":" pm) as [| h [| c [| x l]]];
        try reflexivity.
      cbn [length] in Hlen. exfalso. apply Hcnt. lia.
    - rewrite Hsplit, Hint. reflexivity. }
  assert (Hr : r = LiveStart.api_start_live_test py_int d img cmd (Some pm) reg)
    by reflexivity.
  clearbody r. revert Hr.
  destruct (start_resolve_inert d img reg) as (Hf1 & _ & Hrun1 & He1).
  unfold LiveStart.api_start_live_test, LiveStart.or_return.
  unfold try_except. unfold bind at 1.
  destruct (LiveStart.resolve_image d img reg) as [[e | [early | []]] s1 t1];
    cbn [outcome final events] in *; subst s1.
  - destruct (is_Exception e); eff_run; intros ->; cbn [outcome final events];
      rewrite ?app_nil_r; repeat split; (assumption || reflexivity || discriminate).
  - eff_run; intros ->; cbn [outcome final events].
    rewrite ?app_nil_r. repeat split; (assumption || reflexivity || discriminate).
  - unfold bind at 1. rewrite Hparse.
    eff_run; intros ->; cbn [outcome final events].
    rewrite ?app_nil_r. repeat split; (assumption || reflexivity).
Qed.

Lemma invalid_port_mapping_witness :
  let r := LiveStart.api_start_live_test (fun _ => Some 8080)
             (LiveStart.StartEnv None None (fun _ _ => inr "c9") (inr "running")
                true 0)
             "nginx:latest" None (Some "8080:80:tcp") ∅ in
  count is_run (events r) = 0%nat /\ final r = ∅ /\
  (outcome (LiveStart.resolve_image
              (LiveStart.StartEnv None None (fun _ _ => inr "c9") (inr "running")
                 true 0) "nginx:latest" ∅) = inr (inr tt) ->
   outcome r = inr (LiveStart.StartError LiveStart.INVALID_PORTS)).
Proof.
  apply (invalid_port_mapping_launches_nothing (fun _ => Some 8080)
           (LiveStart.StartEnv None None (fun _ _ => inr "c9") (inr "running") true 0)
           "nginx:latest" None "8" "080:80:tcp" ∅).
  left. vm_compute. discriminate.
Defined.

Lemma start_registers_on_success_witness :
  let r := LiveStart.api_start_live_test (fun _ => Some 8080)
             (LiveStart.StartEnv None None (fun _ _ => inr "c9") (inr "running")
                true 7)
             "nginx:latest" None (Some "8080:80") Inputs.one_container in
  final r !! "c9" = Some (Live.Info "nginx:latest" 7 [] [] 0 "") /\
  forall k, k <> "c9" -> final r !! k = Inputs.one_container !! k.
Proof.
  refine (proj1 (proj2 (proj2 (start_registers_on_success (fun _ => Some 8080)
            (LiveStart.StartEnv None None (fun _ _ => inr "c9") (inr "running") true 7)
            "nginx:latest" None (Some "8080:80") Inputs.one_container)))
            "c9" (Some "(Port 8080 → 80) - Access at http://localhost:8080") _).
  vm_compute. reflexivity.
Defined.

(** ** The life of a live test *)

Lemma recommend_samples (d : Live.request_env) (i : Live.container_info)
    (reg : gmap string Live.container_info) (recs : Live.recommendations_t) :
  Live.recommend d i reg = Res (inr (Some recs)) reg [] ->
  Live.s_samples (Live.stats recs) = Live.samples i.
Proof.
  unfold Live.recommend, mean_or_raise, max_or_raise. eff_run.
  destruct (Live.cpu_history i) as [| c cs]; [discriminate |].
  destruct (Live.mem_history i) as [| m ms]; [discriminate |].
  cbn. intros [= <-]. reflexivity.
Qed.

Lemma polled_ok (stats : stats_t) (d : Live.request_env) (i : Live.container_info) :
  LiveSpec.entry_ok i -> LiveSpec.entry_ok (LiveSpec.entry_after d (LiveSpec.polled stats i)).
Proof.
  unfold LiveSpec.entry_ok, LiveSpec.entry_after, LiveSpec.polled.
  intros [Hs Hl]. destruct (Live.logs_now d); cbn; rewrite !length_app; cbn; lia.
Qed.

(** X8. The three endpoints of the live test keep the registry
    well-formed: in every entry the number of samples is the length of
    the CPU history, which is the length of the memory history. *)
Theorem live_registry_invariant (py_int : string -> option Z)
    (ds : LiveStart.start_env) (img : string) (cmd pm : option string)
    (d : Live.request_env) (cid : string)
    (reg : gmap string Live.container_info) :
  registry_ok reg ->
  registry_ok (final (LiveStart.api_start_live_test py_int ds img cmd pm reg)) /\
  registry_ok (final (Live.api_live_test_stats d cid reg)) /\
  registry_ok (final (Live.api_stop_live_test d cid reg)).
Proof.
  intros Hok. split; [| split].
  - destruct (start_shape py_int ds img cmd pm reg)
      as [_ [[-> _] | (id & pi & _ & ->)]]; [exact Hok |].
    intros k i. destruct (decide (id = k)) as [<- | Hne].
    + rewrite lookup_insert_eq. intros [= <-]. split; reflexivity.
    + rewrite lookup_insert_ne by assumption. apply Hok.
  - destruct (poll_cases d cid reg) as [[-> _] | (i & stats & Hreg & Hrel & Hst)];
      [exact Hok |].
    destruct (poll_with_payload d cid reg i stats Hreg Hrel Hst)
      as (ca & cp & ma & mp & _ & _ & _ & _ & ->).
    cbn [final]. intros k j. destruct (decide (cid = k)) as [<- | Hne].
    + rewrite lookup_insert_eq. intros [= <-]. apply polled_ok, (Hok cid i Hreg).
    + rewrite lookup_insert_ne by assumption. apply Hok.
  - destruct (reg !! cid) as [i |] eqn:Hreg.
    + destruct (stop_registered d cid reg i Hreg) as (recs & _ & ->).
      destruct (Live.stop_now d) as [e |]; [exact Hok |].
      destruct (Live.remove_now d) as [e |]; [exact Hok |].
      cbn [final]. intros k j Hk.
      destruct (decide (cid = k)) as [<- | Hne].
      * rewrite lookup_delete_eq in Hk. discriminate.
      * rewrite lookup_delete_ne in Hk by assumption. apply (Hok k j Hk).
    + rewrite (stop_unknown d cid reg Hreg). exact Hok.
Qed.

Lemma live_registry_invariant_witness :
  exists i,
    final (Live.api_live_test_stats Inputs.stalled_poll "c1" Inputs.one_container)
    !! "c1" = Some i /\
    LiveSpec.entry_ok i.
Proof.
  eexists. split; [vm_compute; reflexivity |].
  refine (proj1 (proj2 (live_registry_invariant (fun _ => None)
            (LiveStart.StartEnv None None (fun _ _ => inr "c9") (inr "running") true 0)
            "nginx:latest" None None Inputs.stalled_poll "c1"
            Inputs.one_container _)) "c1" _ _).
  - intros k i. unfold Inputs.one_container.
    destruct (decide ("c1" = k)) as [<- | Hne].
    + rewrite lookup_singleton_eq. intros [= <-]. split; reflexivity.
    + rewrite lookup_singleton_ne by assumption. discriminate.
  - vm_compute. reflexivity.
Defined.

(** X9. A live test from start to stop leaves the registry as it found
    it. Stopped straight after the start it answers with success and no
    recommendations; stopped after one poll that obtained a payload it
    answers with recommendations computed from one sample. *)
Theorem live_cycle_restores_registry (py_int : string -> option Z)
    (ds : LiveStart.start_env) (img : string) (cmd pm : option string)
    (reg : gmap string Live.container_info) (id : string) (pi : option string)
    (dp dq : Live.request_env) (stats : stats_t) :
  outcome (LiveStart.api_start_live_test py_int ds img cmd pm reg)
  = inr (LiveStart.Started id pi) ->
  reg !! id = None ->
  Live.reload_now dp = inr "running" ->
  Live.stats_now dp = inr stats ->
  Live.stop_now dq = None ->
  Live.remove_now dq = None ->
  let reg1 := final (LiveStart.api_start_live_test py_int ds img cmd pm reg) in
  let reg2 := final (Live.api_live_test_stats dp id reg1) in
  Live.api_stop_live_test dq id reg1
  = Res (inr (Live.RStopped None)) reg [EStop; ERemove] /\
  exists recs,
    Live.api_stop_live_test dq id reg2
    = Res (inr (Live.RStopped (Some recs))) reg [EStop; ERemove] /\
    Live.s_samples (Live.stats recs) = 1.
Proof.
  intros Ho Hfresh Hrel Hst Hstop Hrem reg1 reg2.
  assert (Hreg1 : reg1 = <[id := Live.fresh_info img (LiveStart.started_at ds)]> reg).
  { subst reg1.
    destruct (start_shape py_int ds img cmd pm reg)
      as [_ [[_ Hno] | (id' & pi' & Ho' & ->)]]; [destruct (Hno id pi Ho) |].
    rewrite Ho in Ho'. injection Ho' as -> _. reflexivity. }
  assert (Hdel : forall x, delete id (<[id := x]> reg) = reg).
  { intros x. rewrite delete_insert_eq. apply delete_id, Hfresh. }
  split.
  - destruct (stop_registered dq id reg1 (Live.fresh_info img (LiveStart.started_at ds)))
      as (recs & Hrec & ->); [rewrite Hreg1; apply lookup_insert_eq |].
    rewrite Hstop, Hrem, Hreg1, Hdel.
    unfold Live.recommend, Live.fresh_info in Hrec. cbn in Hrec.
    injection Hrec as <-. reflexivity.
  - set (i0 := Live.fresh_info img (LiveStart.started_at ds)) in *.
    assert (H1 : reg1 !! id = Some i0) by (rewrite Hreg1; apply lookup_insert_eq).
    destruct (poll_with_payload dp id reg1 i0 stats H1 Hrel Hst)
      as (ca & cp & ma & mp & _ & _ & _ & _ & Heq).
    assert (Hreg2 : reg2 = <[id := LiveSpec.entry_after dp (LiveSpec.polled stats i0)]> reg).
    { subst reg2. rewrite Heq. cbn [final]. rewrite Hreg1. apply insert_insert_eq. }
    set (i2 := LiveSpec.entry_after dp (LiveSpec.polled stats i0)) in *.
    destruct (stop_registered dq id reg2 i2) as (recs & Hrec & ->);
      [rewrite Hreg2; apply lookup_insert_eq |].
    rewrite Hstop, Hrem, Hreg2, Hdel.
    destruct (recommend_pure dq i2 (<[id := i2]> reg)) as (v & Hv & Hnone).
    rewrite Hreg2 in Hrec. rewrite Hrec in Hv. injection Hv as <-.
    destruct recs as [recs |].
    + exists recs. split; [reflexivity |].
      rewrite (recommend_samples dq i2 _ recs Hrec).
      unfold i2, LiveSpec.entry_after. destruct (Live.logs_now dp); reflexivity.
    + exfalso. destruct (proj1 Hnone eq_refl) as [H | H]; revert H;
        unfold i2, LiveSpec.entry_after, LiveSpec.polled;
        destruct (Live.logs_now dp); cbn; discriminate.
Qed.

Lemma live_cycle_restores_registry_witness :
  Live.api_stop_live_test Inputs.clean_stop "c9"
    (final (LiveStart.api_start_live_test (fun _ => None)
              (LiveStart.StartEnv None None (fun _ _ => inr "c9") (inr "running")
                 false 7)
              "nginx:latest" None None ∅))
  = Res (inr (Live.RStopped None)) ∅ [EStop; ERemove].
Proof.
  refine (proj1 (live_cycle_restores_registry (fun _ => None)
            (LiveStart.StartEnv None None (fun _ _ => inr "c9") (inr "running") false 7)
            "nginx:latest" None None ∅ "c9" None
            Inputs.clean_stop Inputs.clean_stop Inputs.busy_payload _ _ _ _ _ _));
    reflexivity.
Defined.

Lemma average_at_most_peak_witness :
  exists x,
    outcome (Web.estimate_single_image Inputs.shell_only_daemon "busybox" 2 None
               no_samples) = inr (Web.Ok x) /\
    (Web.cpu_avg x <= Web.cpu_peak x)%Q /\
    (Web.mem_avg_mb x <= Web.mem_peak_mb x)%Q.
Proof.
  eexists. split; [vm_compute; reflexivity |].
  apply (proj1 (proj2 (average_at_most_peak Inputs.shell_only_daemon "busybox" 2
                         None no_samples))).
  vm_compute. reflexivity.
Defined.

(** ** The two batch tools on the same daemon *)

Lemma sample_same (t : tick) (s : locals) :
  outcome (Cli.sample t s) = outcome (Web.sample t s) /\
  final (Cli.sample t s) = final (Web.sample t s).
Proof.
  destruct (reload_answer t) as [e | status] eqn:Hr.
  - unfold Cli.sample, Web.sample. eff_unfold. rewrite Hr.
    destruct e; simpl; split; reflexivity.
  - destruct (String.eqb_spec status "running") as [-> | Hne].
    + destruct (next_answer t) as [e | stats] eqn:Hn.
      * unfold Cli.sample, Web.sample. eff_unfold. rewrite Hr, Hn.
        destruct e; simpl; split; reflexivity.
      * rewrite (cli_sample_payload t stats s Hr Hn),
                (web_sample_payload t stats s Hr Hn). split; reflexivity.
    + unfold Cli.sample, Web.sample. eff_unfold. rewrite Hr. simpl.
      apply String.eqb_neq in Hne. rewrite Hne. simpl. split; reflexivity.
Qed.

Lemma collect_same (ticks : list tick) (s : locals) :
  outcome (Cli.collect ticks s) = outcome (Web.collect ticks s) /\
  final (Cli.collect ticks s) = final (Web.collect ticks s).
Proof.
  revert s. induction ticks as [| t rest IH]; intros s.
  - split; reflexivity.
  - simpl. unfold bind. destruct (sample_same t s) as [Ho Hf].
    destruct (Cli.sample t s) as [o1 s1 t1], (Web.sample t s) as [o2 s2 t2].
    simpl in Ho, Hf. subst o2 s2.
    destruct o1 as [e | [|]]; simpl; [auto | auto |].
    specialize (IH s1).
    destruct (Cli.collect rest s1) as [o3 s3 t3], (Web.collect rest s1) as [o4 s4 t4].
    exact IH.
Qed.

Lemma try_finally_final {St A} (m : M St A) (c : M St unit) (s : St) :
  final (try_finally m c s) = final (c (final (m s))).
Proof.
  unfold try_finally. destruct (m s) as [o s1 t1]. cbn [final].
  destruct (c s1) as [[e | []] s2 t2]; reflexivity.
Qed.

Lemma cli_cleanup_state (d : daemon) (s : locals) : final (Cli.cleanup d s) = s.
Proof.
  rewrite cli_cleanup_cases.
  destruct (stop_answer d) as [e |]; [reflexivity |].
  destruct (remove_answer d) as [e |]; reflexivity.
Qed.

Lemma cli_cleanup_final (d : daemon) (s : locals) :
  final (Cli.collect_and_cleanup d s) = final (Cli.collect (clock d) s).
Proof.
  unfold Cli.collect_and_cleanup. rewrite try_finally_final, cli_cleanup_state.
  unfold Cli.guarded_collect.
  destruct (try_except_run (Cli.collect (clock d))
    (fun e =>
       match e with
       | KeyboardInterrupt => print "Interrupted by user. Stopping container early."
       | _ =>
           if is_Exception e then
             print ("Error during stats collection: " +:+ str_of_exn e)
           else raise e
       end) s) as (_ & _ & ->).
  destruct (outcome (Cli.collect (clock d) s)) as [e | []]; [| reflexivity].
  destruct e; reflexivity.
Qed.

Lemma collect_without_cpu (ticks : list tick) (s : locals) :
  (forall t stats, In t ticks -> next_answer t = inr stats ->
                   Delta.guard stats = false) ->
  cpu_usages (final (Web.collect ticks s)) = cpu_usages s.
Proof.
  revert s. induction ticks as [| t rest IH]; intros s H; [reflexivity |].
  simpl. unfold bind.
  assert (Hrest : forall t' stats, In t' rest -> next_answer t' = inr stats ->
                                   Delta.guard stats = false)
    by (intros t' stats Hin; apply H; right; exact Hin).
  destruct (web_sample_cases t s) as [_ [Hf | (stats & _ & Hn & Heq)]].
  - destruct (Web.sample t s) as [[e | [|]] s1 t1]; simpl in *; subst s1;
      [reflexivity | reflexivity |].
    specialize (IH s Hrest). destruct (Web.collect rest s) as [o s2 t2]. exact IH.
  - rewrite Heq. specialize (IH (record_sample stats s) Hrest).
    destruct (Web.collect rest (record_sample stats s)) as [o s2 t2].
    cbn [final] in *. rewrite IH, record_sample_cpu, (H t stats (or_introl eq_refl) Hn).
    apply app_nil_r.
Qed.

(** X10. Without a payload whose counters pass the CPU guard there is
    no report: when every payload the daemon delivers has a system
    delta that is not positive (or a negative CPU delta), as on a host
    that does not report [system_cpu_usage], neither batch tool produces
    statistics, whatever memory values it collected. *)
Theorem no_report_without_cpu_sample (d : daemon) (img : string) (dur : Z)
    (cmd : option string) (s : locals) :
  (forall t stats, In t (clock d) -> next_answer t = inr stats ->
                   Delta.guard stats = false) ->
  (forall r, outcome (Cli.estimate_resources d img dur cmd s) <> inr r) /\
  (forall x, outcome (Web.estimate_single_image d img dur cmd s) <> inr (Web.Ok x)).
Proof.
  intros H.
  assert (Hw : cpu_usages (final (Web.collect_and_cleanup d no_samples)) = []).
  { destruct (web_cleanup_once d no_samples) as (_ & _ & _ & ->).
    apply (collect_without_cpu (clock d) no_samples H). }
  assert (Hc : cpu_usages (final (Cli.collect_and_cleanup d no_samples)) = []).
  { rewrite cli_cleanup_final. destruct (collect_same (clock d) no_samples) as [_ ->].
    apply (collect_without_cpu (clock d) no_samples H). }
  split.
  - intros r Hr. apply cli_report_origin in Hr. revert Hr.
    unfold Cli.summarise, Cli.exit_1. eff_run. rewrite Hc. discriminate.
  - intros x Hx. apply web_result_origin in Hx. revert Hx.
    unfold Web.summarise. eff_run. rewrite Hw. discriminate.
Qed.

Lemma no_report_without_cpu_sample_witness :
  (forall r,
     outcome (Cli.estimate_resources
                (Daemon None None (fun _ => None)
                   [Inputs.running Inputs.stalled_payload] None None)
                "nginx:latest" 1 None no_samples) <> inr r) /\
  (forall x,
     outcome (Web.estimate_single_image
                (Daemon None None (fun _ => None)
                   [Inputs.running Inputs.stalled_payload] None None)
                "nginx:latest" 1 None no_samples) <> inr (Web.Ok x)).
Proof.
  apply (no_report_without_cpu_sample
           (Daemon None None (fun _ => None)
              [Inputs.running Inputs.stalled_payload] None None)
           "nginx:latest" 1 None no_samples).
  intros t stats [<- | []] [= <-]. reflexivity.
Defined.

(** X11. The command-line tool and the web application agree: run
    against the same daemon, when both produce statistics the web result
    carries the figures of the command-line report rounded to two
    decimals, the same sizing, and the instance names of that sizing. *)
Theorem batch_tools_agree (d : daemon) (img : string) (dur : Z)
    (cmd : option string) (s s' : locals) (r : Cli.report) (x : Web.result_t) :
  outcome (Cli.estimate_resources d img dur cmd s) = inr r ->
  outcome (Web.estimate_single_image d img dur cmd s') = inr (Web.Ok x) ->
  Web.cpu_avg x = Py.round_nd (Cli.cpu_avg r) 2 /\
  Web.cpu_peak x = Py.round_nd (Cli.cpu_peak r) 2 /\
  Web.mem_avg_mb x = Py.round_nd (Cli.mem_avg_mb r) 2 /\
  Web.mem_peak_mb x = Py.round_nd (Cli.mem_peak_mb r) 2 /\
  Web.vcpu x = Cli.vcpu r /\
  Web.ram_gb x = Cli.ram_gb r /\
  Web.instances x = Sizing.get_instance_recommendations (Cli.vcpu r) (Cli.ram_gb r).
Proof.
  intros Hr Hx. apply cli_report_origin in Hr. apply web_result_origin in Hx.
  assert (Hsame : final (Cli.collect_and_cleanup d no_samples)
                  = final (Web.collect_and_cleanup d no_samples)).
  { rewrite cli_cleanup_final.
    destruct (web_cleanup_once d no_samples) as (_ & _ & _ & ->).
    apply collect_same. }
  rewrite Hsame in Hr. revert Hr Hx.
  generalize (final (Web.collect_and_cleanup d no_samples)). intros b.
  unfold Cli.summarise, Web.summarise, Cli.exit_1, mean_or_raise, max_or_raise.
  eff_run.
  destruct (cpu_usages b) as [| c cs]; [discriminate |].
  destruct (mem_usages b) as [| m ms]; [discriminate |].
  cbn [is_empty orb].
  destruct (Py.mean (c :: cs)) as [ac |]; [| discriminate].
  destruct (Py.max (c :: cs)) as [pc |]; [| discriminate].
  destruct (Py.mean (m :: ms)) as [am |]; [| discriminate].
  destruct (Py.max (m :: ms)) as [pm |]; [| discriminate].
  cbn [outcome]. intros [= <-] [= <-]. cbn. repeat split; reflexivity.
Qed.

Lemma batch_tools_agree_witness :
  exists r x,
    outcome (Cli.estimate_resources
               (Daemon None None (fun _ => None)
                  [Inputs.running Inputs.first_payload;
                   Inputs.running Inputs.busy_payload] None None)
               "nginx:latest" 2 None no_samples) = inr r /\
    outcome (Web.estimate_single_image
               (Daemon None None (fun _ => None)
                  [Inputs.running Inputs.first_payload;
                   Inputs.running Inputs.busy_payload] None None)
               "nginx:latest" 2 None no_samples) = inr (Web.Ok x) /\
    Web.cpu_peak x = Py.round_nd (Cli.cpu_peak r) 2 /\ Web.vcpu x = Cli.vcpu r.
Proof.
  eexists. eexists.
  split; [vm_compute; reflexivity |]. split; [vm_compute; reflexivity |].
  refine ((fun H => conj (proj1 (proj2 H)) (proj1 (proj2 (proj2 (proj2 (proj2 H))))))
            (batch_tools_agree
               (Daemon None None (fun _ => None)
                  [Inputs.running Inputs.first_payload;
                   Inputs.running Inputs.busy_payload] None None)
               "nginx:latest" 2 None no_samples no_samples _ _ _ _));
    vm_compute; reflexivity.
Defined.

(** ** The bulk test *)

Lemma web_only_base_exceptions (d : daemon) (img : string) (dur : Z)
    (cmd : option string) (s : locals) (e : exn) :
  outcome (Web.estimate_single_image d img dur cmd s) = inl e ->
  is_Exception e = false.
Proof.
  unfold Web.estimate_single_image.
  match goal with |- context [try_except ?m ?h s] =>
    destruct (try_except_run m h s) as (_ & -> & _);
    destruct (outcome (m s)) as [e0 | x]
  end; [| discriminate].
  destruct (is_Exception e0) eqn:He; eff_run; cbn [outcome];
    [discriminate | intros [= <-]; exact He].
Qed.

Lemma test_images_cons (world : nat -> daemon) (dur : Z) (idx : nat)
    (c : Bulk.image_config) (rest : list Bulk.image_config) (p : Bulk.progress) :
  Bulk.test_images world dur idx (c :: rest) p =
  let p1 := Bulk.set_current_image (Bulk.name c)
              (Bulk.set_current (Z.of_nat idx) p) in
  let r0 := Web.estimate_single_image (world idx) (Bulk.name c) dur
              (Bulk.command c) no_samples in
  match outcome r0 with
  | inl e => Res (inl e) p1 (events r0)
  | inr ret =>
      let r' := Bulk.test_images world dur (S idx) rest
                  (Bulk.append_result (Bulk.decorate c ret) p1) in
      Res (outcome r') (final r') (events r0 ++ ESleep 1 :: events r')
  end.
Proof.
  cbn [Bulk.test_images].
  cbv beta iota zeta delta [bind modify emit Bulk.call_estimate].
  destruct (Web.estimate_single_image (world idx) (Bulk.name c) dur
              (Bulk.command c) no_samples) as [[e | ret] s0 t0];
    cbn [outcome events final app]; [reflexivity |].
  destruct (Bulk.test_images world dur (S idx) rest _) as [o s1 t1].
  reflexivity.
Qed.

Lemma test_images_spec (world : nat -> daemon) (dur : Z)
    (images : list Bulk.image_config) :
  forall (idx : nat) (p : Bulk.progress),
    let r := Bulk.test_images world dur idx images p in
    Bulk.status (final r) = Bulk.status p /\
    Bulk.total (final r) = Bulk.total p /\
    (forall e, outcome r = inl e -> is_Exception e = false) /\
    (outcome r = inr tt ->
     Bulk.current (final r)
     = match images with
       | [] => Bulk.current p
       | _ :: _ => Z.of_nat (idx + length images) - 1
       end /\
     exists rs,
       Bulk.results (final r) = Bulk.results p ++ rs /\
       length rs = length images /\
       forall i c, images !! i = Some c ->
         exists ret,
           outcome (Web.estimate_single_image (world (idx + i)%nat) (Bulk.name c)
                      dur (Bulk.command c) no_samples) = inr ret /\
           rs !! i = Some (Bulk.decorate c ret)).
Proof.
  induction images as [| c rest IH]; intros idx p r; subst r.
  - cbn [Bulk.test_images ret final outcome].
    split; [reflexivity |]. split; [reflexivity |].
    split; [intros e; discriminate |].
    intros _. split; [reflexivity |]. exists []. rewrite app_nil_r.
    split; [reflexivity |]. split; [reflexivity |].
    intros i c Hi. rewrite lookup_nil in Hi. discriminate.
  - rewrite test_images_cons. cbv zeta.
    destruct (outcome (Web.estimate_single_image (world idx) (Bulk.name c) dur
                         (Bulk.command c) no_samples)) as [e | ret] eqn:H0.
    + cbn [final outcome].
      split; [reflexivity |]. split; [reflexivity |].
      split; [| discriminate].
      intros e' [= <-]. apply (web_only_base_exceptions _ _ _ _ _ _ H0).
    + set (p2 := Bulk.append_result (Bulk.decorate c ret)
                   (Bulk.set_current_image (Bulk.name c)
                      (Bulk.set_current (Z.of_nat idx) p))).
      destruct (IH (S idx) p2) as (Hs & Ht & He & Hok).
      cbn [final outcome]. split; [rewrite Hs; reflexivity |].
      split; [rewrite Ht; reflexivity |]. split; [exact He |].
      intros Ho. destruct (Hok Ho) as (Hcur & rs & Hrs & Hlen & Hall).
      split.
      * rewrite Hcur. destruct rest; cbn [length Bulk.current p2 Bulk.append_result
          Bulk.set_results Bulk.set_current_image Bulk.set_current]; lia.
      * exists (Bulk.decorate c ret :: rs). split; [| split].
        -- rewrite Hrs. unfold p2. cbn [Bulk.results Bulk.append_result
             Bulk.set_results]. rewrite <- app_assoc. reflexivity.
        -- cbn [length]. rewrite Hlen. reflexivity.
        -- intros [| i] c' Hi.
           ++ injection Hi as <-. exists ret. rewrite Nat.add_0_r. split;
                [exact H0 | reflexivity].
           ++ destruct (Hall i c' Hi) as (ret' & Hret & Hl).
              exists ret'. rewrite Nat.add_succ_r. split; assumption.
Qed.

Lemma run_bulk_over_unfold (world : nat -> daemon) (dur : Z)
    (images : list Bulk.image_config) (p : Bulk.progress) :
  Bulk.run_bulk_over world dur images p =
  let p0 := Bulk.set_results []
              (Bulk.set_current 0
                 (Bulk.set_total (Z.of_nat (length images))
                    (Bulk.set_status "running" p))) in
  let r' := Bulk.test_images world dur 1 images p0 in
  match outcome r' with
  | inl e => Res (inl e) (final r') (events r')
  | inr _ => Res (inr tt) (Bulk.set_status "complete" (final r')) (events r')
  end.
Proof.
  unfold Bulk.run_bulk_over.
  cbv beta iota zeta delta [bind modify].
  destruct (Bulk.test_images world dur 1 images _) as [[e | []] s1 t1];
    cbn [outcome events final app]; [reflexivity |].
  rewrite app_nil_r. reflexivity.
Qed.

(** X12. A bulk test that runs to its end leaves the progress record
    complete: the status is ["complete"], [current] and [total] are the
    number of images, and there is one result for each image, in the
    order of the images, which is what [estimate_single_image] returned
    for it, with the description and the category added exactly when it
    carries no error. The only way not to reach the end is an exception
    that is not an [Exception] escaping from a test, and then the status
    stays ["running"]. *)
Theorem bulk_run_completes (world : nat -> daemon) (dur : Z)
    (images : list Bulk.image_config) (p : Bulk.progress) :
  let r := Bulk.run_bulk_over world dur images p in
  (outcome r = inr tt ->
   Bulk.status (final r) = "complete" /\
   Bulk.total (final r) = Z.of_nat (length images) /\
   Bulk.current (final r) = Z.of_nat (length images) /\
   length (Bulk.results (final r)) = length images /\
   forall i c, images !! i = Some c ->
     exists ret,
       outcome (Web.estimate_single_image (world (S i)) (Bulk.name c) dur
                  (Bulk.command c) no_samples) = inr ret /\
       Bulk.results (final r) !! i = Some (Bulk.decorate c ret)) /\
  (forall e, outcome r = inl e ->
     is_Exception e = false /\ Bulk.status (final r) = "running").
Proof.
  intros r. subst r. rewrite run_bulk_over_unfold. cbv zeta.
  set (p0 := Bulk.set_results []
               (Bulk.set_current 0
                  (Bulk.set_total (Z.of_nat (length images))
                     (Bulk.set_status "running" p)))).
  destruct (test_images_spec world dur images 1 p0) as (Hs & Ht & He & Hok).
  destruct (outcome (Bulk.test_images world dur 1 images p0)) as [e | []] eqn:Ho.
  - cbn [outcome final]. split; [discriminate |].
    intros e' [= <-]. split; [apply He; reflexivity | rewrite Hs; reflexivity].
  - cbn [outcome final]. split; [| discriminate]. intros _.
    destruct (Hok eq_refl) as (Hcur & rs & Hrs & Hlen & Hall).
    cbn [Bulk.status Bulk.total Bulk.current Bulk.results Bulk.set_status].
    split; [reflexivity |]. split; [rewrite Ht; reflexivity |].
    split; [rewrite Hcur; destruct images; cbn [length]; [reflexivity | lia] |].
    rewrite Hrs. cbn [Bulk.results p0 Bulk.set_results app].
    split; [exact Hlen |]. intros i c Hi. apply (Hall i c Hi).
Qed.

Lemma bulk_run_completes_witness :
  Bulk.status
    (final (Bulk.run_bulk_over
              (fun _ => Daemon None None (fun _ => None)
                          [Inputs.running Inputs.busy_payload] None None)
              1 [Bulk.ImageConfig "redis:latest" (Some "redis-server")
                   "Redis Cache" "Databases" None]
              Bulk.idle))
  = "complete".
Proof.
  refine (proj1 (proj1 (bulk_run_completes
            (fun _ => Daemon None None (fun _ => None)
                        [Inputs.running Inputs.busy_payload] None None)
            1 [Bulk.ImageConfig "redis:latest" (Some "redis-server")
                 "Redis Cache" "Databases" None]
            Bulk.idle) _)).
  vm_compute. reflexivity.
Defined.

(** ** The results page of a bulk test *)

Lemma in_category_snoc (c : string) (l : list Bulk.entry) (x : Bulk.entry) :
  in_category c (l ++ [x])
  = in_category c l
    ++ (if negb (Bulk.has_error (Bulk.returned x))
           && String.eqb (Bulk.category_of x) c
        then [x] else []).
Proof.
  unfold in_category. rewrite List.filter_app. cbn [List.filter].
  destruct (negb _ && _); reflexivity.
Qed.

Lemma group_inv (results : list Bulk.entry) :
  NoDup (Bulk.group_by_category results).1 /\
  forall c,
    (in_category c results = [] ->
     (c ∉ (Bulk.group_by_category results).1) /\
     (Bulk.group_by_category results).2 !! c = None) /\
    (in_category c results <> [] ->
     (c ∈ (Bulk.group_by_category results).1) /\
     (Bulk.group_by_category results).2 !! c = Some (in_category c results)).
Proof.
  induction results as [| x l IH] using rev_ind.
  - cbn. split; [constructor |]. intros c. split; [| congruence].
    intros _. split; [apply not_elem_of_nil | apply lookup_empty].
  - unfold Bulk.group_by_category in *. rewrite fold_left_app. cbn [fold_left].
    destruct (fold_left Bulk.group_step l ([], ∅)) as [cats m].
    cbn [fst snd] in IH. destruct IH as [Hnd Hall].
    unfold Bulk.group_step. cbn [fst snd].
    destruct (Bulk.has_error (Bulk.returned x)) eqn:Herr.
    + cbn [fst snd]. split; [exact Hnd |]. intros c.
      rewrite in_category_snoc, Herr. cbn [negb andb]. rewrite app_nil_r.
      apply Hall.
    + assert (Hx : in_category (Bulk.category_of x) (l ++ [x])
                   = in_category (Bulk.category_of x) l ++ [x]).
      { rewrite in_category_snoc, Herr, String.eqb_refl. reflexivity. }
      assert (Hother : forall c, c <> Bulk.category_of x ->
                in_category c (l ++ [x]) = in_category c l).
      { intros c Hc. rewrite in_category_snoc, Herr.
        destruct (String.eqb_spec (Bulk.category_of x) c) as [E | _];
          [congruence | apply app_nil_r]. }
      case_bool_decide as Hin; cbn [fst snd].
      * split; [exact Hnd |]. intros c.
        destruct (decide (c = Bulk.category_of x)) as [-> | Hne].
        -- rewrite Hx, lookup_alter_eq.
           destruct (Hall (Bulk.category_of x)) as [Hnil Hcons].
           destruct (in_category (Bulk.category_of x) l) as [| y l'] eqn:E.
           { destruct (Hnil eq_refl) as [Hno _]. contradiction. }
           destruct Hcons as [_ ->]; [discriminate |].
           split; [discriminate |]. intros _. split; [exact Hin | reflexivity].
        -- rewrite (Hother c Hne), lookup_alter_ne by congruence. apply Hall.
      * split.
        { apply NoDup_app. split; [exact Hnd |]. split.
          - intros y Hy Hy'. apply list_elem_of_singleton in Hy'. subst y.
            contradiction.
          - apply NoDup_singleton. }
        intros c. destruct (decide (c = Bulk.category_of x)) as [-> | Hne].
        -- rewrite Hx, lookup_alter_eq, lookup_insert_eq.
           destruct (Hall (Bulk.category_of x)) as [Hnil Hcons].
           destruct (in_category (Bulk.category_of x) l) as [| y l'] eqn:E.
           ++ split; [discriminate |]. intros _. split; [| reflexivity].
              apply elem_of_app. right. apply list_elem_of_singleton. reflexivity.
           ++ destruct Hcons as [Hyes _]; [discriminate | contradiction].
        -- rewrite (Hother c Hne), lookup_alter_ne, lookup_insert_ne by congruence.
           destruct (Hall c) as [Hnil Hcons]. split.
           ++ intros E. destruct (Hnil E) as [Hno Hm]. split; [| exact Hm].
              intros Hc. apply elem_of_app in Hc as [Hc | Hc]; [contradiction |].
              apply list_elem_of_singleton in Hc. contradiction.
           ++ intros E. destruct (Hcons E) as [Hyes Hm]. split; [| exact Hm].
              apply elem_of_app. left. exact Hyes.
Qed.

(** X13. The grouping of the results page: no category is listed
    twice; a category is listed exactly when a result without error
    carries it; under a listed category stand the results without error
    of that category, all of them, in the order of the tests; a category
    that is not listed has no entry; results with an error appear under
    no category. *)
Theorem results_grouping (results : list Bulk.entry) :
  let categories := (Bulk.group_by_category results).1 in
  let results_by_category := (Bulk.group_by_category results).2 in
  NoDup categories /\
  forall c,
    (c ∈ categories <->
     (exists e, In e results /\ Bulk.has_error (Bulk.returned e) = false /\
                Bulk.category_of e = c)) /\
    (c ∈ categories -> results_by_category !! c = Some (in_category c results)) /\
    (c ∉ categories -> results_by_category !! c = None) /\
    (forall l e, results_by_category !! c = Some l -> In e l ->
                 Bulk.has_error (Bulk.returned e) = false).
Proof.
  intros categories results_by_category.
  destruct (group_inv results) as [Hnd Hall].
  split; [exact Hnd |]. intros c. destruct (Hall c) as [Hnil Hcons].
  fold categories in Hnil, Hcons. fold results_by_category in Hnil, Hcons.
  assert (Hmem : forall e, In e (in_category c results) <->
            In e results /\ Bulk.has_error (Bulk.returned e) = false /\
            Bulk.category_of e = c).
  { intros e. unfold in_category. rewrite List.filter_In, andb_true_iff,
      negb_true_iff, String.eqb_eq. tauto. }
  destruct (in_category c results) as [| y l'] eqn:E.
  - destruct (Hnil eq_refl) as [Hno Hm]. repeat split.
    + intros Hc. contradiction.
    + intros (e & He). apply Hmem in He. destruct He.
    + intros Hc. contradiction.
    + intros _. exact Hm.
    + intros l e Hl. rewrite Hm in Hl. discriminate.
  - destruct Hcons as [Hyes Hm]; [discriminate |]. repeat split.
    + intros _. exists y. apply Hmem. left. reflexivity.
    + intros _. exact Hyes.
    + intros _. exact Hm.
    + intros Hc. contradiction.
    + intros l e Hl He. rewrite Hm in Hl. injection Hl as <-.
      apply Hmem in He. tauto.
Qed.

Lemma results_grouping_witness :
  (Bulk.group_by_category
     [Bulk.Entry (Web.Error "Failed to pull image: not found") None None;
      Bulk.Entry (Web.Error Web.NO_STATS) None None]).2 !! "Databases" = None.
Proof.
  refine (proj1 (proj2 (proj2 (proj2 (results_grouping
            [Bulk.Entry (Web.Error "Failed to pull image: not found") None None;
             Bulk.Entry (Web.Error Web.NO_STATS) None None]) "Databases"))) _).
  cbn. apply not_elem_of_nil.
Defined.

(** X14. The success rate shown on the results page is an integer
    between 0 and 100; it is 0 for an empty list of results (no division
    is attempted) and 100 when the list is not empty and no result
    carries an error. *)
Theorem success_rate_bounds (results : list Bulk.entry) :
  0 <= Bulk.success_rate results <= 100 /\
  (results = [] -> Bulk.success_rate results = 0) /\
  (results <> [] ->
   (forall e, In e results -> Bulk.has_error (Bulk.returned e) = false) ->
   Bulk.success_rate results = 100).
Proof.
  assert (H0 : Py.round 0 = 0) by reflexivity.
  assert (H100 : Py.round 100 = 100) by reflexivity.
  assert (Hsucc : 0 <= Bulk.successful results <= Z.of_nat (length results)).
  { unfold Bulk.successful. split; [lia |].
    apply inj_le, List.filter_length_le. }
  unfold Bulk.success_rate.
  destruct (Z.ltb_spec 0 (Z.of_nat (length results))) as [Hpos | Hle].
  - assert (Hq : (0 < inject_Z (Z.of_nat (length results)))%Q).
    { change 0%Q with (inject_Z 0). rewrite <- Zlt_Qlt. exact Hpos. }
    assert (Hlo : (0 <= Py.truediv (Bulk.successful results)
                          (Z.of_nat (length results)))%Q).
    { unfold Py.truediv. apply Qle_shift_div_l; [exact Hq |].
      rewrite Qmult_0_l. change 0%Q with (inject_Z 0). rewrite <- Zle_Qle. lia. }
    assert (Hhi : (Py.truediv (Bulk.successful results)
                     (Z.of_nat (length results)) <= 1)%Q).
    { unfold Py.truediv. apply Qle_shift_div_r; [exact Hq |].
      rewrite Qmult_1_l. rewrite <- Zle_Qle. lia. }
    split; [| split].
    + split.
      * rewrite <- H0. apply round_mono. lra.
      * rewrite <- H100 at 2. apply round_mono. lra.
    + intros ->. cbn in Hpos. lia.
    + intros _ Hall.
      assert (Hfull : Bulk.successful results = Z.of_nat (length results)).
      { unfold Bulk.successful. f_equal. f_equal.
        apply forallb_filter_id. apply forallb_forall. intros e He.
        rewrite (Hall e He). reflexivity. }
      rewrite Hfull in *.
      assert (Hone : (1 <= Py.truediv (Z.of_nat (length results))
                            (Z.of_nat (length results)))%Q).
      { unfold Py.truediv. apply Qle_shift_div_l; [exact Hq |]. lra. }
      apply Z.le_antisymm.
      * rewrite <- H100 at 2. apply round_mono. lra.
      * rewrite <- H100 at 1. apply round_mono. lra.
  - split; [lia |]. split; [reflexivity |].
    intros Hne. destruct results; [congruence | cbn in Hle; lia].
Qed.

Lemma success_rate_bounds_witness :
  Bulk.success_rate
    [Bulk.Entry
       (Web.Ok (Web.Result "redis:latest" 20 1.5 2 10 12 1 0.02
                  (Sizing.get_instance_recommendations 1 0.02) 18))
       (Some "Redis Cache") (Some "Databases")] = 100.
Proof.
  refine (proj2 (proj2 (success_rate_bounds
            [Bulk.Entry
               (Web.Ok (Web.Result "redis:latest" 20 1.5 2 10 12 1 0.02
                          (Sizing.get_instance_recommendations 1 0.02) 18))
               (Some "Redis Cache") (Some "Databases")])) _ _).
  - discriminate.
  - intros e [<- | []]. reflexivity.
Defined.

(** ** The test runner: the comparison table and the report *)

Lemma length_append (s1 s2 : string) :
  String.length (s1 +:+ s2) = (String.length s1 + String.length s2)%nat.
Proof.
  induction s1 as [| a s1 IH]; [reflexivity |].
  change (S (String.length (s1 +:+ s2)) = S (String.length s1 + String.length s2)).
  rewrite IH. reflexivity.
Qed.

Lemma length_substring_0 (n : nat) (s : string) :
  (n <= String.length s)%nat -> String.length (String.substring 0 n s) = n.
Proof.
  revert s. induction n as [| n IH]; intros s Hn.
  - destruct s; reflexivity.
  - destruct s as [| a s]; cbn in *; [lia |]. rewrite IH; [reflexivity | lia].
Qed.

Lemma length_spaces (n : nat) : String.length (Runner.spaces n) = n.
Proof. induction n as [| n IH]; cbn; [reflexivity | rewrite IH; reflexivity]. Qed.

Lemma display_name_length (img_name : string) :
  String.length (Runner.display_name img_name)
  = if (String.length img_name <=? 24)%nat then String.length img_name else 24%nat.
Proof.
  unfold Runner.display_name.
  destruct (Nat.leb_spec (String.length img_name) 24) as [Hle | Hgt];
    [reflexivity |].
  cbv iota. rewrite length_append, length_substring_0 by lia. reflexivity.
Qed.

(** X15. The image column of the comparison table is always exactly 25
    characters wide, whatever the length of the image name: a name is
    shown as it is exactly when it has at most 24 characters, and a
    longer one is shown as its first 21 characters followed by three
    dots; the column is the shown name followed by spaces only. *)
Theorem image_column_width (img_name : string) :
  String.length (Runner.image_column img_name) = 25%nat /\
  (String.length (Runner.display_name img_name) <= 24)%nat /\
  (Runner.display_name img_name = img_name <->
   (String.length img_name <= 24)%nat) /\
  ((24 < String.length img_name)%nat ->
   exists head,
     Runner.display_name img_name = head +:+ "..." /\
     String.length head = 21%nat /\
     String.prefix head img_name = true) /\
  (exists k, (1 <= k)%nat /\
     Runner.image_column img_name
     = Runner.display_name img_name +:+ Runner.spaces k).
Proof.
  pose proof (display_name_length img_name) as Hlen.
  assert (Hcol : exists k, (1 <= k)%nat /\
            Runner.image_column img_name
            = Runner.display_name img_name +:+ Runner.spaces k).
  { exists (25 - String.length (Runner.display_name img_name))%nat.
    split; [| reflexivity].
    destruct (String.length img_name <=? 24)%nat eqn:E; [| lia].
    apply Nat.leb_le in E. lia. }
  destruct (Nat.leb_spec (String.length img_name) 24) as [Hle | Hgt].
  - split; [| split; [| split; [| split]]].
    + unfold Runner.image_column, Runner.ljust.
      rewrite length_append, length_spaces. lia.
    + lia.
    + split; [intros _; exact Hle |]. intros _. unfold Runner.display_name.
      apply Nat.leb_le in Hle. rewrite Hle. reflexivity.
    + lia.
    + exact Hcol.
  - split; [| split; [| split; [| split]]].
    + unfold Runner.image_column, Runner.ljust.
      rewrite length_append, length_spaces. lia.
    + lia.
    + split; [| lia]. intros E. rewrite E in Hlen. lia.
    + intros _. exists (String.substring 0 21 img_name).
      assert (H21 : String.length (String.substring 0 21 img_name) = 21%nat)
        by (apply length_substring_0; lia).
      split; [| split; [exact H21 |]].
      * unfold Runner.display_name.
        apply Nat.leb_gt in Hgt. rewrite Hgt. reflexivity.
      * apply prefix_correct. rewrite H21. reflexivity.
    + exact Hcol.
Qed.

Lemma image_column_width_witness :
  exists head,
    Runner.display_name "registry.example.com/platform/inventory-service:2.4.1"
    = head +:+ "..." /\
    String.length head = 21%nat /\
    String.prefix head "registry.example.com/platform/inventory-service:2.4.1" = true.
Proof.
  apply (proj1 (proj2 (proj2 (proj2 (image_column_width
           "registry.example.com/platform/inventory-service:2.4.1"))))).
  vm_compute. repeat constructor.
Defined.

Lemma has_error_annotate (c : Runner.image_config) (r : Runner.run_result) :
  Runner.has_error (Runner.annotate c r) = Runner.has_error r.
Proof. destruct r; reflexivity. Qed.

Lemma filter_length_perm {A} (f : A -> bool) (l l' : list A) :
  l ≡ₚ l' -> length (List.filter f l) = length (List.filter f l').
Proof.
  induction 1 as [| x l l' _ IH | x y l | l l' l'' _ IH1 _ IH2]; cbn.
  - reflexivity.
  - destruct (f x); cbn; rewrite IH; reflexivity.
  - destruct (f x), (f y); reflexivity.
  - rewrite IH1. exact IH2.
Qed.

Lemma collect_results_snoc (l : list (Runner.image_config * Runner.run_result))
    (t : Runner.image_config * Runner.run_result) :
  Runner.collect_results (l ++ [t])
  = <[Runner.name t.1 := Runner.annotate t.1 t.2]> (Runner.collect_results l).
Proof. unfold Runner.collect_results. rewrite fold_left_app. reflexivity. Qed.

Lemma collect_results_keys (l : list (Runner.image_config * Runner.run_result))
    (k : string) :
  k ∉ map (fun t => Runner.name t.1) l -> Runner.collect_results l !! k = None.
Proof.
  induction l as [| t l IH] using rev_ind; intros Hk.
  - apply lookup_empty.
  - rewrite collect_results_snoc. rewrite map_app in Hk.
    apply not_elem_of_app in Hk as [Hl Ht]. cbn in Ht.
    rewrite lookup_insert_ne; [apply IH, Hl |].
    intros E. apply Ht. rewrite E. apply list_elem_of_singleton. reflexivity.
Qed.

Lemma collect_results_values (l : list (Runner.image_config * Runner.run_result)) :
  NoDup (map (fun t => Runner.name t.1) l) ->
  Runner.values (Runner.collect_results l)
  ≡ₚ map (fun t => Runner.annotate t.1 t.2) l.
Proof.
  induction l as [| t l IH] using rev_ind; intros Hnd.
  - unfold Runner.values, Runner.collect_results. cbn.
    rewrite map_to_list_empty. reflexivity.
  - rewrite map_app in Hnd. apply NoDup_app in Hnd as (Hl & Hfresh & _).
    rewrite collect_results_snoc. unfold Runner.values.
    rewrite map_to_list_insert.
    + cbn [fmap list_fmap snd]. fold (Runner.values (Runner.collect_results l)).
      rewrite (IH Hl), map_app. cbn [map].
      apply Permutation_cons_append.
    + apply collect_results_keys. intros Hin. apply (Hfresh _ Hin).
      cbn. apply list_elem_of_singleton. reflexivity.
Qed.

Lemma filter_annotate_length (g : bool -> bool)
    (l : list (Runner.image_config * Runner.run_result)) :
  length (List.filter (fun r => g (Runner.has_error r))
            (map (fun t => Runner.annotate t.1 t.2) l))
  = length (List.filter (fun t => g (Runner.has_error t.2)) l).
Proof.
  induction l as [| t l IH]; [reflexivity |].
  cbn [map List.filter]. rewrite has_error_annotate.
  destruct (g (Runner.has_error t.2)); cbn [length]; rewrite IH; reflexivity.
Qed.

(** X16. The counts of the saved report: the successful and the failed
    tests add up to the total, which never exceeds the number of tests
    run (two tests of the same image name share one entry); when the
    image names are distinct the total is the number of tests, and the
    successful and failed tests are those whose estimation came back
    without and with an error. *)
Theorem report_counts (tests : list (Runner.image_config * Runner.run_result)) :
  let md := Runner.test_metadata (Runner.collect_results tests) in
  (Runner.successful_tests md + Runner.failed_tests md
   = Runner.total_images_tested md)%nat /\
  (Runner.total_images_tested md <= length tests)%nat /\
  (NoDup (map (fun t => Runner.name t.1) tests) ->
   Runner.total_images_tested md = length tests /\
   Runner.successful_tests md
   = length (List.filter (fun t => negb (Runner.has_error t.2)) tests) /\
   Runner.failed_tests md
   = length (List.filter (fun t => Runner.has_error t.2) tests)).
Proof.
  intros md. subst md. unfold Runner.test_metadata.
  cbn [Runner.successful_tests Runner.failed_tests Runner.total_images_tested].
  assert (Hval : length (Runner.values (Runner.collect_results tests))
                 = size (Runner.collect_results tests)).
  { unfold Runner.values. rewrite length_fmap. apply length_map_to_list. }
  split; [| split].
  - rewrite <- Hval, Nat.add_comm. apply List.filter_length.
  - clear Hval. induction tests as [| t l IH] using rev_ind.
    + cbn. rewrite map_size_empty. lia.
    + rewrite collect_results_snoc, map_size_insert, length_app. cbn [length].
      destruct (Runner.collect_results l !! Runner.name t.1); unfold id; lia.
  - intros Hnd. pose proof (collect_results_values tests Hnd) as Hperm.
    split; [| split].
    + rewrite <- Hval, Hperm. apply length_map.
    + rewrite (filter_length_perm _ _ _ Hperm).
      apply (filter_annotate_length negb).
    + rewrite (filter_length_perm _ _ _ Hperm).
      apply (filter_annotate_length (fun b => b)).
Qed.

Lemma report_counts_witness :
  Runner.total_images_tested
    (Runner.test_metadata
       (Runner.collect_results
          [(Runner.ImageConfig "redis:latest" (Some "redis-server") "Redis Cache"
              "Databases" None,
            Runner.Failed "Test timed out" None);
           (Runner.ImageConfig "alpine:latest" None "Alpine Linux (Minimal)"
              "Base Images" None,
            Runner.Failed "Process failed" (Some 1))]))
  = 2%nat.
Proof.
  refine (proj1 (proj2 (proj2 (report_counts
            [(Runner.ImageConfig "redis:latest" (Some "redis-server") "Redis Cache"
                "Databases" None,
              Runner.Failed "Test timed out" None);
             (Runner.ImageConfig "alpine:latest" None "Alpine Linux (Minimal)"
                "Base Images" None,
              Runner.Failed "Process failed" (Some 1))])) _)).
  cbn [map fst Runner.name]. apply (bool_decide_unpack _). vm_compute. exact I.
Defined.

(** ** The optional shutdown of the Docker engine *)

Lemma stop_docker_engine_cases (system : string)
    (answer : Engine.subprocess_answer) (s : locals) :
  exists lines,
    events (Engine.stop_docker_engine system answer s)
    = EPrint Engine.STOPPING :: map EPrint lines /\
    final (Engine.stop_docker_engine system answer s) = s /\
    (outcome (Engine.stop_docker_engine system answer s) = inr tt \/
     exists e, answer = Engine.Raised e /\ is_Exception e = false /\
               outcome (Engine.stop_docker_engine system answer s) = inl e).
Proof.
  unfold Engine.stop_docker_engine, Engine.run_then_print.
  destruct (String.eqb system "Windows");
    [| destruct (String.eqb system "Linux");
       [| destruct (String.eqb system "Darwin")]];
    try (destruct answer as [rc | | e]; [| | destruct (is_Exception e) eqn:He]);
    eff_run; cbn [events final outcome];
    try (eexists [_]; split; [reflexivity |]; split; [reflexivity |];
         left; reflexivity);
    try (eexists [_; _]; split; [reflexivity |]; split; [reflexivity |];
         left; reflexivity);
    (exists []; split; [reflexivity |]; split; [reflexivity |];
     right; exists e; auto).
Qed.

Lemma calls_app (t1 t2 : list event) : calls (t1 ++ t2) = calls t1 ++ calls t2.
Proof. apply List.filter_app. Qed.

Lemma calls_prints (lines : list string) : calls (map EPrint lines) = [].
Proof. induction lines as [| l lines IH]; [reflexivity | exact IH]. Qed.

(** X17. The [--stop-docker] flag: the Docker engine is shut down only
    after a run that produced its report, so a run that exits with
    status 1 leaves the engine running; without the flag the function is
    the plain estimation. The shutdown adds no call to the daemon and
    changes neither the buffers nor the report, whatever the platform and
    however the shutdown command ends (only an exception that is not an
    [Exception] gets through); its exit status is not looked at. *)
Theorem engine_shutdown_after_report (system : string)
    (answer : Engine.subprocess_answer) (d : daemon) (img : string) (dur : Z)
    (cmd : option string) (stop_docker : bool) (s : locals) :
  let plain := Cli.estimate_resources d img dur cmd s in
  let r := Engine.estimate_resources system answer d img dur cmd stop_docker s in
  final r = final plain /\
  calls (events r) = calls (events plain) /\
  (stop_docker = false \/ (exists e, outcome plain = inl e) -> r = plain) /\
  (stop_docker = true ->
   forall rep, outcome plain = inr rep ->
     (exists lines,
        events r = events plain ++ EPrint Engine.STOPPING :: map EPrint lines) /\
     (outcome r = inr rep \/
      exists e, answer = Engine.Raised e /\ is_Exception e = false /\
                outcome r = inl e)) /\
  (forall rc rc', answer = Engine.Returned rc ->
     Engine.estimate_resources system (Engine.Returned rc') d img dur cmd
       stop_docker s = r).
Proof.
  intros plain r.
  assert (H5 : forall rc rc', answer = Engine.Returned rc ->
            Engine.estimate_resources system (Engine.Returned rc') d img dur cmd
              stop_docker s = r)
    by (intros rc rc' ->; reflexivity).
  assert (Hr : r = Engine.estimate_resources system answer d img dur cmd
                     stop_docker s) by reflexivity.
  assert (Hp : plain = Cli.estimate_resources d img dur cmd s) by reflexivity.
  clearbody r plain. revert Hr. unfold Engine.estimate_resources.
  unfold bind at 1. rewrite <- Hp. clear Hp.
  destruct plain as [[e | rep] s1 t1].
  - intros Hr. split; [rewrite Hr; reflexivity |].
    split; [rewrite Hr; reflexivity |]. split; [intros _; exact Hr |].
    split; [intros _ rep; discriminate | exact H5].
  - destruct stop_docker.
    + cbn [when]. unfold bind at 1.
      destruct (stop_docker_engine_cases system answer s1)
        as (lines & Hev & Hfin & Hout).
      destruct (Engine.stop_docker_engine system answer s1) as [o s2 t2] eqn:Heng.
      cbn [events final outcome] in Hev, Hfin, Hout. subst s2 t2.
      assert (Hcalls : calls (t1 ++ EPrint Engine.STOPPING :: map EPrint lines)
                       = calls t1).
      { rewrite calls_app.
        change (calls (EPrint Engine.STOPPING :: map EPrint lines))
          with (calls (map EPrint lines)).
        rewrite calls_prints. apply app_nil_r. }
      destruct Hout as [-> | (e & Ha & He & ->)].
      * cbn [ret]. intros ->. cbn [final events outcome] in *.
        rewrite app_nil_r in *.
        split; [reflexivity |]. split; [exact Hcalls |].
        split; [intros [E | [e E]]; discriminate |].
        split; [| exact H5].
        intros _ rep' [= <-]. split; [exists lines; reflexivity |].
        left. reflexivity.
      * intros ->. cbn [final events outcome].
        split; [reflexivity |]. split; [exact Hcalls |].
        split; [intros [E | [e' E]]; discriminate |].
        split; [| exact H5].
        intros _ rep' [= <-]. split; [exists lines; reflexivity |].
        right. exists e. auto.
    + cbn [when]. eff_run. intros ->. cbn [final events outcome app] in *.
      rewrite app_nil_r in *.
      split; [reflexivity |]. split; [reflexivity |].
      split; [reflexivity |]. split; [discriminate | exact H5].
Qed.

Lemma engine_shutdown_after_report_witness :
  Engine.estimate_resources "Linux" (Engine.Returned 1)
    (Daemon None (Some (APIError "pull access denied")) (fun _ => None) [] None None)
    "nginx:latest" 30 None true no_samples
  = Cli.estimate_resources
      (Daemon None (Some (APIError "pull access denied")) (fun _ => None) [] None None)
      "nginx:latest" 30 None no_samples.
Proof.
  refine (proj1 (proj2 (proj2 (engine_shutdown_after_report "Linux"
            (Engine.Returned 1)
            (Daemon None (Some (APIError "pull access denied")) (fun _ => None) []
               None None)
            "nginx:latest" 30 None true no_samples))) _).
  right. eexists. vm_compute. reflexivity.
Defined.

(** ** Launching the container *)

(** X18. A custom command is never replaced: when one is given, each
    of the three entry points launches the container once, with that
    very command, and never enters the fallback chain, whatever the
    daemon answers. An empty custom command counts as none. *)
Theorem custom_command_never_replaced (d : daemon) (ds : LiveStart.start_env)
    (img : string) (a : ascii) (c : string) (s : locals)
    (reg : gmap string Live.container_info) :
  let cmd := String a c in
  calls (events (Cli.start_container d img (Some cmd) s))
  = [ERun img (Some (CmdStr cmd))] /\
  calls (events (Web.start_container d img (Some cmd) s))
  = [ERun img (Some (CmdStr cmd))] /\
  calls (events (LiveStart.start_container ds img (Some cmd) reg))
  = [ERun img (Some (CmdStr cmd))] /\
  Cli.start_container d img (Some "") s = Cli.start_container d img None s /\
  Web.start_container d img (Some "") s = Web.start_container d img None s /\
  LiveStart.start_container ds img (Some "") reg
  = LiveStart.start_container ds img None reg.
Proof.
  intros cmd. subst cmd. split; [| split; [| split]].
  - unfold Cli.start_container, Cli.run_container, Cli.exit_1, first_command.
    eff_run.
    destruct (containers_run d (Some (CmdStr (String a c)))) as [e |];
      [destruct e |];
      cbn [is_APIError str_of_exn Py.truthy_str negb]; rewrite ?andb_false_r;
      reflexivity.
  - unfold Web.start_container, Web.run_container, first_command.
    eff_run.
    destruct (containers_run d (Some (CmdStr (String a c)))) as [e |];
      [destruct e |];
      cbn [is_APIError str_of_exn Py.truthy_str negb]; rewrite ?andb_false_r;
      reflexivity.
  - unfold LiveStart.start_container, LiveStart.launch, LiveStart.first_launch.
    eff_run.
    destruct (LiveStart.run_attempt ds 0 (Some (CmdStr (String a c)))) as [e | id];
      [destruct e |];
      cbn [is_APIError str_of_exn Py.truthy_str negb]; rewrite ?andb_false_r;
      reflexivity.
  - repeat split; reflexivity.
Qed.

(** X19. A failed pull ends the run before anything is launched: when
    the image is not found locally and the pull fails with an API error,
    the command-line tool prints the failure and exits with status 1,
    the web application returns the failure as its error, and neither
    launches, stops or removes a container or touches the buffers. *)
Theorem failed_pull_launches_nothing (d : daemon) (img : string) (dur : Z)
    (cmd : option string) (s : locals) (m : string) (e : exn) :
  images_get d = Some (ImageNotFound m) ->
  images_pull d = Some e ->
  is_APIError e = true ->
  let rc := Cli.estimate_resources d img dur cmd s in
  let rw := Web.estimate_single_image d img dur cmd s in
  outcome rc = inl (SystemExit 1) /\
  outcome rw = inr (Web.Error ("Failed to pull image: " +:+ str_of_exn e)) /\
  calls (events rc) = [EImagesGet img; EImagesPull img] /\
  calls (events rw) = [EImagesGet img; EImagesPull img] /\
  In (EPrint ("Failed to pull image: " +:+ str_of_exn e)) (events rc) /\
  final rc = s /\ final rw = s.
Proof.
  intros Hget Hpull Hapi rc rw. subst rc rw.
  assert (Hc : Cli.resolve_image d img s
               = Res (inl (SystemExit 1)) s
                   [EPrint ("Checking if image '" +:+ img
                            +:+ "' is available locally...");
                    EImagesGet img;
                    EPrint "Image not found locally. Pulling from registry...";
                    EImagesPull img;
                    EPrint ("Failed to pull image: " +:+ str_of_exn e)]).
  { unfold Cli.resolve_image, Cli.exit_1. eff_run. rewrite Hget.
    cbv beta iota. rewrite Hpull. cbv beta iota. rewrite Hapi. reflexivity. }
  assert (Hw : Web.resolve_image d img s
               = Res (inr (Some (Web.Error ("Failed to pull image: "
                                            +:+ str_of_exn e)))) s
                   [EImagesGet img; EImagesPull img]).
  { unfold Web.resolve_image. eff_run. rewrite Hget.
    cbv beta iota. rewrite Hpull. cbv beta iota. rewrite Hapi. reflexivity. }
  assert (Hrc : Cli.estimate_resources d img dur cmd s
                = Res (inl (SystemExit 1)) s (events (Cli.resolve_image d img s))).
  { unfold Cli.estimate_resources. unfold bind at 1. rewrite Hc. reflexivity. }
  assert (Hrw : Web.estimate_single_image d img dur cmd s
                = Res (inr (Web.Error ("Failed to pull image: " +:+ str_of_exn e)))
                    s [EImagesGet img; EImagesPull img]).
  { unfold Web.estimate_single_image, Web.unless_returned, try_except.
    unfold bind at 1. rewrite Hw. cbn [ret]. rewrite app_nil_r. reflexivity. }
  rewrite Hrc, Hrw, Hc. cbn [outcome final events].
  split; [reflexivity |]. split; [reflexivity |]. split; [reflexivity |].
  split; [reflexivity |]. split; [| split; reflexivity].
  right. right. right. right. left. reflexivity.
Qed.

Lemma failed_pull_launches_nothing_witness :
  outcome (Cli.estimate_resources
             (Daemon (Some (ImageNotFound "No such image"))
                (Some (APIError "pull access denied")) (fun _ => None) [] None None)
             "nosuch:latest" 30 None no_samples)
  = inl (SystemExit 1).
Proof.
  refine (proj1 (failed_pull_launches_nothing
            (Daemon (Some (ImageNotFound "No such image"))
               (Some (APIError "pull access denied")) (fun _ => None) [] None None)
            "nosuch:latest" 30 None no_samples "No such image"
            (APIError "pull access denied") _ _ _)); reflexivity.
Defined.
